(** * Exit-time bookkeeping of the annotation workflow scripts

    A shallow embedding of [annotation_mac/auto_script.py] (and of the places
    where [annotation_mac_xlsx/auto_script.py] and
    [annotation_windows/auto_script.py] differ from it): the filename
    sanitiser, the markup-log loader and writer, the reconciliation loop of
    [onAppExit] and the rewrite of the master status log.

    Python [str] values are modelled as [string]; one [ascii] stands for one
    code point in the range 0..255. Python [int] is [Z]. A [dict] is an
    insertion-ordered association list with unique keys. The file system is a
    finite map from paths to file contents. *)

From Stdlib Require Import Ascii String ZArith Lia Bool List Sorted DecimalString DecimalZ DecimalPos.
From stdpp Require Import base option list gmap strings sorting.

Local Open Scope string_scope.

(** * Part I: the model *)

(** ** Python string primitives *)

Module Py.

(** The characters for which [str.isspace] holds, among the code points
    0..255: tab, line feed, vertical tab, form feed, carriage return, the
    four separators 28..31, space, NEL (133) and the no-break space (160). *)
Definition isspace (c : ascii) : bool :=
  match c with
  | "009" | "010" | "011" | "012" | "013"
  | "028" | "029" | "030" | "031" | " " | "133" | "160" => true
  | _ => false
  end%char.

Fixpoint lstrip (s : string) : string :=
  match s with
  | EmptyString => EmptyString
  | String c t => if isspace c then lstrip t else s
  end.

Fixpoint rstrip (s : string) : string :=
  match s with
  | EmptyString => EmptyString
  | String c t =>
      match rstrip t with
      | EmptyString => if isspace c then EmptyString else String c EmptyString
      | t' => String c t'
      end
  end.

(** [s.strip()] *)
Definition strip (s : string) : string := rstrip (lstrip s).

(** [c in s] for a one-character [c]. *)
Fixpoint char_in (c : ascii) (s : string) : bool :=
  match s with
  | EmptyString => false
  | String x t => Ascii.eqb x c || char_in c t
  end.

(** [s.startswith(p)] and [s.endswith(p)] *)
Definition startswith (s p : string) : bool := String.prefix p s.

Fixpoint endswith (s p : string) : bool :=
  String.eqb s p ||
  match s with
  | EmptyString => false
  | String _ t => endswith t p
  end.

(** [s.replace(old, new)]: the occurrences of [old] are found from left to
    right and do not overlap. [replace_from] walks [s]; [skip] counts the
    characters of a matched occurrence that are still to be passed over. *)
Fixpoint replace_from (old new s : string) (skip : nat) : string :=
  match s with
  | EmptyString => EmptyString
  | String c t =>
      match skip with
      | S k => replace_from old new t k
      | O =>
          if String.prefix old s
          then new +:+ replace_from old new t (String.length old - 1)
          else String c (replace_from old new t 0)
      end
  end.

(** With an empty [old] Python puts [new] before every character and at the
    end. *)
Fixpoint interleave (new s : string) : string :=
  match s with
  | EmptyString => new
  | String c t => new +:+ String c (interleave new t)
  end.

Definition replace (s old new : string) : string :=
  match old with
  | EmptyString => interleave new s
  | _ => replace_from old new s 0
  end.

(** [s.split(sep)] for a one-character separator. *)
Fixpoint split (s : string) (sep : ascii) : list string :=
  match s with
  | EmptyString => [EmptyString]
  | String c t =>
      if Ascii.eqb c sep then EmptyString :: split t sep
      else match split t sep with
           | h :: r => String c h :: r
           | [] => [String c EmptyString]
           end
  end.

(** [s.split(sep, maxsplit)] *)
Fixpoint splitn (s : string) (sep : ascii) (maxsplit : nat) : list string :=
  match s with
  | EmptyString => [EmptyString]
  | String c t =>
      match maxsplit with
      | O => [s]
      | S m =>
          if Ascii.eqb c sep then EmptyString :: splitn t sep m
          else match splitn t sep maxsplit with
               | h :: r => String c h :: r
               | [] => [String c EmptyString]
               end
      end
  end.

(** [sep.join(parts)] *)
Fixpoint join (sep : string) (parts : list string) : string :=
  match parts with
  | [] => EmptyString
  | [p] => p
  | p :: r => p +:+ sep +:+ join sep r
  end.

(** [str(n)] for an [int]. *)
Definition str (n : Z) : string := NilZero.string_of_int (Z.to_int n).

(** [int(s)]: surrounding whitespace is dropped, one sign is allowed, the
    rest must be a non-empty run of decimal digits; [None] stands for
    [ValueError]. (Digit grouping with underscores is left out: the only
    call site passes a piece of [split("_")].) *)
Definition digits (s : string) : option Z :=
  match s with
  | EmptyString => None
  | _ => Z.of_uint <$> NilEmpty.uint_of_string s
  end.

Definition int (s : string) : option Z :=
  match strip s with
  | String "-" t => Z.opp <$> digits t
  | String "+" t => digits t
  | t => digits t
  end.

(** Text-mode reading translates the line ends CR LF and CR to LF. *)
Fixpoint universal_newlines (s : string) : string :=
  match s with
  | EmptyString => EmptyString
  | String c t =>
      if Ascii.eqb c "013" then
        String "010"
          match t with
          | String c' t' =>
              if Ascii.eqb c' "010" then universal_newlines t'
              else universal_newlines t
          | EmptyString => EmptyString
          end
      else String c (universal_newlines t)
  end.

(** The lines of a text, each with its line feed (the last one may lack it). *)
Fixpoint lines_of (s : string) : list string :=
  match s with
  | EmptyString => []
  | String c t =>
      if Ascii.eqb c "010" then String c EmptyString :: lines_of t
      else match lines_of t with
           | h :: r => String c h :: r
           | [] => [String c EmptyString]
           end
  end.

(** [f.readlines()], also the lines that [for line in f] yields. *)
Definition readlines (text : string) : list string :=
  lines_of (universal_newlines text).

(** [bool(s)] for [s] a string or [None]. *)
Definition truthy (o : option string) : bool :=
  match o with
  | Some s => negb (String.eqb s EmptyString)
  | None => false
  end.

(** *** Insertion-ordered dictionaries

    [d[k] = v] keeps the position of a key that is already present and appends
    a new key at the end; iteration follows the list. *)

Definition dict (V : Type) : Type := list (string * V).

Fixpoint get {V} (d : dict V) (k : string) : option V :=
  match d with
  | [] => None
  | (k', v) :: r => if String.eqb k' k then Some v else get r k
  end.

Definition contains {V} (d : dict V) (k : string) : bool :=
  match get d k with Some _ => true | None => false end.

Fixpoint set {V} (d : dict V) (k : string) (v : V) : dict V :=
  match d with
  | [] => [(k, v)]
  | (k', v') :: r =>
      if String.eqb k' k then (k', v) :: r else (k', v') :: set r k v
  end.

Definition keys {V} (d : dict V) : list string := map fst d.

(** A dictionary display [{k1: v1, k2: v2, ...}]: a repeated key keeps its
    first position and takes the last value. *)
Definition literal {V} (items : list (string * V)) : dict V :=
  fold_left (fun d kv => set d (fst kv) (snd kv)) items [].

(** [os.path.join(a, b)] on a POSIX system. *)
Definition path_join (a b : string) : string :=
  if startswith b "/" then b
  else if String.eqb a EmptyString || endswith a "/" then a +:+ b
  else a +:+ "/" +:+ b.

End Py.

(** ** Sanitising filenames *)

Definition NUL : string := String "000" "".
Definition BACKSLASH : string := String "092" "".
Definition DQUOTE : string := String "034" "".
Definition LF : string := String "010" "".

Definition encode_replacements : Py.dict string :=
  Py.literal
    [ ("/", "_S_"); (BACKSLASH, "_B_"); (":", "_C_"); ("*", "_A_");
      ("?", "_Q_"); (DQUOTE, "_W_"); ("<", "_L_"); (">", "_G_");
      ("|", "_P_"); (NUL, "_N_"); (" ", "_U_"); (",", "_Z_");
      (DQUOTE, "_E_") ].

Definition encode_filename (name : string) : string :=
  fold_left (fun name kv => Py.replace name (fst kv) (snd kv))
            encode_replacements name.

Definition decode_replacements : Py.dict string :=
  Py.literal
    [ ("_S_", "/"); ("_B_", BACKSLASH); ("_C_", ":"); ("_A_", "*");
      ("_Q_", "?"); ("_W_", DQUOTE); ("_L_", "<"); ("_G_", ">");
      ("_P_", "|"); ("_N_", NUL); ("_U_", " "); ("_Z_", ",");
      ("_E_", DQUOTE) ].

Definition decode_filename (encoded_name : string) : string :=
  fold_left (fun name kv => Py.replace name (fst kv) (snd kv))
            decode_replacements encoded_name.

(** ** The file system, the console and exceptions

    A run of the script reads and changes files, prints, and may raise. A
    computation takes the world and gives a result, [Ok] or [Raised], with the
    world it leaves. Which file operations fail is decided by a fault table
    [fault]: an operation listed there raises [OSError] and has no effect. *)

Module Io.

Inductive io_op : Type :=
| OpOpenRead (path : string)
| OpReadLine (path : string) (n : nat)
| OpOpenWrite (path : string)
| OpWrite (path : string) (n : nat)
| OpClose (path : string)
| OpRemove (path : string)
| OpReplace (src dst : string).

Inductive exn : Type :=
| OSError (op : io_op)
| FileNotFoundError (path : string)
| KeyError (key : string)
| JSONDecodeError
| UnboundLocalError (name : string)
| HostError (msg : string).

Definition is_OSError (e : exn) : bool :=
  match e with
  | OSError _ | FileNotFoundError _ => true
  | _ => false
  end.

Record world : Type := World {
  fs : gmap string string;
  stdout : list string
}.

Inductive result (A : Type) : Type :=
| Ok (a : A)
| Raised (e : exn).

Arguments Ok {A} a.
Arguments Raised {A} e.

Definition M (A : Type) : Type := world -> result A * world.

Definition ret {A} (a : A) : M A := fun w => (Ok a, w).

Definition raise {A} (e : exn) : M A := fun w => (Raised e, w).

Definition bind {A B} (m : M A) (k : A -> M B) : M B :=
  fun w =>
    match m w with
    | (Ok a, w') => k a w'
    | (Raised e, w') => (Raised e, w')
    end.

(** [try: body except Exception as e: handler(e)] *)
Definition try_except {A} (body : M A) (handler : exn -> M A) : M A :=
  fun w =>
    match body w with
    | (Ok a, w') => (Ok a, w')
    | (Raised e, w') => handler e w'
    end.

(** [try: body except OSError as e: handler(e)]: another exception goes on. *)
Definition try_except_OSError {A} (body : M A) (handler : exn -> M A) : M A :=
  fun w =>
    match body w with
    | (Ok a, w') => (Ok a, w')
    | (Raised e, w') => if is_OSError e then handler e w' else (Raised e, w')
    end.

(** [for x in l: st = body(st, x)] *)
Fixpoint for_each {A S} (l : list A) (body : S -> A -> M S) (st : S) : M S :=
  match l with
  | [] => ret st
  | x :: r => bind (body st x) (for_each r body)
  end.

Definition print (line : string) : M unit :=
  fun w => (Ok tt, World (fs w) (stdout w ++ [line])).

Definition set_fs (f : gmap string string -> gmap string string) : M unit :=
  fun w => (Ok tt, World (f (fs w)) (stdout w)).

(** [os.path.exists(path)] *)
Definition path_exists (path : string) : M bool :=
  fun w => (Ok (bool_decide (is_Some (fs w !! path))), w).

Definition io (fault : io_op -> bool) (op : io_op) : M unit :=
  if fault op then raise (OSError op) else ret tt.

(** [open(path, 'r')] followed by [read()] *)
Definition read_text (fault : io_op -> bool) (path : string) : M string :=
  bind (io fault (OpOpenRead path)) (fun _ w =>
    match fs w !! path with
    | Some text => (Ok (Py.universal_newlines text), w)
    | None => (Raised (FileNotFoundError path), w)
    end).

(** [open(path, 'r')], giving the lines of the file *)
Definition open_read (fault : io_op -> bool) (path : string) : M (list string) :=
  bind (io fault (OpOpenRead path)) (fun _ w =>
    match fs w !! path with
    | Some text => (Ok (Py.readlines text), w)
    | None => (Raised (FileNotFoundError path), w)
    end).

(** [open(path, 'w')]: the file is created or emptied *)
Definition open_write (fault : io_op -> bool) (path : string) : M unit :=
  bind (io fault (OpOpenWrite path)) (fun _ => set_fs (insert path "")).

(** the [n]-th [write] to the file opened at [path] *)
Definition write (fault : io_op -> bool) (path : string) (n : nat)
    (data : string) : M unit :=
  bind (io fault (OpWrite path n)) (fun _ =>
    set_fs (fun f => <[path := default "" (f !! path) +:+ data]> f)).

Definition close (fault : io_op -> bool) (path : string) : M unit :=
  io fault (OpClose path).

(** [os.remove(path)] *)
Definition remove (fault : io_op -> bool) (path : string) : M unit :=
  bind (io fault (OpRemove path)) (fun _ w =>
    match fs w !! path with
    | Some _ => (Ok tt, World (delete path (fs w)) (stdout w))
    | None => (Raised (FileNotFoundError path), w)
    end).

(** [os.replace(src, dst)] *)
Definition os_replace (fault : io_op -> bool) (src dst : string) : M unit :=
  bind (io fault (OpReplace src dst)) (fun _ w =>
    match fs w !! src with
    | Some text =>
        (Ok tt, World (<[dst := text]> (delete src (fs w))) (stdout w))
    | None => (Raised (FileNotFoundError src), w)
    end).

Definition str_exn (e : exn) : string :=
  match e with
  | OSError _ => "OSError"
  | FileNotFoundError path => "No such file or directory: " +:+ path
  | KeyError key => key
  | JSONDecodeError => "JSONDecodeError"
  | UnboundLocalError name => "local variable referenced before assignment: " +:+ name
  | HostError msg => msg
  end.

End Io.

Declare Scope io_scope.
Delimit Scope io_scope with io.
Notation "x <- m ;; k" := (Io.bind m (fun x => k))
  (at level 100, m at next level, right associativity) : io_scope.
Notation "m ;; k" := (Io.bind m (fun _ => k))
  (at level 100, right associativity) : io_scope.

(** ** The host application

    A markup node of the scene, and what [slicer.util.saveNode] does with it:
    it writes the file and returns [True], returns [False], or raises. *)

Record MarkupNode : Type := {
  GetName : string;
  GetID : string;
  GetClassName : string
}.

Inductive save_outcome : Type :=
| SaveTrue (text : string)
| SaveFalse
| SaveRaises (e : Io.exn).

(** What the script is started with and what it asks its environment. *)
Record Env : Type := {
  (** [os.path.abspath(args.source_folder)] *)
  sourceFolder : string;
  (** [args.report_number] *)
  report_number : string;
  (** [os.path.abspath(args.log_csv)] *)
  log_csv : string;
  (** [datetime.datetime.now().isoformat()] at exit *)
  now_str : string;
  (** [slicer.util.saveNode(node, path)] *)
  saveNode : MarkupNode -> string -> save_outcome;
  (** [json.dumps(json.load(f))] on the text of [f]; [None] when the text is
      not JSON *)
  json_reload : string -> option string;
  (** [extract_markup_content(node)] of the xlsx script, which reads the
      control points of the node *)
  extract_markup_content : MarkupNode -> string;
  (** the file operations that fail *)
  fault : Io.io_op -> bool
}.

(** ** [annotation_mac/auto_script.py]: [onAppExit] *)

Module Mac.

Import Io.
Local Open Scope io_scope.

(** One value of [markup_log]. *)
Record entry : Type := Entry {
  created_at : string;
  content : string;
  deleted_at : string
}.

(** The variables that the loop over the markup nodes updates. *)
Record loop_state : Type := LoopState {
  markup_log : Py.dict entry;
  max_number : Z;
  current_filenames : gset string
}.

Definition header : string := "filename,created_at,content,deleted_at" +:+ LF.

(** *** Loading the markup log *)

Definition parse_line (markup_log : Py.dict entry) (line : string)
    : Py.dict entry :=
  let parts := Py.splitn (Py.strip line) "," 3 in
  if (4 <=? length parts)%nat then
    Py.set markup_log (nth 0 parts "")
      {| created_at := nth 1 parts "";
         content := nth 2 parts "";
         deleted_at := nth 3 parts "" |}
  else markup_log.

(** [for line in log.readlines()[1:]: ...] *)
Definition parse_markup_log (lines : list string) : Py.dict entry :=
  fold_left parse_line (tail lines) [].

(** *** The last appended number *)

Definition number_part (markup : string) : option Z :=
  Py.int (List.last (Py.split (Py.replace markup ".json" "") "_") "").

Definition bump (max_number : Z) (markup : string) : Z :=
  match number_part markup with
  | Some number_part =>
      if (number_part >? max_number)%Z then number_part else max_number
  | None => max_number
  end.

Definition last_number (markup_log : Py.dict entry) : Z :=
  match markup_log with
  | [] => 0%Z
  | _ => fold_left bump (Py.keys markup_log) 0%Z
  end.

(** *** Naming a markup node *)

Definition find_existing (markup_log : Py.dict entry)
    (encoded_node_name : string) : option string :=
  find (fun fname => String.eqb fname (encoded_node_name +:+ ".json"))
       (Py.keys markup_log).

(** Lines 285 to 302: the file name of a node and the counter afterwards. *)
Definition assign_name (markup_log : Py.dict entry) (max_number : Z)
    (markupNode : MarkupNode) : string * Z :=
  let node_name := GetName markupNode in
  let encoded_node_name := encode_filename node_name in
  let existing_file := find_existing markup_log encoded_node_name in
  if Py.truthy existing_file then (default "" existing_file, max_number)
  else
    let max_number := (max_number + 1)%Z in
    let base_name := encoded_node_name in
    (base_name +:+ "_" +:+ Py.str max_number +:+ ".json", max_number).

(** Lines 315 to 323. *)
Definition record_saved (now_str : string) (markup_log : Py.dict entry)
    (safe_name content : string) : Py.dict entry :=
  match Py.get markup_log safe_name with
  | None =>
      Py.set markup_log safe_name
        {| created_at := now_str; content := content; deleted_at := "" |}
  | Some data =>
      Py.set markup_log safe_name
        {| created_at := created_at data; content := content; deleted_at := "" |}
  end.

Section WithEnv.

Variable env : Env.

Definition markup_log_file : string :=
  Py.path_join (sourceFolder env) "markup_log.csv".

Definition load_markup_log : M (Py.dict entry) :=
  found <- path_exists markup_log_file ;;
  if found then
    lines <- open_read (fault env) markup_log_file ;;
    ret (parse_markup_log lines)
  else ret [].

(** The body of [for markupNode in final_markup_nodes]. *)
Definition save_markup (st : loop_state) (markupNode : MarkupNode)
    : M loop_state :=
  let node_name := GetName markupNode in
  let '(safe_name, max_number) :=
    assign_name (markup_log st) (max_number st) markupNode in
  let output_path := Py.path_join (sourceFolder env) safe_name in
  let current_filenames := {[ safe_name ]} ∪ current_filenames st in
  let unchanged := LoopState (markup_log st) max_number current_filenames in
  try_except
    (match saveNode env markupNode output_path with
     | SaveTrue text =>
         set_fs (insert output_path text) ;;
         print ("Saved markup:" +:+ output_path) ;;
         text <- read_text (fault env) output_path ;;
         match json_reload env text with
         | Some dumped =>
             let content := Py.replace (Py.replace dumped LF "") "," ";" in
             ret (LoopState
                    (record_saved (now_str env) (markup_log st) safe_name content)
                    max_number current_filenames)
         | None => raise JSONDecodeError
         end
     | SaveFalse =>
         print ("Failed to save markup: " +:+ node_name) ;;
         ret unchanged
     | SaveRaises e => raise e
     end)
    (fun e =>
       print ("Error saving markup " +:+ node_name +:+ ": " +:+ str_exn e) ;;
       ret unchanged).

Definition save_markups (markup_log : Py.dict entry)
    (final_markup_nodes : list MarkupNode) : M loop_state :=
  for_each final_markup_nodes save_markup
    (LoopState markup_log (last_number markup_log) ∅).

(** *** Deleted markups *)

Definition deleted_files (markup_log : Py.dict entry)
    (current_filenames : gset string) : gset string :=
  let saved_filenames : gset string := list_to_set (Py.keys markup_log) in
  saved_filenames ∖ current_filenames.

(** The body of [for deleted_file in deleted_files]. *)
Definition delete_markup (markup_log : Py.dict entry) (deleted_file : string)
    : M (Py.dict entry) :=
  let file_path := Py.path_join (sourceFolder env) deleted_file in
  try_except
    (found <- path_exists file_path ;;
     (if found then
        remove (fault env) file_path ;;
        print ("Deleted markup file: " +:+ deleted_file)
      else ret tt) ;;
     match Py.get markup_log deleted_file with
     | Some data =>
         if String.eqb (deleted_at data) "" then
           ret (Py.set markup_log deleted_file
                  {| created_at := created_at data;
                     content := content data;
                     deleted_at := now_str env |})
         else ret markup_log
     | None => raise (KeyError deleted_file)
     end)
    (fun e =>
       print ("Failed to delete " +:+ deleted_file +:+ ": " +:+ str_exn e) ;;
       ret markup_log).

Definition detect_deleted (st : loop_state) : M (Py.dict entry) :=
  for_each (elements (deleted_files (markup_log st) (current_filenames st)))
    delete_markup (markup_log st).

(** *** Saving the markup log *)

Definition format_entry (fname : string) (data : entry) : string :=
  fname +:+ "," +:+ created_at data +:+ "," +:+
  DQUOTE +:+ content data +:+ DQUOTE +:+ "," +:+ deleted_at data +:+ LF.

Fixpoint write_entries (path : string) (n : nat) (items : Py.dict entry)
    : M unit :=
  match items with
  | [] => ret tt
  | (fname, data) :: rest =>
      write (fault env) path n (format_entry fname data) ;;
      write_entries path (S n) rest
  end.

Definition write_markup_log (markup_log : Py.dict entry) : M unit :=
  open_write (fault env) markup_log_file ;;
  write (fault env) markup_log_file 0 header ;;
  write_entries markup_log_file 1 markup_log ;;
  close (fault env) markup_log_file.

(** The text that [write_markup_log] produces. *)
Definition format_markup_log (markup_log : Py.dict entry) : string :=
  header +:+
  fold_right (fun item rest => format_entry (fst item) (snd item) +:+ rest)
             "" markup_log.

(** *** The report log

    [annotation_windows/auto_script.py] updates the report log with the same
    lines. *)

Definition temp_csv : string := log_csv env +:+ ".tmp".

Definition done_status_of (final_markup_nodes : list MarkupNode) : string :=
  if (0 <? length final_markup_nodes)%nat then "True" else "".

(** Lines 363 to 367: the new text of a matching line. *)
Definition update_row (done_status line : string) : string :=
  let parts := Py.split (Py.strip line) "," in
  let parts := (parts ++ repeat "" (3 - length parts))%list in
  let parts := <[2%nat := done_status]> parts in
  Py.join "," parts +:+ LF.

Definition update_line (done_status line : string) : string :=
  if Py.startswith line (report_number env +:+ ",")
  then update_row done_status line
  else line.

(** [for line in infile: outfile.write(...)] *)
Fixpoint rewrite_lines (done_status : string) (n : nat) (lines : list string)
    : M unit :=
  match lines with
  | [] => ret tt
  | line :: rest =>
      io (fault env) (OpReadLine (log_csv env) n) ;;
      write (fault env) temp_csv n (update_line done_status line) ;;
      rewrite_lines done_status (S n) rest
  end.

Definition update_report_log (final_markup_nodes : list MarkupNode) : M unit :=
  try_except
    (let done_status := done_status_of final_markup_nodes in
     lines <- open_read (fault env) (log_csv env) ;;
     open_write (fault env) temp_csv ;;
     rewrite_lines done_status 0 lines ;;
     close (fault env) temp_csv ;;
     os_replace (fault env) temp_csv (log_csv env) ;;
     print ("Updated log for report " +:+ report_number env +:+ " to Done=" +:+
            (if String.eqb done_status "" then "Empty" else done_status)))
    (fun e => print ("Failed to update log file: " +:+ str_exn e)).

(** *** The exit handler *)

(** Everything up to the point where the markup log is written back. *)
Definition reconcile (final_markup_nodes : list MarkupNode)
    : M (Py.dict entry) :=
  markup_log <- load_markup_log ;;
  st <- save_markups markup_log final_markup_nodes ;;
  detect_deleted st.

Definition onAppExit (final_markup_nodes : list MarkupNode) : M unit :=
  print "Slicer is closing. Cleaning up custom UI..." ;;
  print "Custom UI cleaned up." ;;
  print "Slicer is closing. Saving all markups..." ;;
  markup_log <- reconcile final_markup_nodes ;;
  write_markup_log markup_log ;;
  update_report_log final_markup_nodes.

End WithEnv.

End Mac.

(** ** [annotation_mac_xlsx/auto_script.py]: the reconciliation of [onAppExit]

    The markup log is a workbook there. What [load_workbook] gives and what
    [wb.save] takes is the dictionary [markup_log] itself; the loop over the
    nodes and the loop over the deleted files are modelled from lines 233 to
    313. A cell holds a string or is empty ([None]). *)

Module Xlsx.

Import Io.
Local Open Scope io_scope.

Record entry : Type := Entry {
  report_content : option string;
  original_filename : option string;
  created_at : option string;
  deleted_at : option string
}.

(** The variables that the loop over the markup nodes updates; [markup_type]
    is unbound until a node of a known class has set it. *)
Record loop_state : Type := LoopState {
  markup_log : Py.dict entry;
  max_number : Z;
  current_filenames : gset string;
  markup_type : option string;
  markup_error : Py.dict (entry * string)
}.

(** Lines 233 to 241. *)
Definition last_number (markup_log : Py.dict entry) : Z :=
  fold_left Mac.bump (Py.keys markup_log) 0%Z.

(** Lines 251 to 254. *)
Definition find_existing (markup_log : Py.dict entry) (node_name : string)
    : option string :=
  find (fun fname => String.eqb (Py.replace fname ".json" "") node_name)
       (Py.keys markup_log).

(** Lines 260 to 266: an unknown class leaves [markup_type] as it was. *)
Definition classify (class_name : string) (markup_type : option string)
    : option string :=
  if String.eqb class_name "vtkMRMLMarkupsFiducialNode" then Some "point"
  else if String.eqb class_name "vtkMRMLMarkupsLineNode" then Some "line"
  else if String.eqb class_name "vtkMRMLMarkupsROINode" then Some "roi"
  else markup_type.

(** [not x] for the value of a cell. *)
Definition falsy (cell : option string) : bool := negb (Py.truthy cell).

Section WithEnv.

Variable env : Env.

(** The host saves the node: the file is written when it succeeds; the
    returned flag is not looked at. *)
Definition save_node (markupNode : MarkupNode) (output_path : string) : M unit :=
  match saveNode env markupNode output_path with
  | SaveTrue text => set_fs (insert output_path text)
  | SaveFalse => ret tt
  | SaveRaises e => raise e
  end.

(** The [except OSError] branch. *)
Definition log_error (st : loop_state) (markupNode : MarkupNode)
    (node_name safe_name : string) (e : exn) : M loop_state :=
  print ("Error saving markup " +:+ node_name +:+ ": " +:+ str_exn e) ;;
  ret (LoopState (markup_log st) (max_number st) (current_filenames st)
         (markup_type st)
         (Py.set (markup_error st) safe_name
            (Entry (Some node_name) None (Some (now_str env)) None,
             extract_markup_content env markupNode))).

(** The body of [for markupNode in final_markup_nodes]. *)
Definition save_markup (st : loop_state) (markupNode : MarkupNode)
    : M loop_state :=
  let node_name := Py.strip (GetName markupNode) in
  let existing_file := find_existing (markup_log st) node_name in
  if Py.truthy existing_file then
    let safe_name := default "" existing_file in
    let output_path := Py.path_join (sourceFolder env) safe_name in
    let st := LoopState (markup_log st) (max_number st)
                ({[ safe_name ]} ∪ current_filenames st)
                (markup_type st) (markup_error st) in
    try_except_OSError
      (save_node markupNode output_path ;;
       print ("Saved markup: " +:+ output_path) ;;
       ret st)
      (log_error st markupNode node_name safe_name)
  else
    let max_number := (max_number st + 1)%Z in
    match classify (GetClassName markupNode) (markup_type st) with
    | None => raise (UnboundLocalError "markup_type")
    | Some markup_type =>
        let safe_name := markup_type +:+ "_" +:+ Py.str max_number +:+ ".json" in
        let output_path := Py.path_join (sourceFolder env) safe_name in
        let st := LoopState (markup_log st) max_number
                    ({[ safe_name ]} ∪ current_filenames st)
                    (Some markup_type) (markup_error st) in
        try_except_OSError
          (save_node markupNode output_path ;;
           print ("Saved markup: " +:+ output_path) ;;
           ret (LoopState
                  (Py.set (markup_log st) safe_name
                     (Entry (Some node_name) None (Some (now_str env)) None))
                  (Xlsx.max_number st) (current_filenames st)
                  (Xlsx.markup_type st) (markup_error st)))
          (log_error st markupNode node_name safe_name)
    end.

Definition save_markups (markup_log : Py.dict entry)
    (final_markup_nodes : list MarkupNode) : M loop_state :=
  for_each final_markup_nodes save_markup
    (LoopState markup_log (last_number markup_log) ∅ None []).

Definition deleted_files (markup_log : Py.dict entry)
    (current_filenames : gset string) : gset string :=
  let saved_filenames : gset string := list_to_set (Py.keys markup_log) in
  saved_filenames ∖ current_filenames.

(** The body of [for deleted_file in deleted_files]. *)
Definition delete_markup (markup_log : Py.dict entry) (deleted_file : string)
    : M (Py.dict entry) :=
  let file_path := Py.path_join (sourceFolder env) deleted_file in
  try_except
    (found <- path_exists file_path ;;
     (if found then
        remove (fault env) file_path ;;
        print ("Deleted markup file: " +:+ deleted_file)
      else ret tt) ;;
     match Py.get markup_log deleted_file with
     | Some data =>
         if falsy (deleted_at data) then
           ret (Py.set markup_log deleted_file
                  (Entry (report_content data) (original_filename data)
                         (created_at data) (Some (now_str env))))
         else ret markup_log
     | None => ret markup_log
     end)
    (fun e =>
       print ("Failed to delete " +:+ deleted_file +:+ ": " +:+ str_exn e) ;;
       ret markup_log).

Definition detect_deleted (st : loop_state) : M (Py.dict entry) :=
  for_each (elements (deleted_files (markup_log st) (current_filenames st)))
    delete_markup (markup_log st).

(** Lines 233 to 313, from the loaded [markup_log] to the one that is saved. *)
Definition reconcile (markup_log : Py.dict entry)
    (final_markup_nodes : list MarkupNode) : M (Py.dict entry) :=
  st <- save_markups markup_log final_markup_nodes ;;
  detect_deleted st.

End WithEnv.

End Xlsx.

(** ** Further code of the scripts *)

(** Lines 33 to 36: when the script starts, a missing markup log is created
    with its header line. *)
Definition ensure_markup_log (env : Env) : Io.M unit :=
  Io.bind (Io.path_exists (Mac.markup_log_file env)) (fun found =>
    if negb found then
      Io.bind (Io.open_write (fault env) (Mac.markup_log_file env)) (fun _ =>
      Io.bind (Io.write (fault env) (Mac.markup_log_file env) 0 Mac.header) (fun _ =>
      Io.close (fault env) (Mac.markup_log_file env)))
    else Io.ret tt).

(** [sub in s] for two strings. *)
Fixpoint str_contains (s sub : string) : bool :=
  String.prefix sub s ||
  match s with
  | EmptyString => false
  | String _ t => str_contains t sub
  end.

(** ** [annotation_windows/auto_script.py]: the loop over the nodes of
    [onAppExit]

    The file name of a node is built from its name and its ID, without a
    counter (lines 216 to 248); the loader, the loop over the deleted files,
    the writer and the update of the report log are the lines of
    [annotation_mac/auto_script.py]. [os_path_join] is [os.path.join] of the
    platform. *)

Module Win.

Import Io.
Local Open Scope io_scope.

Record loop_state : Type := LoopState {
  markup_log : Py.dict Mac.entry;
  current_filenames : gset string
}.

(** Lines 217 to 222. *)
Definition safe_name (markupNode : MarkupNode) : string :=
  let node_name := GetName markupNode in
  if negb (str_contains node_name "_vtkMRMLMarkups") then
    Py.replace (node_name +:+ "_" +:+ GetID markupNode) " " "_" +:+ ".json"
  else
    Py.replace node_name " " "_" +:+ ".json".

Section WithEnv.

Variable env : Env.
Variable os_path_join : string -> string -> string.

(** The body of [for markupNode in final_markup_nodes]. *)
Definition save_markup (st : loop_state) (markupNode : MarkupNode)
    : M loop_state :=
  let node_name := GetName markupNode in
  let safe_name := safe_name markupNode in
  let output_path := os_path_join (sourceFolder env) safe_name in
  let current_filenames := {[ safe_name ]} ∪ current_filenames st in
  let unchanged := LoopState (markup_log st) current_filenames in
  try_except
    (match saveNode env markupNode output_path with
     | SaveTrue text =>
         set_fs (insert output_path text) ;;
         print ("Saved markup: " +:+ output_path) ;;
         text <- read_text (fault env) output_path ;;
         match json_reload env text with
         | Some dumped =>
             let content := Py.replace (Py.replace dumped LF "") "," ";" in
             ret (LoopState
                    (Mac.record_saved (now_str env) (markup_log st) safe_name content)
                    current_filenames)
         | None => raise JSONDecodeError
         end
     | SaveFalse =>
         print ("Failed to save markup: " +:+ node_name) ;;
         ret unchanged
     | SaveRaises e => raise e
     end)
    (fun e =>
       print ("Error saving markup " +:+ node_name +:+ ": " +:+ str_exn e) ;;
       ret unchanged).

Definition save_markups (markup_log : Py.dict Mac.entry)
    (final_markup_nodes : list MarkupNode) : M loop_state :=
  for_each final_markup_nodes save_markup (LoopState markup_log ∅).

(** Lines 251 and 252. *)
Definition deleted_files (st : loop_state) : gset string :=
  let saved_filenames : gset string := list_to_set (Py.keys (markup_log st)) in
  saved_filenames ∖ current_filenames st.

End WithEnv.

End Win.

(** Lines 339 and 340 of [annotation_mac_xlsx/auto_script.py]: the name of
    the workbook of the markups that could not be saved;
    [re.sub(r'[:]', '-', now_str)] replaces every colon. *)
Definition error_filename (now_str : string) : string :=
  let safe_timestamp := Py.replace now_str ":" "-" in
  safe_timestamp +:+ "_error.xlsx".

(** ** [test_annotation_workflow.py]: the checks on the report numbers

    What the two tests do with the list of report numbers once it is read
    from [log.csv]. *)

Module Tests.

Inductive outcome : Type := Passed | Failed | Skipped.

(** [range(start, stop)] *)
Definition range (start stop : Z) : list Z :=
  map (fun i => (start + Z.of_nat i)%Z) (seq 0 (Z.to_nat (stop - start))).

(** Lines 246 to 248 of [test_no_duplicate_reports]. *)
Definition duplicates (report_numbers : list string) : list string :=
  List.filter (fun num => (1 <? count_occ string_dec report_numbers num)%nat)
              report_numbers.

Definition unique_duplicates (report_numbers : list string) : list string :=
  elements (list_to_set (duplicates report_numbers) : gset string).

(** Lines 250 to 253: the assertion holds. *)
Definition test_no_duplicate_reports (report_numbers : list string) : bool :=
  (length (unique_duplicates report_numbers) =? 0)%nat.

(** Lines 306 to 322 of [test_report_numbers_are_sequential]. *)
Definition test_report_numbers_are_sequential (report_numbers : list Z) : outcome :=
  match report_numbers with
  | [] => Skipped
  | _ =>
      let report_numbers := merge_sort Z.le report_numbers in
      if negb (hd 0%Z report_numbers =? 1)%Z then Failed
      else
        let expected := range 1 (Z.of_nat (length report_numbers) + 1) in
        if bool_decide (report_numbers = expected) then Passed else Failed
  end.

End Tests.

(** * Part II: properties *)

(** ** Vocabulary of the statements *)

Import Io.

(** The characters that [encode_filename] is meant to remove. *)
Definition special_characters : list ascii :=
  ["/"; "092"; ":"; "*"; "?"; "034"; "<"; ">"; "|"; "000"; " "; ","]%char.

(** The escape code of a character, looked up in the table of
    [encode_filename]. *)
Definition escape_code (c : ascii) : option string :=
  Py.get encode_replacements (String c "").

Definition escape (c : ascii) : string :=
  default (String c "") (escape_code c).

(** Every character replaced by its code, the others kept. *)
Fixpoint escape_all (name : string) : string :=
  match name with
  | EmptyString => EmptyString
  | String c t => escape c +:+ escape_all t
  end.

(** Replacing a one-character [old] works character by character. *)
Fixpoint subst_char (c : ascii) (new s : string) : string :=
  match s with
  | EmptyString => EmptyString
  | String x t =>
      if Ascii.eqb c x then new +:+ subst_char c new t
      else String x (subst_char c new t)
  end.

Definition one_char (kv : string * string) : Prop :=
  exists c, fst kv = String c "".

(** The letters of the escape codes that [decode_filename] looks for. *)
Definition code_letters : string := "SBCAQWLGPNUZE".

Definition is_code_letter (x : ascii) : bool := Py.char_in x code_letters.

Definition is_special (c : ascii) : bool :=
  Py.contains encode_replacements (String c "").

(** An underscore or a character that is encoded with underscores. *)
Definition is_sep (c : ascii) : bool := Ascii.eqb c "_" || is_special c.

(** No code letter stands directly between two characters that are each an
    underscore or an encoded character: the encoded name then shows a code
    only where a character was encoded. *)
Fixpoint unambiguous (name : string) : bool :=
  match name with
  | EmptyString => true
  | String a t =>
      negb (is_sep a &&
            match t with
            | String x (String b _) => is_code_letter x && is_sep b
            | _ => false
            end)
      && unambiguous t
  end.

Definition code_of (X : ascii) : string := String "_" (String X "_").

(** A name in the middle of decoding: the characters in [D] stand for
    themselves, the others are still escaped. *)
Definition render_char (D : ascii -> bool) (a : ascii) : string :=
  if D a then String a "" else escape a.

Fixpoint render (D : ascii -> bool) (name : string) : string :=
  match name with
  | EmptyString => EmptyString
  | String c t => render_char D c +:+ render D t
  end.

Definition pass_ok (kv : string * string) : Prop :=
  exists X c0, kv = (code_of X, String c0 "") /\ is_code_letter X = true /\
               forall a, escape a = code_of X -> a = c0.

Definition decoded_by (l : list (string * string)) (a : ascii) : bool :=
  existsb (fun kv => String.eqb (escape a) (fst kv)) l.

Fixpoint chomp (line : string) : string :=
  match line with
  | EmptyString => EmptyString
  | String c t =>
      match t with
      | EmptyString => if Ascii.eqb c "010" then EmptyString else line
      | _ => String c (chomp t)
      end
  end.

Definition row_fields (line : string) : list string := Py.split (chomp line) ",".

Definition plain (s : string) : Prop :=
  Py.char_in "010" s = false /\ Py.char_in "013" s = false.

Definition complete_line (l : string) : Prop :=
  exists body, l = body +:+ LF /\ plain body.

Definition last_line (l : string) : Prop :=
  complete_line l \/ (l <> "" /\ plain l).

Fixpoint lines_ok (lines : list string) : Prop :=
  match lines with
  | [] => True
  | l :: r =>
      match r with
      | [] => last_line l
      | _ => complete_line l /\ lines_ok r
      end
  end.

Fixpoint concat_lines (lines : list string) : string :=
  match lines with
  | [] => EmptyString
  | line :: rest => line +:+ concat_lines rest
  end.

Definition pad3 (parts : list string) : list string :=
  parts ++ repeat "" (3 - length parts).

Definition new_report_text (env : Env) (nodes : list MarkupNode) (text : string) : string :=
  concat_lines (map (Mac.update_line env (Mac.done_status_of nodes)) (Py.readlines text)).

Definition failed_message (e : exn) : string :=
  "Failed to update log file: " +:+ str_exn e.

Definition updated_message (env : Env) (nodes : list MarkupNode) : string :=
  "Updated log for report " +:+ report_number env +:+ " to Done=" +:+
  (if String.eqb (Mac.done_status_of nodes) "" then "Empty"
   else Mac.done_status_of nodes).

(** What a node leaves in the log: the content read back from its saved
    file, if the save and the reading went through. *)
Definition saved_content (env : Env) (node : MarkupNode) (path : string)
    : option string :=
  match saveNode env node path with
  | SaveTrue text =>
      if fault env (OpOpenRead path) then None
      else match json_reload env (Py.universal_newlines text) with
           | Some dumped => Some (Py.replace (Py.replace dumped LF "") "," ";")
           | None => None
           end
  | _ => None
  end.

(** The loop variables after one more node. *)
Definition step (env : Env) (st : Mac.loop_state) (node : MarkupNode)
    : Mac.loop_state :=
  let safe_name :=
    fst (Mac.assign_name (Mac.markup_log st) (Mac.max_number st) node) in
  Mac.LoopState
    (match saved_content env node (Py.path_join (sourceFolder env) safe_name) with
     | Some content =>
         Mac.record_saved (now_str env) (Mac.markup_log st) safe_name content
     | None => Mac.markup_log st
     end)
    (snd (Mac.assign_name (Mac.markup_log st) (Mac.max_number st) node))
    ({[ safe_name ]} ∪ Mac.current_filenames st).

Definition init_state (markup_log : Py.dict Mac.entry) : Mac.loop_state :=
  Mac.LoopState markup_log (Mac.last_number markup_log) ∅.

(** The entry of a deleted markup after the exit. *)
Definition mark_deleted (now : string) (e : Mac.entry) : Mac.entry :=
  if String.eqb (Mac.deleted_at e) "" then
    Mac.Entry (Mac.created_at e) (Mac.content e) now
  else e.

Definition markup_path (env : Env) (fname : string) : string :=
  Py.path_join (sourceFolder env) fname.

(** Every character of [s] satisfies [P]. *)
Fixpoint all_chars (P : ascii -> bool) (s : string) : bool :=
  match s with
  | EmptyString => true
  | String c t => P c && all_chars P t
  end.

Definition is_digit (c : ascii) : bool :=
  match c with
  | "0" | "1" | "2" | "3" | "4" | "5" | "6" | "7" | "8" | "9" => true
  | _ => false
  end%char.

(** No file name of the log carries a number above [m]. *)
Definition bounded {V} (log : Py.dict V) (m : Z) : Prop :=
  forall k n, In k (Py.keys log) -> Mac.number_part k = Some n -> (n <= m)%Z.

(** The names that the loop generates, in order, each with the encoded node
    name it was built from and with its number. *)
Fixpoint new_names (env : Env) (st : Mac.loop_state) (nodes : list MarkupNode)
    (w : world) : list (string * string * Z) :=
  match nodes with
  | [] => []
  | node :: rest =>
      let encoded := encode_filename (GetName node) in
      let assigned :=
        Mac.assign_name (Mac.markup_log st) (Mac.max_number st) node in
      ((if Py.truthy (Mac.find_existing (Mac.markup_log st) encoded) then []
        else [(encoded, fst assigned, snd assigned)]) ++
       match Mac.save_markup env st node w with
       | (Ok st', w') => new_names env st' rest w'
       | (Raised _, _) => []
       end)%list
  end.

Definition generated (lo : Z) (log : Py.dict Mac.entry)
    (x : string * string * Z) : Prop :=
  snd (fst x) = fst (fst x) +:+ "_" +:+ Py.str (snd x) +:+ ".json" /\
  (lo < snd x)%Z /\
  ~ In (snd (fst x)) (Py.keys log).

(** The file name that a node gets in the loop state [st]. *)
Definition assigned_name (st : Mac.loop_state) (node : MarkupNode) : string :=
  fst (Mac.assign_name (Mac.markup_log st) (Mac.max_number st) node).

Definition sample_env : Env := {|
  sourceFolder := "/data/session1";
  report_number := "7";
  log_csv := "/data/log.csv";
  now_str := "2025-06-01T12:00:00";
  saveNode := fun node path =>
    if String.eqb (GetName node) "locked" then SaveFalse
    else SaveTrue "[1, 2]";
  json_reload := Some;
  extract_markup_content := fun node => "{}";
  fault := fun _ => false
|}.

Definition sample_log : Py.dict Mac.entry :=
  [ ("F.json", Mac.Entry "2025-05-01T09:00:00" "[0; 0]" "");
    ("G_1.json", Mac.Entry "2025-05-01T09:05:00" "[3; 4]" "");
    ("H_2.json", Mac.Entry "2025-05-01T09:10:00" "[5; 6]" "2025-05-02T08:00:00") ].

Definition sample_report_text : string :=
  "Report,Path,Done" +:+ LF +:+ "7,./patients/p1/s1," +:+ LF +:+
  "8,./patients/p2/s1,True" +:+ LF.

Definition sample_world : world :=
  World (list_to_map
           [ ("/data/session1/markup_log.csv", Mac.format_markup_log sample_log);
             ("/data/session1/F.json", "[0, 0]");
             ("/data/session1/G_1.json", "[3, 4]");
             ("/data/log.csv", sample_report_text) ])
        [].

Definition node_F : MarkupNode :=
  {| GetName := "F"; GetID := "vtkMRMLMarkupsFiducialNode1";
     GetClassName := "vtkMRMLMarkupsFiducialNode" |}.

Definition node_new : MarkupNode :=
  {| GetName := "new one"; GetID := "vtkMRMLMarkupsFiducialNode2";
     GetClassName := "vtkMRMLMarkupsFiducialNode" |}.

Definition node_locked : MarkupNode :=
  {| GetName := "locked"; GetID := "vtkMRMLMarkupsLineNode1";
     GetClassName := "vtkMRMLMarkupsLineNode" |}.

Definition sample_nodes : list MarkupNode := [node_F; node_new; node_locked].

(** The loop variables and the world after the nodes of the sample run. *)
Definition sample_saved : result Mac.loop_state * world :=
  Mac.save_markups sample_env sample_log sample_nodes sample_world.

Definition sample_state : Mac.loop_state :=
  match fst sample_saved with
  | Ok st => st
  | Raised _ => init_state sample_log
  end.

(** A master status log whose matching row ends in a blank. *)
Definition spaced_report_text : string :=
  "Report,Path,Done" +:+ LF +:+ "7,./patients/p1/s1,,checked " +:+ LF.

Definition spaced_world : world :=
  World (list_to_map [ ("/data/log.csv", spaced_report_text) ]) [].

(** A source folder with an empty markup log. *)
Definition fresh_world : world :=
  World (list_to_map [ ("/data/session1/markup_log.csv", Mac.header) ]) [].

(** The state of the loop when the turn of [node_new] comes. *)
Definition sample_before_new : result Mac.loop_state * world :=
  Mac.save_markups sample_env sample_log [node_F] sample_world.

Definition sample_state_before_new : Mac.loop_state :=
  match fst sample_before_new with
  | Ok st => st
  | Raised _ => init_state sample_log
  end.

(** What the loader reads in the sample world. *)
Definition sample_loaded : Py.dict Mac.entry :=
  match fst (Mac.load_markup_log sample_env sample_world) with
  | Ok log => log
  | Raised _ => []
  end.

(** The loop variables of the xlsx script after one more node, or the
    exception that ends the loop. *)
Definition xlsx_error (env : Env) (st : Xlsx.loop_state) (node : MarkupNode)
    (safe_name : string) : Xlsx.loop_state :=
  Xlsx.LoopState (Xlsx.markup_log st) (Xlsx.max_number st)
    (Xlsx.current_filenames st) (Xlsx.markup_type st)
    (Py.set (Xlsx.markup_error st) safe_name
       (Xlsx.Entry (Some (Py.strip (GetName node))) None (Some (now_str env)) None,
        extract_markup_content env node)).

Definition xlsx_step (env : Env) (st : Xlsx.loop_state) (node : MarkupNode)
    : result Xlsx.loop_state :=
  let node_name := Py.strip (GetName node) in
  let existing_file := Xlsx.find_existing (Xlsx.markup_log st) node_name in
  if Py.truthy existing_file then
    let safe_name := default "" existing_file in
    let st1 := Xlsx.LoopState (Xlsx.markup_log st) (Xlsx.max_number st)
                 ({[ safe_name ]} ∪ Xlsx.current_filenames st)
                 (Xlsx.markup_type st) (Xlsx.markup_error st) in
    match saveNode env node (markup_path env safe_name) with
    | SaveRaises e =>
        if is_OSError e then Ok (xlsx_error env st1 node safe_name) else Raised e
    | _ => Ok st1
    end
  else
    match Xlsx.classify (GetClassName node) (Xlsx.markup_type st) with
    | None => Raised (UnboundLocalError "markup_type")
    | Some markup_type =>
        let max_number := (Xlsx.max_number st + 1)%Z in
        let safe_name := markup_type +:+ "_" +:+ Py.str max_number +:+ ".json" in
        let st1 := Xlsx.LoopState (Xlsx.markup_log st) max_number
                     ({[ safe_name ]} ∪ Xlsx.current_filenames st)
                     (Some markup_type) (Xlsx.markup_error st) in
        match saveNode env node (markup_path env safe_name) with
        | SaveRaises e =>
            if is_OSError e then Ok (xlsx_error env st1 node safe_name)
            else Raised e
        | _ =>
            Ok (Xlsx.LoopState
                  (Py.set (Xlsx.markup_log st) safe_name
                     (Xlsx.Entry (Some node_name) None (Some (now_str env)) None))
                  max_number
                  ({[ safe_name ]} ∪ Xlsx.current_filenames st)
                  (Some markup_type) (Xlsx.markup_error st))
        end
    end.

(** What holds of the loop variables of the xlsx script at every node. *)
Definition xlsx_invariant (log0 : Py.dict Xlsx.entry) (st : Xlsx.loop_state)
    : Prop :=
  (Xlsx.last_number log0 <= Xlsx.max_number st)%Z /\
  bounded (Xlsx.markup_log st) (Xlsx.max_number st) /\
  (forall k n, k ∈ Xlsx.current_filenames st -> Mac.number_part k = Some n ->
               (n <= Xlsx.max_number st)%Z) /\
  (forall k e, Py.get log0 k = Some e -> Py.get (Xlsx.markup_log st) k = Some e) /\
  (forall k, In k (Py.keys (Xlsx.markup_log st)) ->
             In k (Py.keys log0) \/ k ∈ Xlsx.current_filenames st).

Definition xlsx_init (log0 : Py.dict Xlsx.entry) : Xlsx.loop_state :=
  Xlsx.LoopState log0 (Xlsx.last_number log0) ∅ None [].

Definition xlsx_mark_deleted (now : string) (e : Xlsx.entry) : Xlsx.entry :=
  if Xlsx.falsy (Xlsx.deleted_at e) then
    Xlsx.Entry (Xlsx.report_content e) (Xlsx.original_filename e)
               (Xlsx.created_at e) (Some now)
  else e.

(** The name that the xlsx script generates in the loop state [st]. *)
Definition xlsx_new_name (markup_type : string) (st : Xlsx.loop_state) : string :=
  markup_type +:+ "_" +:+ Py.str (Xlsx.max_number st + 1) +:+ ".json".

(** ** Vocabulary of the further properties *)

(** The number of characters of [s] that [encode_filename] replaces. *)
Fixpoint count_special (s : string) : nat :=
  match s with
  | EmptyString => 0
  | String c t => (if is_special c then 1 else 0) + count_special t
  end.

(** An entry as the loader reads it back: the content between the double
    quotes that the writer put around it. *)
Definition quoted (e : Mac.entry) : Mac.entry :=
  Mac.Entry (Mac.created_at e) (DQUOTE +:+ Mac.content e +:+ DQUOTE) (Mac.deleted_at e).

Definition quoted_log (log : Py.dict Mac.entry) : Py.dict Mac.entry :=
  map (fun item => (fst item, quoted (snd item))) log.

(** A row that the loader splits where the writer joined it: no field holds
    a line end, no field but the last a comma, and the row neither starts nor
    ends with white space. *)
Definition row_ok (item : string * Mac.entry) : Prop :=
  (plain (fst item) /\ Py.char_in "," (fst item) = false /\
   Py.lstrip (fst item) = fst item) /\
  (plain (Mac.created_at (snd item)) /\
   Py.char_in "," (Mac.created_at (snd item)) = false) /\
  (plain (Mac.content (snd item)) /\
   Py.char_in "," (Mac.content (snd item)) = false) /\
  (plain (Mac.deleted_at (snd item)) /\
   Py.rstrip (Mac.deleted_at (snd item)) = Mac.deleted_at (snd item)).

(** The text of the rows that [write_entries] writes. *)
Definition rows_text (items : Py.dict Mac.entry) : string :=
  concat_lines (map (fun item => Mac.format_entry (fst item) (snd item)) items).

(** The row of an entry without its line end. *)
Definition row_body (item : string * Mac.entry) : string :=
  fst item +:+ "," +:+ Mac.created_at (snd item) +:+ "," +:+
  DQUOTE +:+ Mac.content (snd item) +:+ DQUOTE +:+ "," +:+ Mac.deleted_at (snd item).

Definition sample_rows : Py.dict Mac.entry :=
  [ ("F_1.json", Mac.Entry "2025-06-01T12:00:00" "[1; 2]" "");
    ("a_U_b_2.json", Mac.Entry "2025-06-01T12:00:00" "{}" "2025-06-02T08:00:00, late") ].

(** The number of occurrences of [c] in [s]. *)
Fixpoint count_char (c : ascii) (s : string) : nat :=
  match s with
  | EmptyString => 0
  | String x t => (if Ascii.eqb x c then 1 else 0) + count_char c t
  end.

(** The numbers [lo + 1], ..., [lo + n]. *)
Definition numbers_after (lo : Z) (n : nat) : list Z :=
  map (fun i => (lo + Z.of_nat i)%Z) (seq 1 n).

Definition node_reloaded : MarkupNode :=
  {| GetName := "new_U_one_3"; GetID := "vtkMRMLMarkupsFiducialNode1";
     GetClassName := "vtkMRMLMarkupsFiducialNode" |}.

(** The sample log after the exit that saved [node_new]. *)
Definition sample_log_after : Py.dict Mac.entry :=
  (sample_log ++
   [("new_U_one_3.json", Mac.Entry "2025-06-01T12:00:00" "[1; 2]" "")])%list.

(** The sample scene of two new nodes of which the second carries the name
    that the first is filed under. *)
Definition node_F_1 : MarkupNode :=
  {| GetName := "F_1"; GetID := "vtkMRMLMarkupsFiducialNode2";
     GetClassName := "vtkMRMLMarkupsFiducialNode" |}.

(** The first character, if there is one, is not white space. *)
Definition no_lead (s : string) : Prop :=
  match s with
  | EmptyString => True
  | String c _ => Py.isspace c = false
  end.

(** The name of the saved file without its extension. *)
Definition stem_of (node : MarkupNode) : string :=
  if negb (str_contains (GetName node) "_vtkMRMLMarkups") then
    Py.replace (GetName node +:+ "_" +:+ GetID node) " " "_"
  else Py.replace (GetName node) " " "_".

(** The classes for which the xlsx script has a markup type. *)
Definition known_class (class_name : string) : bool :=
  String.eqb class_name "vtkMRMLMarkupsFiducialNode" ||
  String.eqb class_name "vtkMRMLMarkupsLineNode" ||
  String.eqb class_name "vtkMRMLMarkupsROINode".

(** The sample environment with another report number and other failing
    file operations. *)
Definition sample_env_with (report : string) (failing : io_op -> bool) : Env := {|
  sourceFolder := sourceFolder sample_env;
  report_number := report;
  log_csv := log_csv sample_env;
  now_str := now_str sample_env;
  saveNode := saveNode sample_env;
  json_reload := json_reload sample_env;
  extract_markup_content := extract_markup_content sample_env;
  fault := failing
|}.

(** The markup log cannot be opened for reading. *)
Definition log_unreadable (op : io_op) : bool :=
  match op with
  | OpOpenRead path => String.eqb path "/data/session1/markup_log.csv"
  | _ => false
  end.

Definition node_reloaded_win : MarkupNode :=
  {| GetName := "F_vtkMRMLMarkupsFiducialNode1"; GetID := "vtkMRMLMarkupsFiducialNode7";
     GetClassName := "vtkMRMLMarkupsFiducialNode" |}.

Definition node_curve : MarkupNode :=
  {| GetName := "curve"; GetID := "vtkMRMLMarkupsCurveNode1";
     GetClassName := "vtkMRMLMarkupsCurveNode" |}.

Definition node_point_3 : MarkupNode :=
  {| GetName := " point_3 "; GetID := "vtkMRMLMarkupsFiducialNode1";
     GetClassName := "vtkMRMLMarkupsFiducialNode" |}.

Definition sample_xlsx_log : Py.dict Xlsx.entry :=
  [ ("point_3.json",
     Xlsx.Entry (Some "lesion") None (Some "2025-05-01T09:00:00") None) ].

(** ** Facts about strings *)


Lemma app_cons (c : ascii) (s t : string) :
  String c s +:+ t = String c (s +:+ t).
Proof. reflexivity. Qed.

Lemma app_nil_r (s : string) : s +:+ "" = s.
Proof. induction s as [|c s IH]; [reflexivity|]. rewrite app_cons; congruence. Qed.

Lemma app_assoc (s t u : string) : (s +:+ t) +:+ u = s +:+ (t +:+ u).
Proof.
  induction s as [|c s IH]; [reflexivity|].
  rewrite !app_cons; congruence.
Qed.

Lemma app_length (s t : string) :
  String.length (s +:+ t) = (String.length s + String.length t)%nat.
Proof.
  induction s as [|c s IH]; [reflexivity|].
  rewrite app_cons; simpl; congruence.
Qed.

Lemma app_inv_head (s t u : string) : s +:+ t = s +:+ u -> t = u.
Proof.
  induction s as [|c s IH]; [trivial|].
  rewrite !app_cons; intros H; injection H; auto.
Qed.

Lemma char_in_app c s t :
  Py.char_in c (s +:+ t) = Py.char_in c s || Py.char_in c t.
Proof.
  induction s as [|x s IH]; [reflexivity|].
  rewrite app_cons; simpl. rewrite IH. apply orb_assoc.
Qed.

Lemma prefix_cons c p x s :
  String.prefix (String c p) (String x s) = Ascii.eqb c x && String.prefix p s.
Proof.
  simpl. destruct (ascii_dec c x) as [->|Hne].
  - rewrite Ascii.eqb_refl; reflexivity.
  - destruct (Ascii.eqb_spec c x); [congruence|reflexivity].
Qed.

Lemma prefix_nil s : String.prefix "" s = true.
Proof. destruct s; reflexivity. Qed.

Lemma prefix_app (p s : string) : String.prefix p (p +:+ s) = true.
Proof.
  induction p as [|c p IH]; [apply prefix_nil|].
  rewrite app_cons, prefix_cons, Ascii.eqb_refl; exact IH.
Qed.

Lemma prefix_split (p s : string) :
  String.prefix p s = true -> exists r, s = p +:+ r.
Proof.
  revert s; induction p as [|c p IH]; intros s H.
  - exists s; reflexivity.
  - destruct s as [|x s]; [discriminate|]. rewrite prefix_cons in H.
    apply andb_true_iff in H as [Hc H]. apply Ascii.eqb_eq in Hc as ->.
    destruct (IH _ H) as [r ->]. exists r; reflexivity.
Qed.

Lemma replace_char (c : ascii) (new s : string) :
  Py.replace s (String c "") new = subst_char c new s.
Proof.
  unfold Py.replace.
  induction s as [|x s IH]; [reflexivity|].
  cbn [Py.replace_from subst_char String.length Nat.sub].
  rewrite prefix_cons, prefix_nil, andb_true_r, IH. reflexivity.
Qed.

Lemma subst_char_app c new s t :
  subst_char c new (s +:+ t) = subst_char c new s +:+ subst_char c new t.
Proof.
  induction s as [|x s IH]; [reflexivity|].
  rewrite app_cons; simpl. destruct (Ascii.eqb c x).
  - rewrite IH, app_assoc; reflexivity.
  - rewrite IH; reflexivity.
Qed.

Lemma app_nil_l (s : string) : "" +:+ s = s.
Proof. reflexivity. Qed.

Lemma replace_from_skip old new p r :
  Py.replace_from old new (p +:+ r) (String.length p) = Py.replace_from old new r 0.
Proof.
  induction p as [|c p IH]; [reflexivity|].
  rewrite app_cons. cbn [String.length Py.replace_from]. exact IH.
Qed.

Lemma replace_from_hit c p new r :
  Py.replace_from (String c p) new (String c p +:+ r) 0 =
  new +:+ Py.replace_from (String c p) new r 0.
Proof.
  pose proof (prefix_app (String c p) r) as H.
  rewrite app_cons in *. cbn [Py.replace_from]. rewrite H.
  cbn [String.length Nat.sub]. rewrite Nat.sub_0_r, replace_from_skip.
  reflexivity.
Qed.

Lemma replace_from_miss old new c t :
  String.prefix old (String c t) = false ->
  Py.replace_from old new (String c t) 0 =
  String c (Py.replace_from old new t 0).
Proof. intros H. cbn [Py.replace_from]. rewrite H. reflexivity. Qed.

(** ** [encode_filename] *)


Lemma encode_replacements_one_char : Forall one_char encode_replacements.
Proof. repeat constructor; eexists; reflexivity. Qed.

Lemma replace_fold_app (l : list (string * string)) :
  Forall one_char l ->
  forall s t,
    fold_left (fun name kv => Py.replace name (fst kv) (snd kv)) l (s +:+ t) =
    fold_left (fun name kv => Py.replace name (fst kv) (snd kv)) l s +:+
    fold_left (fun name kv => Py.replace name (fst kv) (snd kv)) l t.
Proof.
  induction 1 as [|kv l [c Hc] _ IH]; intros s t; [reflexivity|].
  cbn [fold_left]. rewrite Hc, !replace_char, subst_char_app. apply IH.
Qed.

Lemma encode_filename_app (s t : string) :
  encode_filename (s +:+ t) = encode_filename s +:+ encode_filename t.
Proof. apply replace_fold_app, encode_replacements_one_char. Qed.

Ltac each_ascii c :=
  destruct c as [[] [] [] [] [] [] [] []].

Lemma encode_filename_char (c : ascii) :
  encode_filename (String c "") = escape c.
Proof. each_ascii c; vm_compute; reflexivity. Qed.

Lemma encode_filename_flat (name : string) :
  encode_filename name = escape_all name.
Proof.
  induction name as [|c t IH]; [reflexivity|].
  change (String c t) with (String c "" +:+ t).
  rewrite encode_filename_app, encode_filename_char, IH. reflexivity.
Qed.

Lemma escape_clean (a : ascii) :
  forallb (fun c => negb (Py.char_in c (escape a))) special_characters = true.
Proof. each_ascii a; vm_compute; reflexivity. Qed.

Lemma escape_all_clean (c : ascii) (name : string) :
  In c special_characters -> Py.char_in c (escape_all name) = false.
Proof.
  intros Hc. induction name as [|a t IH]; [reflexivity|].
  cbn [escape_all]. rewrite char_in_app, IH, orb_false_r.
  pose proof (escape_clean a) as H.
  rewrite forallb_forall in H. specialize (H c Hc).
  now apply negb_true_iff in H.
Qed.

(** C7. For every input string the result of [encode_filename] is the input
    with every occurrence of slash, backslash, colon, asterisk, question mark,
    double quote, less-than, greater-than, pipe, NUL, space and comma replaced
    by the three-letter code that the table gives it, and none of these
    characters occurs in the result. *)
Theorem encode_filename_escapes (name : string) :
  encode_filename name = escape_all name /\
  forall c, In c special_characters ->
    (exists code, escape_code c = Some code /\ String.length code = 3%nat) /\
    Py.char_in c (encode_filename name) = false.
Proof.
  split; [apply encode_filename_flat|].
  intros c Hc. split.
  - unfold special_characters in Hc. simpl in Hc.
    repeat (destruct Hc as [<-|Hc]; [eexists; split; vm_compute; reflexivity|]).
    destruct Hc.
  - rewrite encode_filename_flat. now apply escape_all_clean.
Qed.

(** ** [decode_filename] after [encode_filename] *)


Lemma escape_cases (a : ascii) :
  (is_special a = false /\ escape a = String a "") \/
  (is_special a = true /\ exists K, escape a = code_of K /\ is_code_letter K = true).
Proof.
  each_ascii a;
    first [ left; split; vm_compute; reflexivity
          | right; split; [vm_compute; reflexivity | eexists; split; vm_compute; reflexivity] ].
Qed.

Lemma code_letter_plain (X : ascii) :
  is_code_letter X = true -> Ascii.eqb X "_" = false /\ is_special X = false.
Proof. each_ascii X; vm_compute; intros H; try discriminate H; split; reflexivity. Qed.

Lemma special_not_underscore a : is_special a = true -> Ascii.eqb a "_" = false.
Proof. each_ascii a; vm_compute; intros H; try discriminate H; reflexivity. Qed.


Lemma render_cons D a t : render D (String a t) = render_char D a +:+ render D t.
Proof. reflexivity. Qed.

Lemma render_char_cases D a :
  (render_char D a = String a "" /\ (D a = true \/ escape a = String a "")) \/
  (D a = false /\ is_special a = true /\
   exists K, render_char D a = code_of K /\ escape a = code_of K /\
             is_code_letter K = true).
Proof.
  unfold render_char. destruct (D a) eqn:HD; [left; auto|].
  destruct (escape_cases a) as [[_ H]|[Hs (K & H1 & H2)]]; [left; auto|].
  right; repeat split; auto. exists K; auto.
Qed.

Lemma render_starts X D t :
  is_code_letter X = true ->
  String.prefix (String X "_") (render D t) = true ->
  exists b t', t = String X (String b t') /\ is_sep b = true.
Proof.
  intros HX H. destruct (code_letter_plain X HX) as [Hu Hs].
  destruct t as [|a t1]; [discriminate|].
  rewrite render_cons in H.
  destruct (render_char_cases D a) as [[Ha _]|(_ & _ & K & HK & _)].
  - rewrite Ha, app_cons, app_nil_l, prefix_cons in H.
    apply andb_true_iff in H as [Hxa H]. apply Ascii.eqb_eq in Hxa as <-.
    destruct t1 as [|b t2]; [discriminate|].
    exists b, t2; split; [reflexivity|].
    rewrite render_cons in H. unfold is_sep.
    destruct (render_char_cases D b) as [[Hb _]|(_ & Hsb & _)].
    + rewrite Hb, app_cons, app_nil_l, prefix_cons in H.
      apply andb_true_iff in H as [Hb' _]. rewrite Ascii.eqb_sym, Hb'. reflexivity.
    + rewrite Hsb. apply orb_true_r.
  - rewrite HK in H. unfold code_of in H. rewrite app_cons, prefix_cons, Hu in H.
    discriminate.
Qed.

Lemma code_of_eqb K X : String.eqb (code_of K) (code_of X) = Ascii.eqb K X.
Proof.
  destruct (Ascii.eqb_spec K X) as [->|Hne].
  - apply String.eqb_refl.
  - apply String.eqb_neq. unfold code_of. congruence.
Qed.

Lemma unambiguous_boundary a X b t' :
  is_sep a = true -> is_code_letter X = true -> is_sep b = true ->
  unambiguous (String a (String X (String b t'))) = true -> False.
Proof.
  intros Ha HX Hb H. cbn [unambiguous] in H. rewrite Ha, HX, Hb in H.
  discriminate.
Qed.

Lemma unambiguous_tail a t : unambiguous (String a t) = true -> unambiguous t = true.
Proof. cbn [unambiguous]. intros H. apply andb_true_iff in H. tauto. Qed.

Lemma no_false_match X D a t :
  is_sep a = true -> is_code_letter X = true ->
  unambiguous (String a t) = true ->
  String.prefix (String X "_") (render D t) = false.
Proof.
  intros Ha HX Hu.
  destruct (String.prefix (String X "_") (render D t)) eqn:H; [|reflexivity].
  destruct (render_starts X D t HX H) as (b & t' & -> & Hb).
  destruct (unambiguous_boundary a X b t' Ha HX Hb Hu).
Qed.

Lemma decode_pass X c0 D name :
  is_code_letter X = true ->
  (forall a, escape a = code_of X -> a = c0) ->
  unambiguous name = true ->
  Py.replace_from (code_of X) (String c0 "") (render D name) 0 =
  render (fun a => D a || String.eqb (escape a) (code_of X)) name.
Proof.
  intros HX Hinj. destruct (code_letter_plain X HX) as [HXu HXs].
  induction name as [|a t IH]; intros Hu; [reflexivity|].
  specialize (IH (unambiguous_tail _ _ Hu)).
  rewrite !render_cons.
  destruct (render_char_cases D a) as [[Ha Hwhy]|(HD & Hs & K & HK & HeK & HKl)].
  - rewrite Ha, app_cons, app_nil_l.
    rewrite replace_from_miss.
    + rewrite IH. unfold render_char.
      destruct Hwhy as [->| Hesc]; [reflexivity|].
      destruct (D a); [reflexivity|]. cbn [orb]. rewrite Hesc.
      replace (String.eqb (String a "") (code_of X)) with false; [reflexivity|].
      symmetry. apply String.eqb_neq. unfold code_of. congruence.
    + unfold code_of. rewrite prefix_cons.
      destruct (Ascii.eqb_spec "_"%char a) as [<-|]; [|reflexivity].
      cbn [andb]. apply (no_false_match X D "_"%char t); auto.
  - rewrite HK. unfold render_char. rewrite HD, HeK, code_of_eqb. cbn [orb].
    assert (Hsep : is_sep a = true) by (unfold is_sep; rewrite Hs; apply orb_true_r).
    destruct (Ascii.eqb_spec K X) as [->|Hne].
    + (* the code of this pass *)
      rewrite (Hinj a HeK). unfold code_of at 2.
      unfold code_of at 1. rewrite replace_from_hit. fold (code_of X).
      rewrite IH. reflexivity.
    + destruct (code_letter_plain K HKl) as [HKu _].
      unfold code_of at 2 3. rewrite !app_cons, app_nil_l.
      rewrite replace_from_miss.
      2:{ unfold code_of. rewrite !prefix_cons.
          replace (Ascii.eqb X K) with false
            by (symmetry; apply Ascii.eqb_neq; congruence).
          apply andb_false_r. }
      rewrite replace_from_miss.
      2:{ unfold code_of. rewrite prefix_cons, (Ascii.eqb_sym "_" K), HKu.
          reflexivity. }
      rewrite replace_from_miss.
      2:{ unfold code_of. rewrite prefix_cons.
          rewrite (no_false_match X D a t Hsep HX Hu). apply andb_false_r. }
      rewrite IH. reflexivity.
Qed.

Lemma escape_is_code (a X : ascii) (c0 : ascii) :
  Py.get decode_replacements (code_of X) = Some (String c0 "") ->
  escape a = code_of X -> a = c0.
Proof.
  each_ascii a; vm_compute; intros H1 H2; try discriminate H2;
   injection H2 as <-; vm_compute in H1; injection H1 as <-; reflexivity.
Qed.

Lemma decode_replacements_ok : Forall pass_ok decode_replacements.
Proof.
  repeat constructor;
    (eexists _, _; split; [reflexivity|]; split; [reflexivity|];
     intros a; apply escape_is_code; reflexivity).
Qed.

Lemma render_ext D D' name :
  (forall a, D a = D' a) -> render D name = render D' name.
Proof.
  intros H. induction name as [|a t IH]; [reflexivity|].
  cbn [render]. unfold render_char. rewrite H, IH. reflexivity.
Qed.

Lemma decode_fold (l : list (string * string)) name :
  Forall pass_ok l -> unambiguous name = true ->
  forall D,
    fold_left (fun name kv => Py.replace name (fst kv) (snd kv)) l (render D name) =
    render (fun a => D a || decoded_by l a) name.
Proof.
  intros Hl Hu. induction Hl as [|kv l (X & c0 & -> & HX & Hinj) _ IH]; intros D.
  - cbn [fold_left]. apply render_ext. intros a. symmetry. apply orb_false_r.
  - cbn [fold_left fst snd]. unfold Py.replace, code_of at 1.
    fold (code_of X). rewrite (decode_pass X c0 D name HX Hinj Hu), IH.
    apply render_ext. intros a. unfold decoded_by. cbn [existsb fst].
    symmetry. apply orb_assoc.
Qed.

Lemma escape_all_render name : escape_all name = render (fun _ => false) name.
Proof. induction name as [|a t IH]; [reflexivity|]. cbn [escape_all render]. now rewrite IH. Qed.

Lemma render_decoded_char (a : ascii) :
  render_char (fun a => false || decoded_by decode_replacements a) a = String a "".
Proof. each_ascii a; vm_compute; reflexivity. Qed.

Lemma render_decoded name :
  render (fun a => false || decoded_by decode_replacements a) name = name.
Proof.
  induction name as [|a t IH]; [reflexivity|].
  rewrite render_cons, render_decoded_char, IH. reflexivity.
Qed.

(** C9, as amended. For every name in which no code letter (S, B, C, A, Q, W,
    L, G, P, N, U, Z, E) stands directly between two characters that are each
    an underscore or one of the encoded characters,
    [decode_filename (encode_filename name)] is [name]. *)
Theorem decode_encode_unambiguous (name : string) :
  unambiguous name = true ->
  decode_filename (encode_filename name) = name.
Proof.
  intros Hu. rewrite encode_filename_flat, escape_all_render.
  unfold decode_filename.
  rewrite (decode_fold _ name decode_replacements_ok Hu).
  apply render_decoded.
Qed.

Lemma decode_encode_unambiguous_witness :
  unambiguous "Spine_L1 / left: a,b" = true /\
  decode_filename (encode_filename "Spine_L1 / left: a,b") = "Spine_L1 / left: a,b".
Proof.
  split; [reflexivity|]. apply decode_encode_unambiguous. reflexivity.
Defined.

(** C9 as stated fails: the underscore is not escaped, so a name that already
    spells a code is decoded to the character of that code. *)
Lemma decode_encode_counterexample :
  decode_filename (encode_filename "_S_") = "/" /\
  decode_filename (encode_filename "_S_") <> "_S_".
Proof. split; [reflexivity|]. vm_compute. discriminate. Qed.

(** ** The master status log *)

Lemma split_nonempty s sep : Py.split s sep <> [].
Proof.
  destruct s as [|c t]; [discriminate|]. cbn [Py.split].
  destruct (Ascii.eqb c sep); [discriminate|].
  destruct (Py.split t sep); discriminate.
Qed.

Lemma split_cons_cases s sep c :
  Py.split (String c s) sep =
  if Ascii.eqb c sep then "" :: Py.split s sep
  else match Py.split s sep with
       | h :: r => String c h :: r
       | [] => [String c ""]
       end.
Proof. reflexivity. Qed.

Lemma split_chars s sep :
  forall p, In p (Py.split s sep) ->
  Py.char_in sep p = false /\
  forall c, Py.char_in c p = true -> Py.char_in c s = true.
Proof.
  induction s as [|x s IH]; intros p Hp.
  - destruct Hp as [<-|[]]. split; [reflexivity|]. intros c H; discriminate.
  - rewrite split_cons_cases in Hp.
    destruct (Ascii.eqb_spec x sep) as [->|Hne].
    + destruct Hp as [<-|Hp].
      * split; [reflexivity|]. intros c H; discriminate.
      * destruct (IH p Hp) as [H1 H2]. split; [exact H1|].
        intros c Hc. cbn [Py.char_in]. rewrite (H2 c Hc). apply orb_true_r.
    + destruct (Py.split s sep) as [|h r] eqn:E.
      * destruct (split_nonempty _ _ E).
      * destruct Hp as [<-|Hp].
        -- destruct (IH h (or_introl eq_refl)) as [H1 H2].
           split.
           ++ cbn [Py.char_in]. rewrite H1.
              destruct (Ascii.eqb_spec x sep); [congruence|reflexivity].
           ++ intros c. cbn [Py.char_in]. intros Hc.
              apply orb_true_iff in Hc as [Hc|Hc]; [now rewrite Hc|].
              rewrite (H2 c Hc). apply orb_true_r.
        -- destruct (IH p (or_intror Hp)) as [H1 H2]. split; [exact H1|].
           intros c Hc. cbn [Py.char_in]. rewrite (H2 c Hc). apply orb_true_r.
Qed.

Lemma split_no_sep s sep : Py.char_in sep s = false -> Py.split s sep = [s].
Proof.
  induction s as [|x s IH]; [reflexivity|]. cbn [Py.char_in].
  intros H. apply orb_false_iff in H as [Hx Hs].
  rewrite split_cons_cases, Hx, (IH Hs). reflexivity.
Qed.

Lemma split_app_sep p s sep :
  Py.char_in sep p = false ->
  Py.split (p +:+ String sep s) sep = p :: Py.split s sep.
Proof.
  induction p as [|x p IH]; intros H.
  - rewrite app_nil_l, split_cons_cases, Ascii.eqb_refl. reflexivity.
  - cbn [Py.char_in] in H. apply orb_false_iff in H as [Hx Hp].
    rewrite app_cons, split_cons_cases, Hx, (IH Hp). reflexivity.
Qed.

Lemma split_join parts sep :
  parts <> [] ->
  Forall (fun p => Py.char_in sep p = false) parts ->
  Py.split (Py.join (String sep "") parts) sep = parts.
Proof.
  intros Hne H. induction H as [|p parts Hp Hparts IH]; [congruence|].
  destruct parts as [|q parts].
  - cbn [Py.join]. now apply split_no_sep.
  - change (Py.join (String sep "") (p :: q :: parts))
      with (p +:+ String sep "" +:+ Py.join (String sep "") (q :: parts)).
    rewrite app_cons, app_nil_l, (split_app_sep _ _ _ Hp), IH; [reflexivity|discriminate].
Qed.


Lemma chomp_app_LF s : chomp (s +:+ LF) = s.
Proof.
  induction s as [|c s IH]; [reflexivity|].
  rewrite app_cons. cbn [chomp]. rewrite IH.
  destruct s; reflexivity.
Qed.


Lemma char_in_lstrip c s : Py.char_in c (Py.lstrip s) = true -> Py.char_in c s = true.
Proof.
  induction s as [|x s IH]; [trivial|]. cbn [Py.lstrip].
  destruct (Py.isspace x); [|trivial].
  intros H. cbn [Py.char_in]. rewrite (IH H). apply orb_true_r.
Qed.

Lemma char_in_rstrip c s : Py.char_in c (Py.rstrip s) = true -> Py.char_in c s = true.
Proof.
  induction s as [|x s IH]; [trivial|]. cbn [Py.rstrip].
  destruct (Py.rstrip s) as [|y r].
  - destruct (Py.isspace x); [discriminate|].
    cbn [Py.char_in]. rewrite orb_false_r. intros ->. reflexivity.
  - cbn [Py.char_in] in *. intros H.
    apply orb_true_iff in H as [H|H]; [now rewrite H|].
    rewrite (IH H). apply orb_true_r.
Qed.

Lemma char_in_strip c s : Py.char_in c (Py.strip s) = true -> Py.char_in c s = true.
Proof. intros H. now apply char_in_lstrip, char_in_rstrip. Qed.

Lemma rstrip_app_space s c :
  Py.isspace c = true -> Py.rstrip (s +:+ String c "") = Py.rstrip s.
Proof.
  intros Hc. induction s as [|x s IH].
  - rewrite app_nil_l. cbn [Py.rstrip]. now rewrite Hc.
  - rewrite app_cons. cbn [Py.rstrip]. rewrite IH. reflexivity.
Qed.

Lemma lstrip_app_space s c :
  Py.isspace c = true ->
  Py.lstrip (s +:+ String c "") =
  match Py.lstrip s with
  | EmptyString => EmptyString
  | t => t +:+ String c ""
  end.
Proof.
  intros Hc. induction s as [|x s IH].
  - rewrite app_nil_l. cbn [Py.lstrip]. now rewrite Hc.
  - rewrite app_cons. cbn [Py.lstrip]. destruct (Py.isspace x); [exact IH|].
    reflexivity.
Qed.

Lemma strip_app_space s c :
  Py.isspace c = true -> Py.strip (s +:+ String c "") = Py.strip s.
Proof.
  intros Hc. unfold Py.strip. rewrite (lstrip_app_space _ _ Hc).
  destruct (Py.lstrip s) as [|x t]; [reflexivity|].
  now apply rstrip_app_space.
Qed.

Lemma char_in_join c sep parts :
  Py.char_in c (Py.join sep parts) = true ->
  Py.char_in c sep = true \/ exists p, In p parts /\ Py.char_in c p = true.
Proof.
  induction parts as [|p parts IH]; [discriminate|].
  destruct parts as [|q parts].
  - cbn [Py.join]. intros H. right. exists p. split; [now left|exact H].
  - change (Py.join sep (p :: q :: parts))
      with (p +:+ sep +:+ Py.join sep (q :: parts)).
    rewrite !char_in_app. intros H.
    apply orb_true_iff in H as [H|H]; [right; exists p; split; [now left|exact H]|].
    apply orb_true_iff in H as [H|H]; [now left|].
    destruct (IH H) as [H'|(p' & Hin & Hp')]; [now left|].
    right. exists p'. split; [now right|exact Hp'].
Qed.

Lemma universal_newlines_id s :
  Py.char_in "013" s = false -> Py.universal_newlines s = s.
Proof.
  induction s as [|c s IH]; [reflexivity|]. cbn [Py.char_in Py.universal_newlines].
  intros H. apply orb_false_iff in H as [Hc Hs]. rewrite Hc, (IH Hs). reflexivity.
Qed.

Lemma universal_newlines_no_CR s :
  Py.char_in "013" (Py.universal_newlines s) = false.
Proof.
  assert (H : forall n s, (String.length s <= n)%nat ->
                          Py.char_in "013" (Py.universal_newlines s) = false).
  { clear s. induction n as [|n IH]; intros s Hn.
    - destruct s; [reflexivity|simpl in Hn; lia].
    - destruct s as [|c s]; [reflexivity|]. simpl in Hn.
      cbn [Py.universal_newlines].
      destruct (Ascii.eqb_spec c "013") as [->|Hc].
      + cbn [Py.char_in Ascii.eqb]. cbn [orb].
        destruct s as [|c' s']; [reflexivity|]. simpl in Hn.
        destruct (Ascii.eqb c' "010"); apply IH; simpl; lia.
      + cbn [Py.char_in]. rewrite IH by lia.
        destruct (Ascii.eqb_spec c "013"); [congruence|reflexivity]. }
  apply (H (String.length s)). lia.
Qed.

Lemma complete_cons c l :
  Ascii.eqb c "010" = false -> Ascii.eqb c "013" = false ->
  complete_line l -> complete_line (String c l).
Proof.
  intros H1 H2 (body & -> & Hb1 & Hb2). exists (String c body).
  split; [reflexivity|]. split; cbn [Py.char_in]; [rewrite H1|rewrite H2]; assumption.
Qed.

Lemma last_cons c l :
  Ascii.eqb c "010" = false -> Ascii.eqb c "013" = false ->
  last_line l -> last_line (String c l).
Proof.
  intros H1 H2 [Hc|[_ [Hb1 Hb2]]]; [left; now apply complete_cons|].
  right. split; [discriminate|].
  split; cbn [Py.char_in]; [rewrite H1|rewrite H2]; assumption.
Qed.

Lemma lines_of_ok s : Py.char_in "013" s = false -> lines_ok (Py.lines_of s).
Proof.
  induction s as [|c s IH]; [constructor|]. cbn [Py.char_in Py.lines_of].
  intros H. apply orb_false_iff in H as [Hc Hs]. specialize (IH Hs).
  assert (Hnl : complete_line (String "010" "")).
  { exists "". split; [reflexivity|]. split; reflexivity. }
  destruct (Ascii.eqb_spec c "010") as [->|Hne].
  - cbn [lines_ok]. destruct (Py.lines_of s); [now left|]. split; assumption.
  - assert (Hc' : Ascii.eqb c "010" = false) by now apply Ascii.eqb_neq.
    destruct (Py.lines_of s) as [|h r].
    + cbn [lines_ok]. right. split; [discriminate|].
      split; cbn [Py.char_in]; [rewrite Hc'|rewrite Hc]; reflexivity.
    + cbn [lines_ok] in *. destruct r.
      * now apply last_cons.
      * destruct IH as [IH1 IH2]. split; [now apply complete_cons|exact IH2].
Qed.

Lemma lines_of_complete body rest :
  Py.char_in "010" body = false ->
  Py.lines_of ((body +:+ LF) +:+ rest) = (body +:+ LF) :: Py.lines_of rest.
Proof.
  intros H. induction body as [|c b IH].
  - reflexivity.
  - cbn [Py.char_in] in H. apply orb_false_iff in H as [Hc Hb].
    rewrite !app_cons. cbn [Py.lines_of]. rewrite Hc, (IH Hb). reflexivity.
Qed.

Lemma lines_of_last l :
  l <> "" -> Py.char_in "010" l = false -> Py.lines_of l = [l].
Proof.
  induction l as [|c l IH]; [congruence|]. intros _ H.
  cbn [Py.char_in] in H. apply orb_false_iff in H as [Hc Hl].
  cbn [Py.lines_of]. rewrite Hc. destruct l as [|c' l']; [reflexivity|].
  rewrite IH; [reflexivity|discriminate|exact Hl].
Qed.

Lemma lines_of_concat lines :
  lines_ok lines -> Py.lines_of (concat_lines lines) = lines.
Proof.
  induction lines as [|l r IH]; [reflexivity|]. cbn [lines_ok concat_lines].
  destruct r as [|l' r'].
  - cbn [concat_lines]. rewrite app_nil_r.
    intros [(body & -> & Hb & _)|[Hne [Hl _]]].
    + rewrite <- (app_nil_r (body +:+ LF)), lines_of_complete by exact Hb.
      rewrite app_nil_r. reflexivity.
    + now apply lines_of_last.
  - intros [(body & -> & Hb & _) Hr].
    rewrite lines_of_complete by exact Hb. rewrite (IH Hr). reflexivity.
Qed.

Lemma plain_no_CR_app s t :
  Py.char_in "013" s = false -> Py.char_in "013" t = false ->
  Py.char_in "013" (s +:+ t) = false.
Proof. intros H1 H2. now rewrite char_in_app, H1, H2. Qed.

Lemma last_line_no_CR l : last_line l -> Py.char_in "013" l = false.
Proof.
  intros [(body & -> & _ & Hb)|[_ [_ H]]]; [|exact H].
  now apply plain_no_CR_app.
Qed.

Lemma concat_lines_no_CR lines :
  lines_ok lines -> Py.char_in "013" (concat_lines lines) = false.
Proof.
  induction lines as [|l r IH]; [reflexivity|]. cbn [lines_ok concat_lines].
  destruct r as [|l' r'].
  - intros H. apply plain_no_CR_app; [now apply last_line_no_CR|reflexivity].
  - intros [Hc Hr]. apply plain_no_CR_app; [|now apply IH].
    apply last_line_no_CR. now left.
Qed.

Lemma readlines_concat lines :
  lines_ok lines -> Py.readlines (concat_lines lines) = lines.
Proof.
  intros H. unfold Py.readlines.
  rewrite universal_newlines_id by now apply concat_lines_no_CR.
  now apply lines_of_concat.
Qed.

Lemma readlines_ok text : lines_ok (Py.readlines text).
Proof. apply lines_of_ok, universal_newlines_no_CR. Qed.

Lemma update_row_eq done line :
  Mac.update_row done line =
  Py.join "," (<[2%nat := done]> (pad3 (Py.split (Py.strip line) ","))) +:+ LF.
Proof. reflexivity. Qed.

Lemma pad3_length parts : (3 <= length (pad3 parts))%nat.
Proof. unfold pad3. rewrite length_app, repeat_length. lia. Qed.

Lemma pad3_forall (P : string -> Prop) parts :
  P "" -> Forall P parts -> Forall P (pad3 parts).
Proof.
  intros H0 H. unfold pad3. apply Forall_app. split; [exact H|].
  apply Forall_forall. intros x Hx. apply list_elem_of_In, repeat_spec in Hx. now subst.
Qed.

Lemma new_parts_forall (P : string -> Prop) done s :
  P "" -> P done -> Forall P (Py.split s ",") ->
  Forall P (<[2%nat := done]> (pad3 (Py.split s ","))).
Proof.
  intros H0 Hd H. apply Forall_insert; [|exact Hd]. now apply pad3_forall.
Qed.

Lemma split_forall_no_sep s sep :
  Forall (fun p => Py.char_in sep p = false) (Py.split s sep).
Proof.
  apply Forall_forall. intros p Hp. apply list_elem_of_In in Hp.
  now destruct (split_chars s sep p Hp).
Qed.

Lemma split_forall_chars s sep c :
  Py.char_in c s = false ->
  Forall (fun p => Py.char_in c p = false) (Py.split s sep).
Proof.
  intros Hs. apply Forall_forall. intros p Hp. apply list_elem_of_In in Hp.
  destruct (split_chars s sep p Hp) as [_ H].
  destruct (Py.char_in c p) eqn:E; [|reflexivity].
  rewrite (H c E) in Hs. discriminate.
Qed.

(** The fields of a rewritten row. *)
Lemma update_row_fields done line :
  Py.char_in "," done = false ->
  row_fields (Mac.update_row done line) =
  <[2%nat := done]> (pad3 (Py.split (Py.strip line) ",")).
Proof.
  intros Hd. unfold row_fields. rewrite update_row_eq, chomp_app_LF.
  apply split_join.
  - intros E. apply (f_equal length) in E. rewrite length_insert in E.
    pose proof (pad3_length (Py.split (Py.strip line) ",")). simpl in E. lia.
  - apply new_parts_forall; [reflexivity|exact Hd|apply split_forall_no_sep].
Qed.


Lemma char_in_false_strip c s :
  Py.char_in c s = false -> Py.char_in c (Py.strip s) = false.
Proof.
  intros H. destruct (Py.char_in c (Py.strip s)) eqn:E; [|reflexivity].
  apply char_in_strip in E. congruence.
Qed.

Lemma strip_complete body : Py.strip (body +:+ LF) = Py.strip body.
Proof. apply strip_app_space. reflexivity. Qed.

Lemma strip_last_line_plain l : last_line l -> plain (Py.strip l).
Proof.
  intros [(body & -> & H1 & H2)|[_ [H1 H2]]].
  - rewrite strip_complete. split; now apply char_in_false_strip.
  - split; now apply char_in_false_strip.
Qed.

Lemma join_forall_chars c sep parts :
  Py.char_in c sep = false ->
  Forall (fun p => Py.char_in c p = false) parts ->
  Py.char_in c (Py.join sep parts) = false.
Proof.
  intros Hsep H. destruct (Py.char_in c (Py.join sep parts)) eqn:E; [|reflexivity].
  apply char_in_join in E as [E|(p & Hp & E)]; [congruence|].
  rewrite Forall_forall in H. apply list_elem_of_In in Hp. rewrite (H p Hp) in E. discriminate.
Qed.

Lemma update_row_complete done line :
  plain done -> last_line line -> complete_line (Mac.update_row done line).
Proof.
  intros [Hd1 Hd2] Hl. destruct (strip_last_line_plain _ Hl) as [Hs1 Hs2].
  rewrite update_row_eq. eexists; split; [reflexivity|]. split.
  - apply join_forall_chars; [reflexivity|].
    apply new_parts_forall; [reflexivity|exact Hd1|now apply split_forall_chars].
  - apply join_forall_chars; [reflexivity|].
    apply new_parts_forall; [reflexivity|exact Hd2|now apply split_forall_chars].
Qed.

Lemma update_line_complete env done line :
  plain done -> complete_line line -> complete_line (Mac.update_line env done line).
Proof.
  intros Hd Hl. unfold Mac.update_line.
  destruct (Py.startswith line _); [|exact Hl].
  apply update_row_complete; [exact Hd|now left].
Qed.

Lemma update_line_last env done line :
  plain done -> last_line line -> last_line (Mac.update_line env done line).
Proof.
  intros Hd Hl. unfold Mac.update_line.
  destruct (Py.startswith line _); [|exact Hl].
  left. now apply update_row_complete.
Qed.

Lemma update_lines_ok env done lines :
  plain done -> lines_ok lines -> lines_ok (map (Mac.update_line env done) lines).
Proof.
  intros Hd. induction lines as [|l r IH]; [trivial|].
  cbn [map lines_ok]. destruct r as [|l' r'].
  - cbn [map]. now apply update_line_last.
  - intros [Hc Hr]. cbn [map] in *. split; [now apply update_line_complete|].
    now apply IH.
Qed.

Lemma done_status_plain nodes :
  plain (Mac.done_status_of nodes) /\ Py.char_in "," (Mac.done_status_of nodes) = false.
Proof.
  unfold Mac.done_status_of. destruct (0 <? length nodes)%nat; repeat split.
Qed.

Lemma done_status_cases (nodes : list MarkupNode) :
  Mac.done_status_of nodes = match nodes with [] => "" | _ => "True" end.
Proof. destruct nodes; reflexivity. Qed.


Lemma temp_csv_fresh env : Mac.temp_csv env <> log_csv env.
Proof.
  unfold Mac.temp_csv. intros H.
  apply (f_equal String.length) in H. rewrite app_length in H. simpl in H. lia.
Qed.

Lemma io_cases f op w :
  (f op = false /\ io f op w = (Ok tt, w)) \/
  (f op = true /\ io f op w = (Raised (OSError op), w)).
Proof. unfold io. destruct (f op); [right|left]; split; reflexivity. Qed.

Lemma rewrite_lines_spec env done lines :
  forall n w r w',
    Mac.rewrite_lines env done n lines w = (r, w') ->
    stdout w' = stdout w /\
    (forall p, p <> Mac.temp_csv env -> fs w' !! p = fs w !! p) /\
    (r = Ok tt ->
     forall acc, fs w !! Mac.temp_csv env = Some acc ->
       fs w' !! Mac.temp_csv env =
       Some (acc +:+ concat_lines (map (Mac.update_line env done) lines))) /\
    (forall e, r = Raised e -> exists op, fault env op = true).
Proof.
  induction lines as [|line rest IH]; intros n w r w' H.
  - injection H as <- <-. repeat split; auto; [|discriminate].
    intros _ acc Hacc. cbn [map concat_lines]. now rewrite app_nil_r.
  - cbn [Mac.rewrite_lines] in H. unfold bind at 1 in H.
    destruct (io_cases (fault env) (OpReadLine (log_csv env) n) w) as [[_ E]|[F E]];
      rewrite E in H.
    2:{ injection H as <- <-. repeat split; auto; [discriminate|]. eauto. }
    unfold bind at 1, write in H. unfold bind at 1 in H.
    destruct (io_cases (fault env) (OpWrite (Mac.temp_csv env) n) w) as [[_ E2]|[F E2]];
      rewrite E2 in H.
    2:{ injection H as <- <-. repeat split; auto; [discriminate|]. eauto. }
    cbn [set_fs] in H.
    apply IH in H as (Hout & Hframe & Hres & Hfault). cbn [stdout fs] in *.
    split; [exact Hout|]. split; [|split; [|exact Hfault]].
    + intros p Hp. rewrite (Hframe p Hp). now apply lookup_insert_ne.
    + intros Hr acc Hacc. rewrite Hacc in Hres. cbn [default] in Hres.
      cbn [map concat_lines]. rewrite <- app_assoc.
      apply (Hres Hr). apply lookup_insert_eq.
Qed.

Lemma update_report_log_cases env nodes w :
  exists w',
    Mac.update_report_log env nodes w = (Ok tt, w') /\
    ((exists e, stdout w' = (stdout w ++ [failed_message e])%list /\
                fs w' !! log_csv env = fs w !! log_csv env /\
                ((exists op, fault env op = true) \/ fs w !! log_csv env = None)) \/
     (exists text,
        fs w !! log_csv env = Some text /\
        fs w' !! log_csv env = Some (new_report_text env nodes text) /\
        fs w' !! Mac.temp_csv env = None /\
        stdout w' = (stdout w ++ [updated_message env nodes])%list)).
Proof.
  pose proof (temp_csv_fresh env) as Hne.
  unfold Mac.update_report_log, try_except.
  unfold bind at 1, open_read. unfold bind at 1.
  destruct (io_cases (fault env) (OpOpenRead (log_csv env)) w) as [[_ E]|[F E]];
    rewrite E; clear E.
  2:{ eexists; split; [reflexivity|]. left; eexists; repeat split; eauto. }
  destruct (fs w !! log_csv env) as [text|] eqn:Htext.
  2:{ eexists; split; [reflexivity|]. left; eexists; repeat split; eauto. }
  unfold bind at 1, open_write. unfold bind at 1.
  destruct (io_cases (fault env) (OpOpenWrite (Mac.temp_csv env)) w) as [[_ E]|[F E]];
    rewrite E; clear E.
  2:{ eexists; split; [reflexivity|]. left; eexists; repeat split; eauto. }
  cbn [set_fs]. unfold bind at 1.
  set (w1 := World (<[Mac.temp_csv env:=""]> (fs w)) (stdout w)).
  destruct (Mac.rewrite_lines env (Mac.done_status_of nodes) 0 (Py.readlines text) w1)
    as [r w2] eqn:Hrw.
  apply rewrite_lines_spec in Hrw as (Hout & Hframe & Hres & Hfault).
  assert (Hlog2 : fs w2 !! log_csv env = Some text).
  { rewrite Hframe by congruence. subst w1; cbn [fs].
    rewrite lookup_insert_ne by exact Hne. exact Htext. }
  assert (Hout2 : stdout w2 = stdout w) by (rewrite Hout; reflexivity).
  destruct r as [[]|e].
  2:{ eexists; split; [reflexivity|]. left; eexists; repeat split.
      - cbn [print stdout]. rewrite Hout2. reflexivity.
      - cbn [print fs]. exact Hlog2.
      - left. eapply Hfault; reflexivity. }
  specialize (Hres eq_refl "" (lookup_insert_eq _ _ _)).
  unfold bind at 1, close.
  destruct (io_cases (fault env) (OpClose (Mac.temp_csv env)) w2) as [[_ E]|[F E]];
    rewrite E; clear E.
  2:{ eexists; split; [reflexivity|]. left; eexists; repeat split.
      - cbn [print stdout]. rewrite Hout2. reflexivity.
      - cbn [print fs]. exact Hlog2.
      - eauto. }
  unfold bind at 1, os_replace. unfold bind at 1.
  destruct (io_cases (fault env) (OpReplace (Mac.temp_csv env) (log_csv env)) w2)
    as [[_ E]|[F E]]; rewrite E; clear E.
  2:{ eexists; split; [reflexivity|]. left; eexists; repeat split.
      - cbn [print stdout]. rewrite Hout2. reflexivity.
      - cbn [print fs]. exact Hlog2.
      - eauto. }
  rewrite Hres. eexists; split; [reflexivity|]. right. exists text.
  cbn [print fs stdout]. repeat split.
  - apply lookup_insert_eq.
  - rewrite lookup_insert_ne by (intros ?; apply Hne; congruence).
    apply lookup_delete_eq.
  - rewrite Hout2. reflexivity.
Qed.

Lemma update_report_log_no_fault env nodes w text :
  (forall op, fault env op = false) ->
  fs w !! log_csv env = Some text ->
  exists w',
    Mac.update_report_log env nodes w = (Ok tt, w') /\
    fs w' !! log_csv env = Some (new_report_text env nodes text).
Proof.
  intros Hnf Htext.
  destruct (update_report_log_cases env nodes w) as (w' & Hrun & [Hfail|Hok]).
  - destruct Hfail as (e & _ & _ & [[op Hop]|Hnone]).
    + rewrite Hnf in Hop. discriminate.
    + congruence.
  - destruct Hok as (text' & Ht & Hnew & _). exists w'. split; [exact Hrun|].
    congruence.
Qed.

Lemma report_rows env nodes w text :
  (forall op, fault env op = false) ->
  fs w !! log_csv env = Some text ->
  exists w',
    Mac.update_report_log env nodes w = (Ok tt, w') /\
    fs w' !! log_csv env = Some (new_report_text env nodes text) /\
    Py.readlines (new_report_text env nodes text) =
    map (Mac.update_line env (Mac.done_status_of nodes)) (Py.readlines text).
Proof.
  intros Hnf Htext.
  destruct (update_report_log_no_fault env nodes w text Hnf Htext) as (w' & Hrun & Hnew).
  exists w'. repeat split; [exact Hrun|exact Hnew|].
  unfold new_report_text. apply readlines_concat, update_lines_ok.
  - apply done_status_plain.
  - apply readlines_ok.
Qed.


(** C5. The update of the master status log never raises. Either it fails,
    which it reports on the console, and the file at [log_csv] is as before;
    or every row has been written to the temporary file, which has then
    replaced [log_csv]. *)
Theorem report_log_update_is_atomic env nodes w :
  exists w',
    Mac.update_report_log env nodes w = (Ok tt, w') /\
    ((exists e, stdout w' = (stdout w ++ [failed_message e])%list /\
                fs w' !! log_csv env = fs w !! log_csv env) \/
     (exists text,
        fs w !! log_csv env = Some text /\
        fs w' !! log_csv env = Some (new_report_text env nodes text) /\
        fs w' !! Mac.temp_csv env = None /\
        stdout w' = (stdout w ++ [updated_message env nodes])%list)).
Proof.
  destruct (update_report_log_cases env nodes w) as (w' & Hrun & [Hfail|Hok]).
  - exists w'. split; [exact Hrun|]. left.
    destruct Hfail as (e & Hout & Hlog & _). eauto.
  - exists w'. split; [exact Hrun|]. now right.
Qed.

(** C8, as amended. When the update of the master status log goes through,
    a line that does not begin with the report number and a comma is copied
    unchanged; a line that does is stripped of the whitespace at its ends,
    split at the commas and padded to three fields, and then only its third
    field is replaced. *)
Theorem report_log_other_fields_kept env nodes w text :
  (forall op, fault env op = false) ->
  fs w !! log_csv env = Some text ->
  exists w' text',
    Mac.update_report_log env nodes w = (Ok tt, w') /\
    fs w' !! log_csv env = Some text' /\
    length (Py.readlines text') = length (Py.readlines text) /\
    forall (i : nat) line,
      Py.readlines text !! i = Some line ->
      exists line',
        Py.readlines text' !! i = Some line' /\
        if Py.startswith line (report_number env +:+ ",")
        then row_fields line' =
             <[2%nat := Mac.done_status_of nodes]>
               (pad3 (Py.split (Py.strip line) ","))
        else line' = line.
Proof.
  intros Hnf Htext.
  destruct (report_rows env nodes w text Hnf Htext) as (w' & Hrun & Hnew & Hrows).
  exists w', (new_report_text env nodes text).
  split; [exact Hrun|]. split; [exact Hnew|]. rewrite Hrows. split.
  - apply length_map.
  - intros i line Hi. eexists. split.
    + rewrite list_lookup_fmap, Hi. reflexivity.
    + unfold Mac.update_line.
      destruct (Py.startswith line (report_number env +:+ ",")); [|reflexivity].
      apply update_row_fields, done_status_plain.
Qed.

(** ** Reconciling the markup log *)

(** ** dictionaries *)
Section DictFacts.
Context {V : Type}.
Implicit Types (d : Py.dict V) (k : string) (v : V).

Lemma get_set_eq d k v : Py.get (Py.set d k v) k = Some v.
Proof.
  induction d as [|[k' v'] d IH]; cbn [Py.set Py.get].
  - now rewrite String.eqb_refl.
  - destruct (String.eqb k' k) eqn:E; cbn [Py.get]; rewrite E; auto.
Qed.

Lemma get_set_ne d k k' v : k <> k' -> Py.get (Py.set d k v) k' = Py.get d k'.
Proof.
  intros Hne. induction d as [|[k0 v0] d IH]; cbn [Py.set Py.get].
  - destruct (String.eqb_spec k k'); [congruence|reflexivity].
  - destruct (String.eqb_spec k0 k) as [->|Hk]; cbn [Py.get].
    + destruct (String.eqb_spec k k'); [congruence|reflexivity].
    + destruct (String.eqb k0 k'); [reflexivity|exact IH].
Qed.

Lemma get_None_keys d k : Py.get d k = None <-> ~ In k (Py.keys d).
Proof.
  induction d as [|[k' v'] d IH]; cbn [Py.get Py.keys map fst In]; [tauto|].
  destruct (String.eqb_spec k' k) as [->|Hne].
  - split; [discriminate|]. intros H; exfalso; apply H; now left.
  - unfold Py.keys in IH. rewrite IH. tauto.
Qed.

Lemma get_Some_keys d k v : Py.get d k = Some v -> In k (Py.keys d).
Proof.
  intros H. destruct (in_dec string_dec k (Py.keys d)) as [Hin|Hnot]; [exact Hin|].
  apply get_None_keys in Hnot. congruence.
Qed.

Lemma keys_get d k : In k (Py.keys d) -> exists v, Py.get d k = Some v.
Proof.
  intros H. destruct (Py.get d k) as [v|] eqn:E; [eauto|].
  apply get_None_keys in E. contradiction.
Qed.

Lemma set_present d k v v0 : Py.get d k = Some v0 -> Py.keys (Py.set d k v) = Py.keys d.
Proof.
  induction d as [|[k' v'] d IH]; cbn [Py.get Py.set]; [discriminate|].
  destruct (String.eqb k' k); [reflexivity|].
  intros H. cbn [Py.keys map fst]. f_equal. exact (IH H).
Qed.

Lemma set_absent d k v : Py.get d k = None -> Py.set d k v = (d ++ [(k, v)])%list.
Proof.
  induction d as [|[k' v'] d IH]; cbn [Py.get Py.set]; [reflexivity|].
  destruct (String.eqb k' k); [discriminate|].
  intros H. cbn [app]. f_equal. exact (IH H).
Qed.

Lemma in_keys_set d k v k' :
  In k' (Py.keys (Py.set d k v)) <-> k' = k \/ In k' (Py.keys d).
Proof.
  destruct (Py.get d k) as [v0|] eqn:E.
  - rewrite (set_present _ _ _ _ E). split; [tauto|].
    intros [->|H]; [eapply get_Some_keys; eauto|exact H].
  - rewrite (set_absent _ _ _ E). unfold Py.keys. rewrite map_app, in_app_iff.
    cbn. intuition.
Qed.

End DictFacts.

(** ** the monad *)
Lemma for_each_pure {A St} (f : St -> A -> St) (body : St -> A -> M St) l :
  (forall st x w, exists w', body st x w = (Ok (f st x), w')) ->
  forall st w, exists w', for_each l body st w = (Ok (fold_left f l st), w').
Proof.
  intros Hbody. induction l as [|x l IH]; intros st w.
  - eexists; reflexivity.
  - cbn [for_each fold_left]. unfold bind.
    destruct (Hbody st x w) as [w' ->]. apply IH.
Qed.

Lemma for_each_app {A St} (body : St -> A -> M St) l1 l2 st w :
  for_each (l1 ++ l2) body st w =
  bind (for_each l1 body st) (for_each l2 body) w.
Proof.
  revert st w. induction l1 as [|x l1 IH]; intros st w.
  - reflexivity.
  - cbn [app for_each]. unfold bind in *.
    destruct (body st x w) as [[st'|e] w']; [|reflexivity].
    apply IH.
Qed.

Lemma for_each_invariant {A St} (I : St -> Prop) (body : St -> A -> M St) l :
  (forall st x w st' w', body st x w = (Ok st', w') -> I st -> I st') ->
  forall st w st' w', for_each l body st w = (Ok st', w') -> I st -> I st'.
Proof.
  intros Hbody. induction l as [|x l IH]; intros st w st' w' Hrun HI.
  - injection Hrun as <- _. exact HI.
  - cbn [for_each] in Hrun. unfold bind in Hrun.
    destruct (body st x w) as [[st1|e] w1] eqn:E; [|discriminate].
    eapply IH; eauto.
Qed.

(** ** one node *)
Lemma save_markup_step env st node w :
  exists w', Mac.save_markup env st node w = (Ok (step env st node), w').
Proof.
  unfold Mac.save_markup, step, saved_content.
  destruct (Mac.assign_name (Mac.markup_log st) (Mac.max_number st) node)
    as [safe_name max_number]. cbn [fst snd].
  unfold try_except.
  destruct (saveNode env node (Py.path_join (sourceFolder env) safe_name))
    as [text| |e].
  - unfold bind at 1. cbn [set_fs]. unfold bind at 1. cbn [print].
    unfold bind at 1, read_text. unfold bind at 1, io.
    destruct (fault env (OpOpenRead _)).
    + eexists; reflexivity.
    + cbn [ret fs]. rewrite lookup_insert_eq.
      destruct (json_reload env (Py.universal_newlines text)); eexists; reflexivity.
  - eexists; reflexivity.
  - eexists; reflexivity.
Qed.

Lemma save_markups_fold env log nodes w :
  exists w',
    Mac.save_markups env log nodes w =
    (Ok (fold_left (step env) nodes (init_state log)), w').
Proof. apply for_each_pure. intros. apply save_markup_step. Qed.

Lemma record_saved_set now log safe content :
  exists e, Mac.record_saved now log safe content = Py.set log safe e /\
            Mac.content e = content /\ Mac.deleted_at e = "" /\
            match Py.get log safe with
            | Some e0 => Mac.created_at e = Mac.created_at e0
            | None => Mac.created_at e = now
            end.
Proof.
  unfold Mac.record_saved. destruct (Py.get log safe) as [e0|];
    eexists; repeat split; reflexivity.
Qed.

Lemma step_log env st node :
  Mac.markup_log (step env st node) = Mac.markup_log st \/
  exists content,
    Mac.markup_log (step env st node) =
    Mac.record_saved (now_str env) (Mac.markup_log st)
      (fst (Mac.assign_name (Mac.markup_log st) (Mac.max_number st) node)) content.
Proof.
  unfold step. cbn [Mac.markup_log].
  destruct (saved_content env node _); [right; eauto|now left].
Qed.

Lemma step_current env st node :
  Mac.current_filenames (step env st node) =
  {[ fst (Mac.assign_name (Mac.markup_log st) (Mac.max_number st) node) ]} ∪
  Mac.current_filenames st.
Proof. reflexivity. Qed.

Lemma step_keys_grow env st node k :
  In k (Py.keys (Mac.markup_log st)) ->
  In k (Py.keys (Mac.markup_log (step env st node))).
Proof.
  intros H. destruct (step_log env st node) as [->|[content ->]]; [exact H|].
  destruct (record_saved_set (now_str env) (Mac.markup_log st)
              (fst (Mac.assign_name (Mac.markup_log st) (Mac.max_number st) node))
              content) as (e & -> & _).
  apply in_keys_set. now right.
Qed.

Lemma step_keys_new env st node k :
  In k (Py.keys (Mac.markup_log (step env st node))) ->
  In k (Py.keys (Mac.markup_log st)) \/
  k ∈ Mac.current_filenames (step env st node).
Proof.
  rewrite step_current.
  destruct (step_log env st node) as [->|[content ->]]; [now left|].
  destruct (record_saved_set (now_str env) (Mac.markup_log st)
              (fst (Mac.assign_name (Mac.markup_log st) (Mac.max_number st) node))
              content) as (e & -> & _).
  intros H. apply in_keys_set in H as [->|H]; [right|now left].
  apply elem_of_union_l, elem_of_singleton. reflexivity.
Qed.

Lemma step_created env st node k e :
  Py.get (Mac.markup_log st) k = Some e ->
  exists e', Py.get (Mac.markup_log (step env st node)) k = Some e' /\
             Mac.created_at e' = Mac.created_at e.
Proof.
  intros H. destruct (step_log env st node) as [->|[content ->]]; [eauto|].
  set (safe := fst (Mac.assign_name (Mac.markup_log st) (Mac.max_number st) node)).
  destruct (record_saved_set (now_str env) (Mac.markup_log st) safe content)
    as (e1 & -> & _ & _ & Hc).
  destruct (string_dec safe k) as [<-|Hne].
  - rewrite get_set_eq. rewrite H in Hc. eauto.
  - rewrite get_set_ne by exact Hne. eauto.
Qed.

Lemma fold_keys env nodes :
  forall st,
    (forall k, In k (Py.keys (Mac.markup_log st)) ->
               In k (Py.keys (Mac.markup_log (fold_left (step env) nodes st)))) /\
    (forall k, In k (Py.keys (Mac.markup_log (fold_left (step env) nodes st))) ->
               In k (Py.keys (Mac.markup_log st)) \/
               k ∈ Mac.current_filenames (fold_left (step env) nodes st)) /\
    Mac.current_filenames st ⊆ Mac.current_filenames (fold_left (step env) nodes st).
Proof.
  induction nodes as [|node nodes IH]; intros st; cbn [fold_left].
  - repeat split; auto.
  - destruct (IH (step env st node)) as (H1 & H2 & H3). repeat split.
    + intros k Hk. apply H1. now apply step_keys_grow.
    + intros k Hk. destruct (H2 k Hk) as [H|H]; [|now right].
      apply step_keys_new in H as [H|H]; [now left|right].
      revert H. apply elem_of_subseteq. exact H3.
    + rewrite step_current in H3.
      etrans; [apply union_subseteq_r|exact H3].
Qed.

Lemma fold_created env nodes :
  forall st k e,
    Py.get (Mac.markup_log st) k = Some e ->
    exists e', Py.get (Mac.markup_log (fold_left (step env) nodes st)) k = Some e' /\
               Mac.created_at e' = Mac.created_at e.
Proof.
  induction nodes as [|node nodes IH]; intros st k e H; cbn [fold_left]; [eauto|].
  destruct (step_created env st node k e H) as (e1 & H1 & <-).
  apply (IH _ _ _ H1).
Qed.

(** ** deleted markups *)
Lemma delete_markup_cases env log k w :
  exists log' w',
    Mac.delete_markup env log k w = (Ok log', w') /\
    (log' = log \/
     exists e, Py.get log k = Some e /\
       log' = Py.set log k
                (Mac.Entry (Mac.created_at e) (Mac.content e) (now_str env))).
Proof.
  unfold Mac.delete_markup, try_except.
  unfold bind at 1, path_exists. unfold bind at 1.
  destruct (bool_decide _).
  - unfold bind at 1, remove. unfold bind at 1, io.
    destruct (fault env _); [eexists _, _; split; [reflexivity|now left]|].
    cbn [ret]. destruct (fs w !! _); [|eexists _, _; split; [reflexivity|now left]].
    cbn [print]. destruct (Py.get log k) as [e|] eqn:E.
    + destruct (String.eqb (Mac.deleted_at e) "");
        eexists _, _; (split; [reflexivity|]); [right; eauto|now left].
    + eexists _, _; split; [reflexivity|now left].
  - cbn [ret]. destruct (Py.get log k) as [e|] eqn:E.
    + destruct (String.eqb (Mac.deleted_at e) "");
        eexists _, _; (split; [reflexivity|]); [right; eauto|now left].
    + eexists _, _; split; [reflexivity|now left].
Qed.

Lemma delete_markup_created env log k w log' w' k0 e :
  Mac.delete_markup env log k w = (Ok log', w') ->
  Py.get log k0 = Some e ->
  exists e', Py.get log' k0 = Some e' /\ Mac.created_at e' = Mac.created_at e.
Proof.
  intros Hrun H.
  destruct (delete_markup_cases env log k w) as (l1 & w1 & Hrun' & Hcase).
  rewrite Hrun in Hrun'. injection Hrun' as <- <-.
  destruct Hcase as [->|(e0 & He0 & ->)]; [eauto|].
  destruct (string_dec k k0) as [<-|Hne].
  - rewrite get_set_eq. rewrite H in He0. injection He0 as <-. eauto.
  - rewrite get_set_ne by exact Hne. eauto.
Qed.

Lemma delete_each_created env l :
  forall log w, exists log' w',
    for_each l (Mac.delete_markup env) log w = (Ok log', w') /\
    forall k e, Py.get log k = Some e ->
      exists e', Py.get log' k = Some e' /\ Mac.created_at e' = Mac.created_at e.
Proof.
  induction l as [|k l IH]; intros log w.
  - eexists _, _; split; [reflexivity|eauto].
  - cbn [for_each]. unfold bind.
    destruct (delete_markup_cases env log k w) as (l1 & w1 & Hrun & _).
    rewrite Hrun. destruct (IH l1 w1) as (log' & w' & Hrest & Hkeep).
    exists log', w'. split; [exact Hrest|].
    intros k0 e H.
    destruct (delete_markup_created _ _ _ _ _ _ _ _ Hrun H) as (e1 & H1 & <-).
    apply (Hkeep _ _ H1).
Qed.

(** C10. Whatever the nodes and whichever file operations fail, every entry
    that was loaded from the markup log is still in the log when the
    reconciliation ends, with the [created_at] it was loaded with. *)
Theorem created_at_is_kept env nodes w0 log0 w1 :
  Mac.load_markup_log env w0 = (Ok log0, w1) ->
  exists logF w2,
    Mac.reconcile env nodes w0 = (Ok logF, w2) /\
    forall k e, Py.get log0 k = Some e ->
      exists e', Py.get logF k = Some e' /\
                 Mac.created_at e' = Mac.created_at e.
Proof.
  intros Hload. unfold Mac.reconcile. unfold bind at 1. rewrite Hload.
  unfold bind at 1.
  destruct (save_markups_fold env log0 nodes w1) as [w2 ->].
  set (st := fold_left (step env) nodes (init_state log0)).
  unfold Mac.detect_deleted.
  destruct (delete_each_created env
              (elements (Mac.deleted_files (Mac.markup_log st) (Mac.current_filenames st)))
              (Mac.markup_log st) w2) as (logF & w3 & Hrun & Hkeep).
  exists logF, w3. split; [exact Hrun|].
  intros k e H.
  destruct (fold_created env nodes (init_state log0) k e H) as (e1 & H1 & <-).
  apply (Hkeep _ _ H1).
Qed.

Lemma set_same {V} (log : Py.dict V) k e : Py.get log k = Some e -> Py.set log k e = log.
Proof.
  induction log as [|[k' v'] log IH]; [discriminate|].
  cbn [Py.get Py.set]. destruct (String.eqb k' k); [congruence|].
  intros H. now rewrite IH.
Qed.

(** A loop that deletes the file of each listed name and marks its entry. *)
Section DeleteEach.

Context {V : Type}.
Variable body : Py.dict V -> string -> M (Py.dict V).
Variable mark : V -> V.
Variable path : string -> string.

Hypothesis body_ok :
  forall log k w e,
    Py.get log k = Some e ->
    exists w', body log k w = (Ok (Py.set log k (mark e)), w') /\
               fs w' = delete (path k) (fs w).

Lemma delete_each l :
  NoDup l ->
  forall log w,
    (forall k, In k l -> In k (Py.keys log)) ->
    exists log' w',
      for_each l body log w = (Ok log', w') /\
      Py.keys log' = Py.keys log /\
      (forall k, In k l ->
         fs w' !! path k = None /\
         exists e, Py.get log k = Some e /\ Py.get log' k = Some (mark e)) /\
      (forall k, ~ In k l -> Py.get log' k = Py.get log k) /\
      (forall p, (forall k, In k l -> p <> path k) -> fs w' !! p = fs w !! p).
Proof.
  intros Hnd. induction Hnd as [|k l Hk Hnd IH]; intros log w Hin.
  - eexists _, _. split; [reflexivity|]. split; [reflexivity|].
    split; [intros k []|]. split; auto.
  - destruct (keys_get log k (Hin k (or_introl eq_refl))) as [e He].
    cbn [for_each]. unfold bind.
    destruct (body_ok log k w e He) as (w1 & -> & Hfs1).
    set (log1 := Py.set log k (mark e)).
    assert (Hkeys1 : Py.keys log1 = Py.keys log) by (eapply set_present; eauto).
    destruct (IH log1 w1) as (log' & w' & Hrun & Hkeys & Hdel & Hother & Hframe).
    { intros k' Hk'. rewrite Hkeys1. apply Hin. now right. }
    exists log', w'. split; [exact Hrun|]. split; [congruence|].
    assert (Hkl : ~ In k l) by (intros H; apply Hk; now apply list_elem_of_In).
    split; [|split].
    + intros k0 H. split.
      * destruct H as [<-|H]; [|now apply Hdel].
        destruct (in_dec string_dec (path k) (map path l)) as [Hp|Hp].
        -- apply in_map_iff in Hp as (k' & Hp & Hk').
           rewrite <- Hp. now apply Hdel.
        -- rewrite Hframe, Hfs1; [apply lookup_delete_eq|].
           intros k' Hk' E. apply Hp. rewrite E. now apply in_map.
      * destruct H as [<-|H].
        -- exists e. split; [exact He|]. rewrite (Hother k Hkl).
           apply get_set_eq.
        -- destruct (proj2 (Hdel k0 H)) as (e0 & He0 & He0').
           exists e0. split; [|exact He0'].
           rewrite <- He0. symmetry. apply get_set_ne. intros ->. contradiction.
    + intros k0 Hk0. rewrite Hother by (intros H; apply Hk0; now right).
      apply get_set_ne. intros ->. apply Hk0. now left.
    + intros p Hp. rewrite Hframe by (intros k' Hk'; apply Hp; now right).
      rewrite Hfs1. apply lookup_delete_ne. intros E. apply (Hp k); [now left|].
      now symmetry.
Qed.

End DeleteEach.



Lemma save_markups_result env log0 nodes w0 st w1 :
  Mac.save_markups env log0 nodes w0 = (Ok st, w1) ->
  st = fold_left (step env) nodes (init_state log0).
Proof.
  intros H. destruct (save_markups_fold env log0 nodes w0) as [w' H'].
  rewrite H in H'. now injection H'.
Qed.





(** ** Numbers and names of the saved files *)

Lemma all_chars_app P s t : all_chars P (s +:+ t) = all_chars P s && all_chars P t.
Proof.
  induction s as [|c s IH]; [reflexivity|].
  rewrite app_cons. cbn [all_chars]. rewrite IH. apply andb_assoc.
Qed.

Lemma all_chars_not_in P s c :
  all_chars P s = true -> P c = false -> Py.char_in c s = false.
Proof.
  intros Hs Hc. induction s as [|x s IH]; [reflexivity|].
  cbn [all_chars Py.char_in] in *. apply andb_true_iff in Hs as [Hx Hs].
  rewrite (IH Hs), orb_false_r. apply Ascii.eqb_neq. intros ->. congruence.
Qed.

Lemma string_of_uint_digits d : all_chars is_digit (NilEmpty.string_of_uint d) = true.
Proof. induction d; cbn [NilEmpty.string_of_uint all_chars]; auto. Qed.

Lemma str_digits n : (0 <= n)%Z -> all_chars is_digit (Py.str n) = true.
Proof.
  intros Hn. unfold Py.str. destruct n as [|p|p]; [reflexivity| |lia].
  cbn [Z.to_int NilZero.string_of_int]. unfold NilZero.string_of_uint.
  destruct (Pos.to_uint p); try apply string_of_uint_digits. reflexivity.
Qed.

Lemma str_nonempty n : Py.str n <> "".
Proof.
  unfold Py.str. destruct n as [|p|p]; cbn; try discriminate.
  unfold NilZero.string_of_uint. destruct (Pos.to_uint p); discriminate.
Qed.

Lemma digits_str n : (0 <= n)%Z -> Py.digits (Py.str n) = Some n.
Proof.
  intros Hn. unfold Py.digits.
  pose proof (str_nonempty n) as Hne.
  destruct (Py.str n) as [|c t] eqn:E; [congruence|]. rewrite <- E. clear E Hne c t.
  unfold Py.str. destruct n as [|p|p]; [reflexivity| |lia].
  cbn [Z.to_int NilZero.string_of_int].
  assert (Hp : Pos.to_uint p <> Decimal.Nil).
  { intros E. pose proof (DecimalPos.Unsigned.of_to p) as H. rewrite E in H.
    discriminate H. }
  unfold NilZero.string_of_uint.
  destruct (Pos.to_uint p) eqn:E; try congruence; rewrite <- E;
    rewrite NilEmpty.usu; cbn [fmap option_fmap option_map];
    unfold Z.of_uint; rewrite DecimalPos.Unsigned.of_to; reflexivity.
Qed.

Lemma digit_props c :
  is_digit c = true ->
  Py.isspace c = false /\ c <> "-"%char /\ c <> "+"%char /\
  c <> "_"%char /\ c <> "."%char.
Proof.
  each_ascii c; cbn; intros H; try discriminate H;
    repeat split; discriminate.
Qed.

Lemma lstrip_id c s : Py.isspace c = false -> Py.lstrip (String c s) = String c s.
Proof. intros H. cbn [Py.lstrip]. now rewrite H. Qed.

Lemma rstrip_id s :
  all_chars (fun c => negb (Py.isspace c)) s = true -> Py.rstrip s = s.
Proof.
  induction s as [|c s IH]; [reflexivity|]. cbn [all_chars Py.rstrip].
  intros H. apply andb_true_iff in H as [Hc Hs]. rewrite (IH Hs).
  apply negb_true_iff in Hc. rewrite Hc. destruct s; reflexivity.
Qed.

Lemma all_chars_impl (P Q : ascii -> bool) s :
  (forall c, P c = true -> Q c = true) ->
  all_chars P s = true -> all_chars Q s = true.
Proof.
  intros HPQ. induction s as [|c s IH]; [trivial|]. cbn [all_chars].
  intros H. apply andb_true_iff in H as [Hc Hs].
  now rewrite (HPQ c Hc), (IH Hs).
Qed.

Lemma strip_digits s : all_chars is_digit s = true -> Py.strip s = s.
Proof.
  intros H. unfold Py.strip.
  assert (Hs : all_chars (fun c => negb (Py.isspace c)) s = true).
  { revert H. apply all_chars_impl. intros c Hc.
    destruct (digit_props c Hc) as [-> _]. reflexivity. }
  destruct s as [|c s]; [reflexivity|].
  cbn [all_chars] in H. apply andb_true_iff in H as [Hc _].
  destruct (digit_props c Hc) as [Hsp _].
  rewrite (lstrip_id _ _ Hsp). now apply rstrip_id.
Qed.

Lemma int_digits s :
  all_chars is_digit s = true -> Py.int s = Py.digits s.
Proof.
  intros H. unfold Py.int. rewrite (strip_digits s H).
  destruct s as [|c s]; [reflexivity|].
  cbn [all_chars] in H. apply andb_true_iff in H as [Hc _].
  revert Hc. each_ascii c; cbn [is_digit]; intros Hc; try discriminate Hc; reflexivity.
Qed.

Lemma int_str n : (0 <= n)%Z -> Py.int (Py.str n) = Some n.
Proof.
  intros Hn. rewrite int_digits by now apply str_digits. now apply digits_str.
Qed.

(** [replace] does not reach across a character that [old] does not have. *)
Lemma prefix_length p s : String.prefix p s = true -> (String.length p <= String.length s)%nat.
Proof.
  intros H. apply prefix_split in H as [r ->]. rewrite app_length. lia.
Qed.

Lemma prefix_barrier old s1 c s2 :
  Py.char_in c old = false ->
  String.prefix old (s1 +:+ String c s2) = String.prefix old s1.
Proof.
  revert s1. induction old as [|x old IH]; intros s1 H.
  - now rewrite !prefix_nil.
  - cbn [Py.char_in] in H. apply orb_false_iff in H as [Hx Hold].
    destruct s1 as [|y s1].
    + rewrite app_nil_l, prefix_cons, Hx. reflexivity.
    + rewrite app_cons, !prefix_cons, (IH _ Hold). reflexivity.
Qed.

Lemma replace_from_barrier old new c s2 :
  Py.char_in c old = false ->
  forall s1 k, (k <= String.length s1)%nat ->
    Py.replace_from old new (s1 +:+ String c s2) k =
    Py.replace_from old new s1 k +:+ Py.replace_from old new (String c s2) 0.
Proof.
  intros Hc. induction s1 as [|x s1 IH]; intros k Hk.
  - cbn [String.length] in Hk. assert (k = 0)%nat as -> by lia. reflexivity.
  - rewrite app_cons. cbn [Py.replace_from]. destruct k as [|k].
    + rewrite <- app_cons, (prefix_barrier _ _ _ _ Hc).
      destruct (String.prefix old (String x s1)) eqn:E.
      * apply prefix_length in E. cbn [String.length] in E.
        rewrite IH by lia. now rewrite app_assoc.
      * rewrite IH by (cbn; lia). reflexivity.
    + cbn [String.length] in Hk. apply IH. lia.
Qed.

Lemma replace_barrier s1 c s2 old new :
  old <> "" -> Py.char_in c old = false ->
  Py.replace (s1 +:+ String c s2) old new =
  Py.replace s1 old new +:+ Py.replace (String c s2) old new.
Proof.
  intros Hne Hc. unfold Py.replace. destruct old as [|x old]; [congruence|].
  apply replace_from_barrier; [exact Hc|lia].
Qed.

Lemma replace_from_json_suffix s :
  Py.char_in "." s = false ->
  Py.replace_from ".json" "" (s +:+ ".json") 0 = s.
Proof.
  induction s as [|c s IH]; [reflexivity|]. cbn [Py.char_in].
  intros H. apply orb_false_iff in H as [Hc Hs].
  rewrite app_cons, replace_from_miss.
  - now rewrite (IH Hs).
  - rewrite prefix_cons, Ascii.eqb_sym, Hc. reflexivity.
Qed.

Lemma split_app_last s sep d :
  Py.char_in sep d = false ->
  exists p pre, Py.split (s +:+ String sep d) sep = (p :: pre ++ [d])%list.
Proof.
  intros Hd. induction s as [|x s (p & pre & IH)].
  - exists "", []. rewrite app_nil_l, split_cons_cases, Ascii.eqb_refl.
    now rewrite (split_no_sep _ _ Hd).
  - rewrite app_cons, split_cons_cases, IH.
    destruct (Ascii.eqb x sep).
    + exists "", (p :: pre). reflexivity.
    + exists (String x p), pre. reflexivity.
Qed.

Lemma split_last_piece s sep d :
  Py.char_in sep d = false ->
  List.last (Py.split (s +:+ String sep d) sep) "" = d.
Proof.
  intros Hd. destruct (split_app_last s sep d Hd) as (p & pre & ->).
  change (p :: pre ++ [d])%list with ((p :: pre) ++ [d])%list.
  apply last_last.
Qed.

(** The number that [last_number] reads off a generated file name. *)
Lemma number_part_generated base n :
  (0 <= n)%Z ->
  Mac.number_part (base +:+ "_" +:+ Py.str n +:+ ".json") = Some n.
Proof.
  intros Hn. unfold Mac.number_part.
  pose proof (str_digits n Hn) as Hd.
  assert (Hdot : Py.char_in "." (Py.str n) = false).
  { apply (all_chars_not_in _ _ _ Hd). reflexivity. }
  assert (Hus : Py.char_in "_" (Py.str n) = false).
  { apply (all_chars_not_in _ _ _ Hd). reflexivity. }
  change ("_" +:+ Py.str n +:+ ".json") with (String "_" (Py.str n +:+ ".json")).
  rewrite replace_barrier by (discriminate || reflexivity).
  assert (Htail : Py.replace (String "_" (Py.str n +:+ ".json")) ".json" "" =
                  String "_" (Py.str n)).
  { unfold Py.replace. rewrite <- app_cons. apply replace_from_json_suffix.
    cbn [Py.char_in]. rewrite Hdot. reflexivity. }
  rewrite Htail, (split_last_piece _ _ _ Hus). now apply int_str.
Qed.

Example number_part_example : Mac.number_part "a_U_b_12.json" = Some 12%Z.
Proof. reflexivity. Qed.

Lemma bump_ge m k : (m <= Mac.bump m k)%Z.
Proof.
  unfold Mac.bump. destruct (Mac.number_part k) as [n|]; [|lia].
  destruct (Z.gtb_spec n m); lia.
Qed.

Lemma bump_number m k n : Mac.number_part k = Some n -> (n <= Mac.bump m k)%Z.
Proof.
  unfold Mac.bump. intros ->. destruct (Z.gtb_spec n m); lia.
Qed.

Lemma fold_bump l :
  forall m,
    (m <= fold_left Mac.bump l m)%Z /\
    forall k n, In k l -> Mac.number_part k = Some n ->
                (n <= fold_left Mac.bump l m)%Z.
Proof.
  induction l as [|x l IH]; intros m; cbn [fold_left].
  - split; [lia|]. intros k n [].
  - destruct (IH (Mac.bump m x)) as [H1 H2]. pose proof (bump_ge m x).
    split; [lia|]. intros k n [->|Hk] Hn.
    + pose proof (bump_number m k n Hn). lia.
    + exact (H2 k n Hk Hn).
Qed.

Lemma last_number_bounded log :
  (0 <= Mac.last_number log)%Z /\ bounded log (Mac.last_number log).
Proof.
  unfold Mac.last_number, bounded. destruct log as [|kv log].
  - split; [lia|]. intros k n [].
  - destruct (fold_bump (Py.keys (kv :: log)) 0) as [H1 H2]. split; [exact H1|].
    exact H2.
Qed.

Lemma find_existing_Some log encoded f :
  Mac.find_existing log encoded = Some f ->
  f = encoded +:+ ".json" /\ In f (Py.keys log).
Proof.
  unfold Mac.find_existing. intros H. apply find_some in H as [Hin Heq].
  apply String.eqb_eq in Heq. split; [exact Heq|exact Hin].
Qed.

Lemma find_existing_None log encoded :
  Mac.find_existing log encoded = None ->
  ~ In (encoded +:+ ".json") (Py.keys log).
Proof.
  unfold Mac.find_existing. intros H Hin.
  apply (find_none _ _ H) in Hin. rewrite String.eqb_refl in Hin. discriminate.
Qed.

Lemma json_name_nonempty s : s +:+ ".json" <> "".
Proof. destruct s; discriminate. Qed.

(** The two ways a node gets its file name. *)
Lemma assign_name_cases log m node :
  (exists f,
     Mac.find_existing log (encode_filename (GetName node)) = Some f /\
     Py.truthy (Mac.find_existing log (encode_filename (GetName node))) = true /\
     f = encode_filename (GetName node) +:+ ".json" /\
     In f (Py.keys log) /\
     Mac.assign_name log m node = (f, m)) \/
  (Mac.find_existing log (encode_filename (GetName node)) = None /\
   Py.truthy (Mac.find_existing log (encode_filename (GetName node))) = false /\
   Mac.assign_name log m node =
   (encode_filename (GetName node) +:+ "_" +:+ Py.str (m + 1) +:+ ".json",
    (m + 1)%Z)).
Proof.
  unfold Mac.assign_name.
  destruct (Mac.find_existing log (encode_filename (GetName node))) as [f|] eqn:E.
  - left. exists f. destruct (find_existing_Some _ _ _ E) as [Hf Hin].
    assert (Ht : Py.truthy (Some f) = true).
    { cbn [Py.truthy]. apply negb_true_iff, String.eqb_neq. rewrite Hf.
      apply json_name_nonempty. }
    rewrite Ht. repeat split; auto.
  - right. repeat split.
Qed.

Lemma fresh_name {V} (log : Py.dict V) m base :
  (0 <= m)%Z -> bounded log m ->
  ~ In (base +:+ "_" +:+ Py.str (m + 1) +:+ ".json") (Py.keys log).
Proof.
  intros Hm Hb Hin.
  pose proof (Hb _ _ Hin (number_part_generated base (m + 1) ltac:(lia))). lia.
Qed.

Lemma step_max env st node :
  (Mac.max_number st <= Mac.max_number (step env st node))%Z.
Proof.
  unfold step. cbn [Mac.max_number].
  destruct (assign_name_cases (Mac.markup_log st) (Mac.max_number st) node)
    as [(f & _ & _ & _ & _ & ->)|(_ & _ & ->)]; cbn [snd]; lia.
Qed.

Lemma step_bounded env st node :
  (0 <= Mac.max_number st)%Z ->
  bounded (Mac.markup_log st) (Mac.max_number st) ->
  bounded (Mac.markup_log (step env st node)) (Mac.max_number (step env st node)).
Proof.
  intros H0 Hb k n Hk Hn. pose proof (step_max env st node) as Hmax.
  destruct (step_log env st node) as [E|[content E]]; rewrite E in Hk.
  - pose proof (Hb k n Hk Hn). lia.
  - destruct (record_saved_set (now_str env) (Mac.markup_log st)
                (fst (Mac.assign_name (Mac.markup_log st) (Mac.max_number st) node))
                content) as (e & Hset & _).
    rewrite Hset in Hk. apply in_keys_set in Hk as [->|Hk].
    2:{ pose proof (Hb k n Hk Hn). lia. }
    unfold step. cbn [Mac.max_number].
    destruct (assign_name_cases (Mac.markup_log st) (Mac.max_number st) node)
      as [(f & _ & _ & _ & Hin & Ha)|(_ & _ & Ha)]; rewrite Ha in *; cbn [fst snd] in *.
    + exact (Hb f n Hin Hn).
    + rewrite number_part_generated in Hn by lia. injection Hn as <-. lia.
Qed.

Lemma fold_bounded env nodes :
  forall st,
    (0 <= Mac.max_number st)%Z ->
    bounded (Mac.markup_log st) (Mac.max_number st) ->
    (0 <= Mac.max_number (fold_left (step env) nodes st))%Z /\
    bounded (Mac.markup_log (fold_left (step env) nodes st))
            (Mac.max_number (fold_left (step env) nodes st)).
Proof.
  induction nodes as [|node nodes IH]; intros st H0 Hb; cbn [fold_left]; [auto|].
  apply IH; [pose proof (step_max env st node); lia|now apply step_bounded].
Qed.

Lemma generated_weaken lo lo' log log' x :
  (lo <= lo')%Z ->
  (forall k, In k (Py.keys log) -> In k (Py.keys log')) ->
  generated lo' log' x -> generated lo log x.
Proof.
  intros Hlo Hkeys (H1 & H2 & H3). repeat split; [exact H1|lia|].
  intros H. apply H3. now apply Hkeys.
Qed.

Lemma new_names_generated env nodes :
  forall st w,
    (0 <= Mac.max_number st)%Z ->
    bounded (Mac.markup_log st) (Mac.max_number st) ->
    Forall (generated (Mac.max_number st) (Mac.markup_log st))
           (new_names env st nodes w) /\
    StronglySorted Z.lt (map snd (new_names env st nodes w)).
Proof.
  induction nodes as [|node nodes IH]; intros st w H0 Hb.
  - split; constructor.
  - cbn [new_names].
    destruct (save_markup_step env st node w) as [w' ->].
    pose proof (step_max env st node) as Hmax.
    destruct (IH (step env st node) w') as [Hgen Hsort];
      [lia|now apply step_bounded|].
    assert (Hgen' : Forall (generated (Mac.max_number st) (Mac.markup_log st))
                           (new_names env (step env st node) nodes w')).
    { eapply Forall_impl; [exact Hgen|]. intros x.
      apply generated_weaken; [exact Hmax|]. intros k. apply step_keys_grow. }
    destruct (assign_name_cases (Mac.markup_log st) (Mac.max_number st) node)
      as [(f & _ & -> & _)|(_ & -> & Ha)].
    + split; assumption.
    + cbn [app map]. split.
      * constructor; [|exact Hgen'].
        rewrite Ha. repeat split; cbn [fst snd]; [lia|].
        now apply fresh_name.
      * constructor; [exact Hsort|].
        apply Forall_map. eapply Forall_impl; [exact Hgen|].
        intros x (_ & Hx & _). revert Hx. unfold step. cbn [Mac.max_number].
        rewrite Ha. cbn [snd]. trivial.
Qed.

Lemma generated_NoDup lo log names :
  (0 <= lo)%Z ->
  Forall (generated lo log) names ->
  StronglySorted Z.lt (map snd names) ->
  NoDup (map (fun x => snd (fst x)) names).
Proof.
  intros Hlo Hgen. induction Hgen as [|x names Hx Hgen IH]; intros Hsort.
  - constructor.
  - cbn [map] in *. apply StronglySorted_inv in Hsort as [Hsort Hlt].
    apply NoDup_cons. split; [|now apply IH].
    intros Hin. apply list_elem_of_In, in_map_iff in Hin as (y & Hy & Hyin).
    rewrite Forall_forall in Hgen. pose proof (Hgen y) as Hgy.
    apply list_elem_of_In in Hyin. specialize (Hgy Hyin).
    destruct Hx as (Ex & Lx & _), Hgy as (Ey & Ly & _).
    pose proof (number_part_generated (fst (fst x)) (snd x) ltac:(lia)) as Nx.
    pose proof (number_part_generated (fst (fst y)) (snd y) ltac:(lia)) as Ny.
    rewrite <- Ex in Nx. rewrite <- Ey, Hy, Nx in Ny. injection Ny as Exy.
    rewrite Forall_forall in Hlt.
    assert (Hlt' : (snd x < snd y)%Z).
    { apply Hlt. apply list_elem_of_In, in_map. now apply list_elem_of_In. }
    lia.
Qed.

(** The names that the loop generates for the nodes that match no file name
    of the running log have the form [<base>_<n>.json] with [n] above every
    number of the loaded log, the numbers increase strictly, and none of the
    names is a file name of the loaded log or equal to another generated one.
    A node that matches an entry made earlier in the same exit is not among
    them. *)
Lemma generated_names_are_fresh env log0 nodes w :
  Forall (fun x =>
            snd (fst x) = fst (fst x) +:+ "_" +:+ Py.str (snd x) +:+ ".json" /\
            (forall k m, In k (Py.keys log0) -> Mac.number_part k = Some m ->
                         (m < snd x)%Z) /\
            ~ In (snd (fst x)) (Py.keys log0))
         (new_names env (init_state log0) nodes w) /\
  StronglySorted Z.lt (map snd (new_names env (init_state log0) nodes w)) /\
  NoDup (map (fun x => snd (fst x)) (new_names env (init_state log0) nodes w)).
Proof.
  destruct (last_number_bounded log0) as [H0 Hb].
  destruct (new_names_generated env nodes (init_state log0) w H0 Hb) as [Hgen Hsort].
  cbn [init_state Mac.max_number Mac.markup_log] in Hgen.
  split; [|split; [exact Hsort|]].
  - eapply Forall_impl; [exact Hgen|]. intros x (H1 & H2 & H3).
    split; [exact H1|]. split; [|exact H3].
    intros k m Hk Hm. pose proof (Hb k m Hk Hm). lia.
  - eapply generated_NoDup; eauto.
Qed.

Lemma save_markups_bounded env log0 nodes w0 st w :
  Mac.save_markups env log0 nodes w0 = (Ok st, w) ->
  (0 <= Mac.max_number st)%Z /\ bounded (Mac.markup_log st) (Mac.max_number st).
Proof.
  intros H. apply save_markups_result in H. subst st.
  destruct (last_number_bounded log0). now apply fold_bounded.
Qed.

(** The CSV script. Take a node of the scene, in the loop state reached
    after the nodes before it, whose save goes through: [saveNode] returns
    [True] and the saved file is read back as JSON. If no file name of the log
    is its encoded name followed by [.json], a new entry is appended under the
    generated name, with [created_at] the exit time, the content read back
    and an empty [deleted_at]. If there is such a file name, its entry is
    reused: [created_at] stays, the content is the one read back, [deleted_at]
    is emptied, and the log has the same file names as before. *)
Lemma csv_saved_node env log0 pre node w0 st w text dumped :
  Mac.save_markups env log0 pre w0 = (Ok st, w) ->
  saveNode env node (markup_path env (assigned_name st node)) = SaveTrue text ->
  fault env (OpOpenRead (markup_path env (assigned_name st node))) = false ->
  json_reload env (Py.universal_newlines text) = Some dumped ->
  exists st' w',
    Mac.save_markup env st node w = (Ok st', w') /\
    match Mac.find_existing (Mac.markup_log st) (encode_filename (GetName node)) with
    | None =>
        assigned_name st node =
          encode_filename (GetName node) +:+ "_" +:+
          Py.str (Mac.max_number st + 1) +:+ ".json" /\
        ~ In (assigned_name st node) (Py.keys (Mac.markup_log st)) /\
        Mac.markup_log st' =
          (Mac.markup_log st ++
           [(assigned_name st node,
             Mac.Entry (now_str env)
               (Py.replace (Py.replace dumped LF "") "," ";") "")])%list
    | Some existing =>
        existing = encode_filename (GetName node) +:+ ".json" /\
        assigned_name st node = existing /\
        exists e,
          Py.get (Mac.markup_log st) existing = Some e /\
          Mac.markup_log st' =
            Py.set (Mac.markup_log st) existing
              (Mac.Entry (Mac.created_at e)
                 (Py.replace (Py.replace dumped LF "") "," ";") "") /\
          Py.keys (Mac.markup_log st') = Py.keys (Mac.markup_log st)
    end.
Proof.
  intros Hpre Hsave Hread Hjson.
  destruct (save_markups_bounded _ _ _ _ _ _ Hpre) as [H0 Hb].
  destruct (save_markup_step env st node w) as [w' Hstep].
  exists (step env st node), w'. split; [exact Hstep|].
  unfold step. cbn [Mac.markup_log]. fold (assigned_name st node).
  fold (markup_path env (assigned_name st node)).
  unfold saved_content. rewrite Hsave, Hread, Hjson.
  unfold assigned_name in *.
  destruct (assign_name_cases (Mac.markup_log st) (Mac.max_number st) node)
    as [(f & Hf & _ & Hfeq & Hin & Ha)|(Hnone & _ & Ha)].
  - rewrite Hf, Ha. cbn [fst]. split; [exact Hfeq|]. split; [reflexivity|].
    destruct (keys_get _ _ Hin) as [e He]. exists e.
    split; [exact He|]. unfold Mac.record_saved. rewrite He.
    split; [reflexivity|]. eapply set_present; eauto.
  - rewrite Hnone, Ha. cbn [fst]. split; [reflexivity|].
    pose proof (fresh_name (Mac.markup_log st) (Mac.max_number st)
                  (encode_filename (GetName node)) H0 Hb) as Hfresh.
    split; [exact Hfresh|].
    apply get_None_keys in Hfresh. unfold Mac.record_saved. rewrite Hfresh.
    now apply set_absent.
Qed.

(** A node whose save does not go through leaves the log as it is. *)
Lemma failed_save_leaves_log env st node w :
  saved_content env node (markup_path env (assigned_name st node)) = None ->
  exists st' w',
    Mac.save_markup env st node w = (Ok st', w') /\
    Mac.markup_log st' = Mac.markup_log st.
Proof.
  intros H. destruct (save_markup_step env st node w) as [w' Hstep].
  exists (step env st node), w'. split; [exact Hstep|].
  unfold step. cbn [Mac.markup_log]. fold (assigned_name st node).
  fold (markup_path env (assigned_name st node)). now rewrite H.
Qed.

(** ** The xlsx script *)

Lemma xlsx_save_markup_step env st node w :
  exists w', Xlsx.save_markup env st node w = (xlsx_step env st node, w').
Proof.
  unfold Xlsx.save_markup, xlsx_step, markup_path.
  destruct (Py.truthy (Xlsx.find_existing (Xlsx.markup_log st) (Py.strip (GetName node)))).
  - unfold try_except_OSError, Xlsx.save_node, bind.
    destruct (saveNode env node _) as [text| |e]; cbn; try (eexists; reflexivity).
    destruct (is_OSError e); eexists; reflexivity.
  - destruct (Xlsx.classify (GetClassName node) (Xlsx.markup_type st));
      [|eexists; reflexivity].
    unfold try_except_OSError, Xlsx.save_node, bind.
    destruct (saveNode env node _) as [text| |e]; cbn; try (eexists; reflexivity).
    destruct (is_OSError e); eexists; reflexivity.
Qed.

Lemma xlsx_last_number_bounded (log0 : Py.dict Xlsx.entry) :
  (0 <= Xlsx.last_number log0)%Z /\ bounded log0 (Xlsx.last_number log0).
Proof.
  unfold Xlsx.last_number, bounded.
  destruct (fold_bump (Py.keys log0) 0) as [H1 H2]. split; [exact H1|exact H2].
Qed.

Lemma xlsx_invariant_init log0 : xlsx_invariant log0 (xlsx_init log0).
Proof.
  destruct (xlsx_last_number_bounded log0) as [H0 Hb].
  unfold xlsx_invariant, xlsx_init. cbn. repeat split; auto; try lia.
  intros k n Hk. apply not_elem_of_empty in Hk. destruct Hk.
Qed.

Lemma xlsx_find_truthy log name :
  Py.truthy (Xlsx.find_existing log name) = true ->
  exists f, Xlsx.find_existing log name = Some f /\ In f (Py.keys log).
Proof.
  destruct (Xlsx.find_existing log name) as [f|] eqn:E; [|discriminate].
  intros _. exists f. split; [reflexivity|].
  unfold Xlsx.find_existing in E. now apply find_some in E as [H _].
Qed.

(** The two ways a step of the xlsx loop goes on. *)
Lemma xlsx_step_cases env st node st' :
  xlsx_step env st node = Ok st' ->
  (exists f,
     Py.truthy (Xlsx.find_existing (Xlsx.markup_log st) (Py.strip (GetName node)))
       = true /\
     Xlsx.find_existing (Xlsx.markup_log st) (Py.strip (GetName node)) = Some f /\
     In f (Py.keys (Xlsx.markup_log st)) /\
     Xlsx.markup_log st' = Xlsx.markup_log st /\
     Xlsx.max_number st' = Xlsx.max_number st /\
     Xlsx.current_filenames st' = {[ f ]} ∪ Xlsx.current_filenames st) \/
  (exists markup_type,
     Py.truthy (Xlsx.find_existing (Xlsx.markup_log st) (Py.strip (GetName node)))
       = false /\
     Xlsx.max_number st' = (Xlsx.max_number st + 1)%Z /\
     Xlsx.current_filenames st' =
       {[ markup_type +:+ "_" +:+ Py.str (Xlsx.max_number st + 1) +:+ ".json" ]}
       ∪ Xlsx.current_filenames st /\
     (Xlsx.markup_log st' = Xlsx.markup_log st \/
      Xlsx.markup_log st' =
      Py.set (Xlsx.markup_log st)
        (markup_type +:+ "_" +:+ Py.str (Xlsx.max_number st + 1) +:+ ".json")
        (Xlsx.Entry (Some (Py.strip (GetName node))) None
                    (Some (now_str env)) None))).
Proof.
  unfold xlsx_step.
  destruct (Py.truthy (Xlsx.find_existing (Xlsx.markup_log st) (Py.strip (GetName node))))
    eqn:Ht.
  - destruct (xlsx_find_truthy _ _ Ht) as (f & Hf & Hin). rewrite Hf. cbn [default].
    intros H. left. exists f. split; [reflexivity|].
    split; [reflexivity|]. split; [exact Hin|].
    destruct (saveNode env node _) as [text| |e];
      [| |destruct (is_OSError e); [|discriminate]];
      injection H as <-; repeat split.
  - destruct (Xlsx.classify (GetClassName node) (Xlsx.markup_type st)) as [mt|];
      [|discriminate].
    intros H. right. exists mt. split; [reflexivity|].
    destruct (saveNode env node _) as [text| |e];
      [| |destruct (is_OSError e); [|discriminate]];
      injection H as <-; cbn; repeat split; auto.
Qed.

Lemma xlsx_step_invariant env log0 st node st' :
  xlsx_step env st node = Ok st' ->
  (0 <= Xlsx.max_number st)%Z ->
  xlsx_invariant log0 st -> xlsx_invariant log0 st'.
Proof.
  intros Hstep H0 (Hlo & Hb & Hcur & Hkeep & Hkeys).
  destruct (xlsx_step_cases env st node st' Hstep)
    as [(f & _ & _ & Hin & Hlog & Hmax & Hc)|(mt & _ & Hmax & Hc & Hlog)].
  - unfold xlsx_invariant. rewrite Hlog, Hmax, Hc. repeat split; auto.
    + intros k n Hk Hn. apply elem_of_union in Hk as [Hk|Hk]; [|eauto].
      apply elem_of_singleton in Hk as ->. eauto.
    + intros k Hk. destruct (Hkeys k Hk) as [H|H]; [now left|right].
      apply elem_of_union_r. exact H.
  - set (safe := mt +:+ "_" +:+ Py.str (Xlsx.max_number st + 1) +:+ ".json") in *.
    assert (Hnum : Mac.number_part safe = Some (Xlsx.max_number st + 1)%Z)
      by (apply number_part_generated; lia).
    assert (Hfresh : ~ In safe (Py.keys (Xlsx.markup_log st)))
      by (apply fresh_name; assumption).
    unfold xlsx_invariant. rewrite Hmax, Hc. split; [lia|].
    split; [|split; [|split]].
    + intros k n Hk Hn. destruct Hlog as [E|E]; rewrite E in Hk.
      * pose proof (Hb k n Hk Hn). lia.
      * apply in_keys_set in Hk as [->|Hk].
        -- rewrite Hnum in Hn. injection Hn as <-. lia.
        -- pose proof (Hb k n Hk Hn). lia.
    + intros k n Hk Hn. apply elem_of_union in Hk as [Hk|Hk].
      * apply elem_of_singleton in Hk as ->. rewrite Hnum in Hn.
        injection Hn as <-. lia.
      * pose proof (Hcur k n Hk Hn). lia.
    + intros k e Hk. destruct Hlog as [E|E]; rewrite E; [now apply Hkeep|].
      rewrite get_set_ne; [now apply Hkeep|].
      intros <-. apply Hfresh. eapply get_Some_keys. eauto.
    + intros k Hk. destruct Hlog as [E|E]; rewrite E in Hk.
      * destruct (Hkeys k Hk) as [H|H]; [now left|right].
        apply elem_of_union_r. exact H.
      * apply in_keys_set in Hk as [->|Hk].
        -- right. apply elem_of_union_l, elem_of_singleton. reflexivity.
        -- destruct (Hkeys k Hk) as [H|H]; [now left|right].
           apply elem_of_union_r. exact H.
Qed.

Lemma xlsx_step_max env st node st' :
  xlsx_step env st node = Ok st' ->
  (Xlsx.max_number st <= Xlsx.max_number st')%Z.
Proof.
  intros Hstep.
  destruct (xlsx_step_cases env st node st' Hstep)
    as [(f & _ & _ & _ & _ & -> & _)|(mt & _ & -> & _)]; lia.
Qed.

Lemma xlsx_save_markups_invariant env log0 nodes w0 st w :
  Xlsx.save_markups env log0 nodes w0 = (Ok st, w) ->
  (0 <= Xlsx.max_number st)%Z /\ xlsx_invariant log0 st.
Proof.
  unfold Xlsx.save_markups. intros Hrun.
  apply (for_each_invariant
           (fun st => (0 <= Xlsx.max_number st)%Z /\ xlsx_invariant log0 st)
           (Xlsx.save_markup env) nodes) in Hrun; [exact Hrun| |].
  - intros st0 x w1 st1 w2 Hbody [H0 HI].
    destruct (xlsx_save_markup_step env st0 x w1) as [w3 Hs].
    rewrite Hs in Hbody. injection Hbody as Hstep _.
    split; [pose proof (xlsx_step_max _ _ _ _ Hstep); lia|].
    eapply xlsx_step_invariant; eauto.
  - split; [apply xlsx_last_number_bounded|apply xlsx_invariant_init].
Qed.

Lemma xlsx_delete_markup_ok env log k w e :
  (forall p, fault env (OpRemove p) = false) ->
  Py.get log k = Some e ->
  exists w',
    Xlsx.delete_markup env log k w =
    (Ok (Py.set log k (xlsx_mark_deleted (now_str env) e)), w') /\
    fs w' = delete (markup_path env k) (fs w).
Proof.
  intros Hnf He. unfold Xlsx.delete_markup, try_except, xlsx_mark_deleted.
  fold (markup_path env k).
  unfold bind at 1, path_exists. unfold bind at 1.
  pose proof (set_same log k e He) as Hset.
  destruct (bool_decide_reflect (is_Some (fs w !! markup_path env k))) as [[text Ht]|Hn].
  - unfold bind at 1, remove. unfold bind at 1, io. rewrite Hnf.
    cbn [ret]. rewrite Ht. cbn [print]. rewrite He.
    destruct (Xlsx.falsy (Xlsx.deleted_at e)).
    + eexists; split; reflexivity.
    + rewrite Hset. eexists; split; reflexivity.
  - cbn [ret]. rewrite He.
    assert (Hdel : fs w = delete (markup_path env k) (fs w)).
    { symmetry. apply delete_id.
      destruct (fs w !! markup_path env k) eqn:E; [|reflexivity].
      exfalso. apply Hn. eauto. }
    destruct (Xlsx.falsy (Xlsx.deleted_at e)).
    + eexists; split; [reflexivity|exact Hdel].
    + rewrite Hset. eexists; split; [reflexivity|exact Hdel].
Qed.

Lemma xlsx_delete_markup_cases env log k w :
  exists log' w',
    Xlsx.delete_markup env log k w = (Ok log', w') /\
    (log' = log \/
     exists e, Py.get log k = Some e /\
       log' = Py.set log k
                (Xlsx.Entry (Xlsx.report_content e) (Xlsx.original_filename e)
                            (Xlsx.created_at e) (Some (now_str env)))).
Proof.
  unfold Xlsx.delete_markup, try_except.
  unfold bind at 1, path_exists. unfold bind at 1.
  destruct (bool_decide _).
  - unfold bind at 1, remove. unfold bind at 1, io.
    destruct (fault env _); [eexists _, _; split; [reflexivity|now left]|].
    cbn [ret]. destruct (fs w !! _); [|eexists _, _; split; [reflexivity|now left]].
    cbn [print]. destruct (Py.get log k) as [e|] eqn:E.
    + destruct (Xlsx.falsy (Xlsx.deleted_at e));
        eexists _, _; (split; [reflexivity|]); [right; eauto|now left].
    + eexists _, _; split; [reflexivity|now left].
  - cbn [ret]. destruct (Py.get log k) as [e|] eqn:E.
    + destruct (Xlsx.falsy (Xlsx.deleted_at e));
        eexists _, _; (split; [reflexivity|]); [right; eauto|now left].
    + eexists _, _; split; [reflexivity|now left].
Qed.

Lemma xlsx_delete_each_created env l :
  forall log w, exists log' w',
    for_each l (Xlsx.delete_markup env) log w = (Ok log', w') /\
    forall k e, Py.get log k = Some e ->
      exists e', Py.get log' k = Some e' /\ Xlsx.created_at e' = Xlsx.created_at e.
Proof.
  induction l as [|k l IH]; intros log w.
  - eexists _, _; split; [reflexivity|eauto].
  - cbn [for_each]. unfold bind.
    destruct (xlsx_delete_markup_cases env log k w) as (l1 & w1 & Hrun & Hcase).
    rewrite Hrun. destruct (IH l1 w1) as (log' & w' & Hrest & Hkeep).
    exists log', w'. split; [exact Hrest|].
    intros k0 e H.
    assert (H1 : exists e1, Py.get l1 k0 = Some e1 /\
                            Xlsx.created_at e1 = Xlsx.created_at e).
    { destruct Hcase as [->|(e0 & He0 & ->)]; [eauto|].
      destruct (string_dec k k0) as [<-|Hne].
      - rewrite get_set_eq. rewrite H in He0. injection He0 as <-. eauto.
      - rewrite get_set_ne by exact Hne. eauto. }
    destruct H1 as (e1 & H1 & <-). apply (Hkeep _ _ H1).
Qed.

(** The xlsx script: when its reconciliation ends without an
    exception, every loaded entry is still in the log with the [created_at]
    it was loaded with. *)
Lemma xlsx_created_at_is_kept env log0 nodes w logF w' :
  Xlsx.reconcile env log0 nodes w = (Ok logF, w') ->
  forall k e, Py.get log0 k = Some e ->
    exists e', Py.get logF k = Some e' /\ Xlsx.created_at e' = Xlsx.created_at e.
Proof.
  unfold Xlsx.reconcile. unfold bind at 1.
  destruct (Xlsx.save_markups env log0 nodes w) as [[st|ex] w1] eqn:Hsave;
    [|discriminate].
  intros Hdel k e He.
  destruct (xlsx_save_markups_invariant _ _ _ _ _ _ Hsave)
    as (_ & _ & _ & _ & Hkeep & _).
  unfold Xlsx.detect_deleted in Hdel.
  destruct (xlsx_delete_each_created env
              (elements (Xlsx.deleted_files (Xlsx.markup_log st)
                                            (Xlsx.current_filenames st)))
              (Xlsx.markup_log st) w1) as (log' & w2 & Hrun & Hc).
  rewrite Hrun in Hdel. injection Hdel as <- _.
  apply (Hc k e). now apply Hkeep.
Qed.

(** The xlsx script: the same statement as for the CSV script, with an
    empty [deleted_at] being an empty cell or an empty string. *)
Lemma xlsx_deleted_markups_are_the_difference env log0 nodes w0 st w1 :
  (forall p, fault env (OpRemove p) = false) ->
  Xlsx.save_markups env log0 nodes w0 = (Ok st, w1) ->
  Xlsx.deleted_files (Xlsx.markup_log st) (Xlsx.current_filenames st) =
    list_to_set (Py.keys log0) ∖ Xlsx.current_filenames st /\
  exists log' w2,
    Xlsx.detect_deleted env st w1 = (Ok log', w2) /\
    Py.keys log' = Py.keys (Xlsx.markup_log st) /\
    (forall k, k ∈ (list_to_set (Py.keys log0) ∖ Xlsx.current_filenames st
                    : gset string) ->
       fs w2 !! markup_path env k = None /\
       exists e, Py.get (Xlsx.markup_log st) k = Some e /\
                 Py.get log' k = Some (xlsx_mark_deleted (now_str env) e)) /\
    (forall k, k ∉ (list_to_set (Py.keys log0) ∖ Xlsx.current_filenames st
                    : gset string) ->
       Py.get log' k = Py.get (Xlsx.markup_log st) k) /\
    (forall p,
       (forall k, k ∈ (list_to_set (Py.keys log0) ∖ Xlsx.current_filenames st
                       : gset string) -> p <> markup_path env k) ->
       fs w2 !! p = fs w1 !! p).
Proof.
  intros Hnf Hsave.
  destruct (xlsx_save_markups_invariant _ _ _ _ _ _ Hsave)
    as (_ & _ & _ & _ & Hkeep & Hkeys).
  assert (Hdel : Xlsx.deleted_files (Xlsx.markup_log st) (Xlsx.current_filenames st) =
                 list_to_set (Py.keys log0) ∖ Xlsx.current_filenames st).
  { unfold Xlsx.deleted_files. apply set_eq. intros x.
    rewrite !elem_of_difference, !elem_of_list_to_set, !list_elem_of_In.
    split; intros [Hx Hc]; (split; [|exact Hc]).
    - destruct (Hkeys x Hx) as [H|H]; [exact H|contradiction].
    - destruct (keys_get _ _ Hx) as [e He]. eapply get_Some_keys.
      apply (Hkeep _ _ He). }
  split; [exact Hdel|].
  unfold Xlsx.detect_deleted. rewrite Hdel.
  set (deleted := (list_to_set (Py.keys log0) ∖ Xlsx.current_filenames st : gset string)).
  assert (Hel : forall k, In k (elements deleted) <-> k ∈ deleted).
  { intros k. rewrite <- list_elem_of_In. apply elem_of_elements. }
  destruct (delete_each (Xlsx.delete_markup env) (xlsx_mark_deleted (now_str env))
              (markup_path env)
              (fun log k w e => xlsx_delete_markup_ok env log k w e Hnf)
              (elements deleted) (NoDup_elements deleted)
              (Xlsx.markup_log st) w1) as (log' & w2 & Hrun & Hk & Hd & Ho & Hf).
  { intros k Hk. apply Hel in Hk. subst deleted. rewrite <- Hdel in Hk.
    unfold Xlsx.deleted_files in Hk.
    apply elem_of_difference in Hk as [Hk _].
    apply elem_of_list_to_set in Hk. now apply list_elem_of_In. }
  exists log', w2. split; [exact Hrun|]. split; [exact Hk|].
  split; [|split].
  - intros k Hin. apply Hd. now apply Hel.
  - intros k Hin. apply Ho. intros H. apply Hin. now apply Hel.
  - intros p Hp. apply Hf. intros k Hin. apply Hp. now apply Hel.
Qed.

(** The xlsx script: a node that matches no file name of the log gets
    the name [<type>_<n>.json] with [n] one above the counter, which is at
    least the largest number of the loaded log; no file name of the log and
    no name given earlier in the exit is equal to it. *)
Lemma xlsx_generated_name_is_fresh env log0 pre node w0 st w st' w' :
  Xlsx.save_markups env log0 pre w0 = (Ok st, w) ->
  Xlsx.save_markup env st node w = (Ok st', w') ->
  Py.truthy (Xlsx.find_existing (Xlsx.markup_log st) (Py.strip (GetName node)))
    = false ->
  exists markup_type,
    Xlsx.current_filenames st' =
      {[ xlsx_new_name markup_type st ]} ∪ Xlsx.current_filenames st /\
    (Xlsx.last_number log0 <= Xlsx.max_number st)%Z /\
    Xlsx.max_number st' = (Xlsx.max_number st + 1)%Z /\
    ~ In (xlsx_new_name markup_type st) (Py.keys log0) /\
    ~ In (xlsx_new_name markup_type st) (Py.keys (Xlsx.markup_log st)) /\
    xlsx_new_name markup_type st ∉ Xlsx.current_filenames st.
Proof.
  intros Hpre Hrun Hnew.
  destruct (xlsx_save_markups_invariant _ _ _ _ _ _ Hpre)
    as (H0 & Hlo & Hb & Hcur & Hkeep & Hkeys).
  destruct (xlsx_save_markup_step env st node w) as [w1 Hs].
  rewrite Hs in Hrun. injection Hrun as Hstep _.
  destruct (xlsx_step_cases env st node st' Hstep)
    as [(f & Ht & _)|(mt & _ & Hmax & Hc & _)]; [congruence|].
  exists mt. fold (xlsx_new_name mt st) in Hc.
  assert (Hnum : Mac.number_part (xlsx_new_name mt st) =
                 Some (Xlsx.max_number st + 1)%Z)
    by (apply number_part_generated; lia).
  assert (Hfresh : ~ In (xlsx_new_name mt st) (Py.keys (Xlsx.markup_log st)))
    by (apply fresh_name; assumption).
  split; [exact Hc|]. split; [exact Hlo|]. split; [exact Hmax|].
  split; [|split; [exact Hfresh|]].
  - intros Hin. apply Hfresh. destruct (keys_get _ _ Hin) as [e He].
    eapply get_Some_keys. apply (Hkeep _ _ He).
  - intros Hin. pose proof (Hcur _ _ Hin Hnum). lia.
Qed.

(** The xlsx script: when the save raises nothing, the node that matches
    no file name of the log gets a new entry at the end of the log, with
    [created_at] the exit time and [deleted_at] empty. *)
Lemma xlsx_new_entry env log0 pre node w0 st w st' w' :
  Xlsx.save_markups env log0 pre w0 = (Ok st, w) ->
  Xlsx.save_markup env st node w = (Ok st', w') ->
  Py.truthy (Xlsx.find_existing (Xlsx.markup_log st) (Py.strip (GetName node)))
    = false ->
  (forall path e, saveNode env node path <> SaveRaises e) ->
  exists markup_type,
    Xlsx.markup_log st' =
    (Xlsx.markup_log st ++
     [(xlsx_new_name markup_type st,
       Xlsx.Entry (Some (Py.strip (GetName node))) None
                  (Some (now_str env)) None)])%list.
Proof.
  intros Hpre Hrun Hnew Hsave.
  destruct (xlsx_save_markups_invariant _ _ _ _ _ _ Hpre) as (H0 & _ & Hb & _).
  destruct (xlsx_save_markup_step env st node w) as [w1 Hs].
  rewrite Hs in Hrun. injection Hrun as Hstep _.
  unfold xlsx_step in Hstep. rewrite Hnew in Hstep.
  destruct (Xlsx.classify (GetClassName node) (Xlsx.markup_type st)) as [mt|];
    [|discriminate].
  exists mt. fold (xlsx_new_name mt st) in Hstep.
  assert (Hfresh : Py.get (Xlsx.markup_log st) (xlsx_new_name mt st) = None).
  { apply get_None_keys. apply fresh_name; assumption. }
  destruct (saveNode env node (markup_path env (xlsx_new_name mt st)))
    as [text| |e] eqn:E; [| |destruct (Hsave _ _ E)];
    injection Hstep as <-; cbn [Xlsx.markup_log]; now apply set_absent.
Qed.

(** The xlsx script: the entry of a node that matches a file
    name of the log is not touched; neither its content nor its [deleted_at]
    changes. *)
Lemma xlsx_matched_entry_untouched env st node w st' w' :
  Xlsx.save_markup env st node w = (Ok st', w') ->
  Py.truthy (Xlsx.find_existing (Xlsx.markup_log st) (Py.strip (GetName node)))
    = true ->
  Xlsx.markup_log st' = Xlsx.markup_log st.
Proof.
  intros Hrun Hold.
  destruct (xlsx_save_markup_step env st node w) as [w1 Hs].
  rewrite Hs in Hrun. injection Hrun as Hstep _.
  destruct (xlsx_step_cases env st node st' Hstep)
    as [(f & _ & _ & _ & Hlog & _)|(mt & Ht & _)]; [exact Hlog|congruence].
Qed.

(** ** New and matched nodes in both scripts *)

(** The xlsx script: a node that matches no file name of the log as it
    stands, for which [markup_type] is bound and whose save raises nothing,
    gets a new entry at the end of the log under a name that was not in it. *)
Lemma xlsx_unmatched_node env log0 pre node w0 st w markup_type :
  Xlsx.save_markups env log0 pre w0 = (Ok st, w) ->
  Py.truthy (Xlsx.find_existing (Xlsx.markup_log st) (Py.strip (GetName node)))
    = false ->
  Xlsx.classify (GetClassName node) (Xlsx.markup_type st) = Some markup_type ->
  (forall e, saveNode env node (markup_path env (xlsx_new_name markup_type st))
             <> SaveRaises e) ->
  exists st' w',
    Xlsx.save_markup env st node w = (Ok st', w') /\
    ~ In (xlsx_new_name markup_type st) (Py.keys (Xlsx.markup_log st)) /\
    Xlsx.markup_log st' =
    (Xlsx.markup_log st ++
     [(xlsx_new_name markup_type st,
       Xlsx.Entry (Some (Py.strip (GetName node))) None
                  (Some (now_str env)) None)])%list.
Proof.
  intros Hpre Hnew Hclass Hsave.
  destruct (xlsx_save_markups_invariant _ _ _ _ _ _ Hpre) as (H0 & _ & Hb & _).
  destruct (xlsx_save_markup_step env st node w) as [w1 Hs].
  assert (Hfresh : ~ In (xlsx_new_name markup_type st) (Py.keys (Xlsx.markup_log st)))
    by (apply fresh_name; assumption).
  assert (Hstep : xlsx_step env st node =
                  Ok (Xlsx.LoopState
                        (Py.set (Xlsx.markup_log st) (xlsx_new_name markup_type st)
                           (Xlsx.Entry (Some (Py.strip (GetName node))) None
                                       (Some (now_str env)) None))
                        (Xlsx.max_number st + 1)
                        ({[ xlsx_new_name markup_type st ]} ∪ Xlsx.current_filenames st)
                        (Some markup_type) (Xlsx.markup_error st))).
  { unfold xlsx_step. rewrite Hnew, Hclass. fold (xlsx_new_name markup_type st).
    destruct (saveNode env node (markup_path env (xlsx_new_name markup_type st)))
      as [text| |e] eqn:E; [reflexivity|reflexivity|destruct (Hsave e eq_refl)]. }
  rewrite Hstep in Hs. eexists _, w1. split; [exact Hs|]. split; [exact Hfresh|].
  cbn [Xlsx.markup_log]. apply set_absent. now apply get_None_keys.
Qed.

(** The xlsx script: a node that matches a file name of the log is saved to
    that file; the log, and so the matched entry, stays as it is. *)
Lemma xlsx_matched_node env st node w existing :
  Xlsx.find_existing (Xlsx.markup_log st) (Py.strip (GetName node)) = Some existing ->
  Py.truthy (Some existing) = true ->
  (forall e, saveNode env node (markup_path env existing) = SaveRaises e ->
             is_OSError e = true) ->
  exists st' w',
    Xlsx.save_markup env st node w = (Ok st', w') /\
    Xlsx.markup_log st' = Xlsx.markup_log st /\
    Xlsx.max_number st' = Xlsx.max_number st /\
    Xlsx.current_filenames st' = {[ existing ]} ∪ Xlsx.current_filenames st.
Proof.
  intros Hfind Htruthy Hos.
  destruct (xlsx_save_markup_step env st node w) as [w1 Hs].
  revert Hs. unfold xlsx_step. rewrite Hfind, Htruthy. cbv zeta. cbn [default from_option]. unfold id.
  destruct (saveNode env node (markup_path env existing)) as [text| |e] eqn:E;
    [| |rewrite (Hos _ eq_refl)]; intros Hs; eexists _, w1;
    (split; [exact Hs|]); repeat split.
Qed.

(** C2, as amended. A node of the scene is matched against the markup log as
    it stands when its turn comes in the loop: the loaded log with the
    entries added for the nodes before it.

    In [annotation_mac], when the save of the node goes through ([saveNode]
    returns [True] and the saved file is read back as JSON): if no file name
    of the log is the encoded name of the node followed by [.json], a new
    entry is appended under the generated name, with [created_at] the exit
    time, the content read back and an empty [deleted_at]; if there is such
    a file name, its entry is reused, with [created_at] kept, the content
    read back and [deleted_at] emptied, and no entry is added. When the save
    does not go through, the log stays as it is.

    In [annotation_mac_xlsx]: if no file name of the log has the stripped
    name of the node as its stem, [markup_type] is bound and [saveNode] raises
    nothing (what it returns is not looked at), a new entry is appended under
    the generated name, with [report_content] the stripped name, [created_at]
    the exit time and no [deleted_at]; if a file name matches and [saveNode]
    raises at most an [OSError], no entry is added and the log, with the
    matched entry and its [deleted_at], stays as it is. *)
Theorem saved_node_is_recorded :
  (forall env log0 pre node w0 st w text dumped,
     Mac.save_markups env log0 pre w0 = (Ok st, w) ->
     saveNode env node (markup_path env (assigned_name st node)) = SaveTrue text ->
     fault env (OpOpenRead (markup_path env (assigned_name st node))) = false ->
     json_reload env (Py.universal_newlines text) = Some dumped ->
     exists st' w',
       Mac.save_markup env st node w = (Ok st', w') /\
       match Mac.find_existing (Mac.markup_log st) (encode_filename (GetName node)) with
       | None =>
           assigned_name st node =
             encode_filename (GetName node) +:+ "_" +:+
             Py.str (Mac.max_number st + 1) +:+ ".json" /\
           ~ In (assigned_name st node) (Py.keys (Mac.markup_log st)) /\
           Mac.markup_log st' =
             (Mac.markup_log st ++
              [(assigned_name st node,
                Mac.Entry (now_str env)
                  (Py.replace (Py.replace dumped LF "") "," ";") "")])%list
       | Some existing =>
           existing = encode_filename (GetName node) +:+ ".json" /\
           assigned_name st node = existing /\
           exists e,
             Py.get (Mac.markup_log st) existing = Some e /\
             Mac.markup_log st' =
               Py.set (Mac.markup_log st) existing
                 (Mac.Entry (Mac.created_at e)
                    (Py.replace (Py.replace dumped LF "") "," ";") "") /\
             Py.keys (Mac.markup_log st') = Py.keys (Mac.markup_log st)
       end) /\
  (forall env st node w,
     saved_content env node (markup_path env (assigned_name st node)) = None ->
     exists st' w',
       Mac.save_markup env st node w = (Ok st', w') /\
       Mac.markup_log st' = Mac.markup_log st) /\
  (forall env log0 pre node w0 st w markup_type,
     Xlsx.save_markups env log0 pre w0 = (Ok st, w) ->
     Py.truthy (Xlsx.find_existing (Xlsx.markup_log st) (Py.strip (GetName node)))
       = false ->
     Xlsx.classify (GetClassName node) (Xlsx.markup_type st) = Some markup_type ->
     (forall e, saveNode env node (markup_path env (xlsx_new_name markup_type st))
                <> SaveRaises e) ->
     exists st' w',
       Xlsx.save_markup env st node w = (Ok st', w') /\
       ~ In (xlsx_new_name markup_type st) (Py.keys (Xlsx.markup_log st)) /\
       Xlsx.markup_log st' =
       (Xlsx.markup_log st ++
        [(xlsx_new_name markup_type st,
          Xlsx.Entry (Some (Py.strip (GetName node))) None
                     (Some (now_str env)) None)])%list) /\
  (forall env st node w existing,
     Xlsx.find_existing (Xlsx.markup_log st) (Py.strip (GetName node))
       = Some existing ->
     Py.truthy (Some existing) = true ->
     (forall e, saveNode env node (markup_path env existing) = SaveRaises e ->
                is_OSError e = true) ->
     exists st' w',
       Xlsx.save_markup env st node w = (Ok st', w') /\
       Xlsx.markup_log st' = Xlsx.markup_log st /\
       Xlsx.max_number st' = Xlsx.max_number st /\
       Xlsx.current_filenames st' = {[ existing ]} ∪ Xlsx.current_filenames st).
Proof.
  split; [exact csv_saved_node|]. split; [exact failed_save_leaves_log|].
  split; [exact xlsx_unmatched_node|exact xlsx_matched_node].
Qed.

(** ** The sample run: witnesses and counterexamples *)

(** *** A sample run

    A source folder with three logged markups, of which [F] is still in the
    scene; the scene also holds a new node and one that cannot be saved. *)

Lemma sample_saved_eq :
  Mac.save_markups sample_env sample_log sample_nodes sample_world =
  (Ok sample_state, snd sample_saved).
Proof. vm_compute. reflexivity. Defined.


Lemma sample_before_new_eq :
  Mac.save_markups sample_env sample_log [node_F] sample_world =
  (Ok sample_state_before_new, snd sample_before_new).
Proof. vm_compute. reflexivity. Defined.

Lemma saved_node_is_recorded_witness :
  Mac.save_markups sample_env sample_log [node_F] sample_world =
    (Ok sample_state_before_new, snd sample_before_new) /\
  saveNode sample_env node_new
    (markup_path sample_env (assigned_name sample_state_before_new node_new)) =
    SaveTrue "[1, 2]" /\
  fault sample_env
    (OpOpenRead (markup_path sample_env
                   (assigned_name sample_state_before_new node_new))) = false /\
  json_reload sample_env (Py.universal_newlines "[1, 2]") = Some "[1, 2]" /\
  exists st' w',
    Mac.save_markup sample_env sample_state_before_new node_new
      (snd sample_before_new) = (Ok st', w') /\
    Py.get (Mac.markup_log st') "new_U_one_3.json" =
    Some (Mac.Entry "2025-06-01T12:00:00" "[1; 2]" "") /\
    exists xst' xw',
      Xlsx.save_markup sample_env (xlsx_init []) node_new sample_world =
        (Ok xst', xw') /\
      Xlsx.markup_log xst' =
        [("point_1.json",
          Xlsx.Entry (Some "new one") None (Some "2025-06-01T12:00:00") None)].
Proof.
  split; [exact sample_before_new_eq|]. split; [reflexivity|].
  split; [reflexivity|]. split; [reflexivity|].
  destruct (proj1 saved_node_is_recorded sample_env sample_log [node_F] node_new
              sample_world sample_state_before_new (snd sample_before_new)
              "[1, 2]" "[1, 2]" sample_before_new_eq eq_refl eq_refl eq_refl)
    as (st' & w' & Hrun & Hlog).
  exists st', w'. split; [exact Hrun|].
  change (Mac.find_existing (Mac.markup_log sample_state_before_new)
            (encode_filename (GetName node_new))) with (@None string) in Hlog.
  destruct Hlog as (_ & _ & ->). split; [vm_compute; reflexivity|].
  destruct (proj1 (proj2 (proj2 saved_node_is_recorded)) sample_env [] []
              node_new sample_world (xlsx_init []) sample_world "point"
              eq_refl eq_refl eq_refl)
    as (xst' & xw' & Hxrun & _ & Hxlog); [intros e H; discriminate H|].
  exists xst', xw'. split; [exact Hxrun|]. rewrite Hxlog. reflexivity.
Defined.

(** C2 as stated fails: a node that [saveNode] cannot save matches no file
    name of the log and yet gets no entry; the log written at exit holds the
    header only. *)
Lemma saved_node_is_recorded_counterexample :
  Mac.find_existing [] (encode_filename (GetName node_locked)) = None /\
  fst (Mac.reconcile sample_env [node_locked] fresh_world) = Ok [] /\
  fs (snd (Mac.onAppExit sample_env [node_locked] fresh_world))
    !! "/data/session1/markup_log.csv" = Some Mac.header.
Proof. repeat split; vm_compute; reflexivity. Qed.

Lemma sample_no_fault : forall op, fault sample_env op = false.
Proof. intros op. reflexivity. Defined.

Lemma sample_report_present :
  fs sample_world !! log_csv sample_env = Some sample_report_text.
Proof. vm_compute. reflexivity. Defined.


Lemma report_log_other_fields_kept_witness :
  (forall op, fault sample_env op = false) /\
  fs sample_world !! log_csv sample_env = Some sample_report_text /\
  exists w' text',
    Mac.update_report_log sample_env sample_nodes sample_world = (Ok tt, w') /\
    fs w' !! log_csv sample_env = Some text' /\
    Py.readlines text' !! 2%nat = Some ("8,./patients/p2/s1,True" +:+ LF).
Proof.
  split; [exact sample_no_fault|]. split; [exact sample_report_present|].
  destruct (report_log_other_fields_kept sample_env sample_nodes sample_world
              sample_report_text sample_no_fault sample_report_present)
    as (w' & text' & Hrun & Hlog & _ & Hrow).
  exists w', text'. split; [exact Hrun|]. split; [exact Hlog|].
  destruct (Hrow 2%nat ("8,./patients/p2/s1,True" +:+ LF) eq_refl)
    as (line' & Hline & Hsame).
  change (Py.startswith ("8,./patients/p2/s1,True" +:+ LF)
            (report_number sample_env +:+ ",")) with false in Hsame.
  rewrite Hline, Hsame. reflexivity.
Defined.

(** C8 as stated fails: the matching row is stripped before it is split, so
    a blank at the end of its last column is lost. *)
Lemma report_log_other_fields_kept_counterexample :
  exists w' text',
    Mac.update_report_log sample_env sample_nodes spaced_world = (Ok tt, w') /\
    fs w' !! log_csv sample_env = Some text' /\
    nth 3 (row_fields (nth 1 (Py.readlines spaced_report_text) "")) "" = "checked " /\
    nth 3 (row_fields (nth 1 (Py.readlines text') "")) "" = "checked".
Proof.
  eexists _, _. split; [vm_compute; reflexivity|].
  split; [vm_compute; reflexivity|]. split; vm_compute; reflexivity.
Qed.

Lemma sample_loaded_eq :
  Mac.load_markup_log sample_env sample_world = (Ok sample_loaded, sample_world).
Proof. vm_compute. reflexivity. Defined.

Lemma created_at_is_kept_witness :
  Mac.load_markup_log sample_env sample_world = (Ok sample_loaded, sample_world) /\
  exists logF w2,
    Mac.reconcile sample_env sample_nodes sample_world = (Ok logF, w2) /\
    exists e', Py.get logF "H_2.json" = Some e' /\
               Mac.created_at e' = "2025-05-01T09:10:00".
Proof.
  split; [exact sample_loaded_eq|].
  destruct (created_at_is_kept sample_env sample_nodes sample_world sample_loaded
              sample_world sample_loaded_eq) as (logF & w2 & Hrun & Hkeep).
  exists logF, w2. split; [exact Hrun|].
  apply (Hkeep "H_2.json"
           (Mac.Entry "2025-05-01T09:10:00" (DQUOTE +:+ "[5; 6]" +:+ DQUOTE)
              "2025-05-02T08:00:00")).
  vm_compute. reflexivity.
Defined.

(** C3. Writing a markup log and loading it again does not give the log
    back: the writer puts the content between double quotes and the loader
    keeps them. Here a log with the one entry [F_1.json], whose fields hold
    neither a comma nor a line end, is written to an empty source folder and
    loaded again. *)
Theorem reloaded_content_keeps_quotes :
  exists w',
    Mac.write_markup_log sample_env
      [("F_1.json", Mac.Entry "2025-06-01T12:00:00" "[1; 2]" "")]
      (World ∅ []) = (Ok tt, w') /\
    Mac.load_markup_log sample_env w' =
    (Ok [("F_1.json",
          Mac.Entry "2025-06-01T12:00:00" (DQUOTE +:+ "[1; 2]" +:+ DQUOTE) "")],
     w').
Proof. eexists. split; vm_compute; reflexivity. Qed.

(** * Part III: further properties *)

(** ** More on the filename sanitiser *)

Lemma is_special_In c : is_special c = true <-> In c special_characters.
Proof.
  split.
  - each_ascii c; vm_compute; intros H; try discriminate H; tauto.
  - intros H. repeat (destruct H as [<-|H]; [reflexivity|]). destruct H.
Qed.

Lemma escape_length c :
  String.length (escape c) = if is_special c then 3%nat else 1%nat.
Proof. each_ascii c; vm_compute; reflexivity. Qed.

Lemma escape_all_length s :
  String.length (escape_all s) = (String.length s + 2 * count_special s)%nat.
Proof.
  induction s as [|c t IH]; [reflexivity|].
  cbn [escape_all count_special String.length].
  rewrite app_length, IH, escape_length. destruct (is_special c); lia.
Qed.

Lemma count_special_zero s :
  count_special s = 0%nat <-> forall c, In c special_characters -> Py.char_in c s = false.
Proof.
  induction s as [|a t IH]; cbn [count_special Py.char_in].
  - split; auto.
  - split.
    + intros H c Hc. destruct (is_special a) eqn:Ha; [discriminate H|].
      cbn in H. rewrite (proj1 IH H c Hc), orb_false_r.
      destruct (Ascii.eqb_spec a c) as [->|]; [|reflexivity].
      apply is_special_In in Hc. congruence.
    + intros H. destruct (is_special a) eqn:Ha.
      * apply is_special_In in Ha. specialize (H a Ha).
        rewrite Ascii.eqb_refl in H. discriminate H.
      * cbn. apply IH. intros c Hc. specialize (H c Hc).
        now apply orb_false_iff in H.
Qed.

Lemma escape_all_plain s : count_special s = 0%nat -> escape_all s = s.
Proof.
  induction s as [|a t IH]; [reflexivity|]. cbn [count_special escape_all].
  destruct (is_special a) eqn:Ha; [discriminate|]. cbn [Nat.add]. intros H.
  rewrite (IH H). destruct (escape_cases a) as [[_ ->]|[Hs _]]; [reflexivity|congruence].
Qed.

Lemma escape_all_no_special s : count_special (escape_all s) = 0%nat.
Proof. apply count_special_zero. intros c Hc. now apply escape_all_clean. Qed.

(** X1. Encoding an encoded name changes nothing: [encode_filename
    (encode_filename name)] is [encode_filename name]. *)
Theorem encode_filename_idempotent (name : string) :
  encode_filename (encode_filename name) = encode_filename name.
Proof.
  rewrite !encode_filename_flat. apply escape_all_plain, escape_all_no_special.
Qed.

(** X2. [encode_filename] returns a name unchanged exactly when the name holds
    none of the twelve characters that it replaces. *)
Theorem encode_filename_fixed_points (name : string) :
  encode_filename name = name <->
  forall c, In c special_characters -> Py.char_in c name = false.
Proof.
  rewrite encode_filename_flat. split.
  - intros H c Hc. rewrite <- H. now apply escape_all_clean.
  - intros H. now apply escape_all_plain, count_special_zero.
Qed.

(** X3. The encoded name is longer than the name by two characters for each
    character that is replaced. *)
Theorem encode_filename_length (name : string) :
  String.length (encode_filename name) =
  (String.length name + 2 * count_special name)%nat.
Proof. rewrite encode_filename_flat. apply escape_all_length. Qed.

Lemma replace_from_absent c p new s :
  Py.char_in c s = false -> Py.replace_from (String c p) new s 0 = s.
Proof.
  induction s as [|x t IH]; [reflexivity|]. cbn [Py.char_in]. intros H.
  apply orb_false_iff in H as [Hx Ht].
  rewrite replace_from_miss, (IH Ht); [reflexivity|].
  rewrite prefix_cons. rewrite Ascii.eqb_sym in Hx. now rewrite Hx.
Qed.

Lemma decode_replacements_codes :
  Forall (fun kv => exists p, fst kv = String "_" p) decode_replacements.
Proof. repeat constructor; eexists; reflexivity. Qed.

(** X4. [decode_filename] returns a name without underscore unchanged. *)
Theorem decode_filename_without_underscore (name : string) :
  Py.char_in "_" name = false -> decode_filename name = name.
Proof.
  intros H. unfold decode_filename.
  induction decode_replacements_codes as [|kv l [p Hp] _ IH]; [reflexivity|].
  cbn [fold_left]. rewrite Hp. unfold Py.replace.
  rewrite replace_from_absent by exact H. exact IH.
Qed.

(** ** The markup log on disk *)

Lemma splitn_app_sep p s sep m :
  Py.char_in sep p = false ->
  Py.splitn (p +:+ String sep s) sep (S m) = p :: Py.splitn s sep m.
Proof.
  induction p as [|c p IH]; intros H.
  - rewrite app_nil_l. cbn [Py.splitn]. now rewrite Ascii.eqb_refl.
  - cbn [Py.char_in] in H. apply orb_false_iff in H as [Hc Hp].
    rewrite app_cons. cbn [Py.splitn]. rewrite Hc, (IH Hp). reflexivity.
Qed.

Lemma splitn_zero s sep : Py.splitn s sep 0 = [s].
Proof. destruct s; reflexivity. Qed.

Lemma lstrip_length s : (String.length (Py.lstrip s) <= String.length s)%nat.
Proof.
  induction s as [|c t IH]; [reflexivity|]. cbn [Py.lstrip].
  destruct (Py.isspace c); cbn [String.length]; lia.
Qed.

Lemma lstrip_fixed_app s t c :
  Py.lstrip s = s -> Py.isspace c = false ->
  Py.lstrip (s +:+ String c t) = s +:+ String c t.
Proof.
  destruct s as [|a s]; intros Hs Hc.
  - rewrite app_nil_l. now apply lstrip_id.
  - rewrite app_cons. cbn [Py.lstrip] in *.
    destruct (Py.isspace a); [|reflexivity].
    pose proof (lstrip_length s) as Hl. rewrite Hs in Hl. cbn in Hl. lia.
Qed.

Lemma rstrip_app_keep s t :
  t <> "" -> Py.rstrip t = t -> Py.rstrip (s +:+ t) = s +:+ t.
Proof.
  intros Ht Hr. induction s as [|a s IH]; [now rewrite app_nil_l|].
  rewrite app_cons. cbn [Py.rstrip]. rewrite IH.
  destruct (s +:+ t) eqn:E; [|reflexivity].
  destruct s; [rewrite app_nil_l in E; congruence|discriminate E].
Qed.

Lemma rstrip_cons_keep c d :
  Py.isspace c = false -> Py.rstrip d = d -> Py.rstrip (String c d) = String c d.
Proof.
  intros Hc Hd. cbn [Py.rstrip]. rewrite Hd. destruct d; [now rewrite Hc|reflexivity].
Qed.

Lemma plain_app s t : plain s -> plain t -> plain (s +:+ t).
Proof.
  intros [H1 H2] [H3 H4]. split; rewrite char_in_app; [rewrite H1, H3|rewrite H2, H4];
    reflexivity.
Qed.

Lemma plain_one c : Ascii.eqb c "010" = false -> Ascii.eqb c "013" = false ->
  plain (String c "").
Proof. intros H1 H2. split; cbn; rewrite ?H1, ?H2; reflexivity. Qed.

Lemma format_entry_body item :
  Mac.format_entry (fst item) (snd item) = row_body item +:+ LF.
Proof.
  unfold Mac.format_entry, row_body. now rewrite !app_assoc.
Qed.

Lemma row_body_plain item : row_ok item -> plain (row_body item).
Proof.
  intros ((Hk & _ & _) & (Hc & _) & (Hx & _) & (Hd & _)). unfold row_body.
  repeat first [ apply plain_app | assumption | apply plain_one; reflexivity ].
Qed.

Lemma row_body_shape item :
  row_body item =
  fst item +:+
  String "," ((Mac.created_at (snd item) +:+ "," +:+ DQUOTE +:+
               Mac.content (snd item) +:+ DQUOTE) +:+
              String "," (Mac.deleted_at (snd item))).
Proof. unfold row_body. rewrite !app_assoc. reflexivity. Qed.

Lemma strip_framed k mid d :
  Py.lstrip k = k -> Py.rstrip d = d ->
  Py.strip (k +:+ String "," (mid +:+ String "," d)) =
  k +:+ String "," (mid +:+ String "," d).
Proof.
  intros Hk Hd. unfold Py.strip.
  rewrite lstrip_fixed_app by (exact Hk || reflexivity).
  rewrite <- (app_cons "," mid (String "," d)), <- app_assoc.
  apply rstrip_app_keep; [discriminate|].
  apply rstrip_cons_keep; [reflexivity|exact Hd].
Qed.

Lemma row_body_strip item : row_ok item -> Py.strip (row_body item) = row_body item.
Proof.
  intros ((_ & _ & Hk) & _ & _ & (_ & Hd)). rewrite row_body_shape.
  now apply strip_framed.
Qed.

Lemma row_body_split item :
  row_ok item ->
  Py.splitn (row_body item) "," 3 =
  [fst item; Mac.created_at (snd item);
   DQUOTE +:+ Mac.content (snd item) +:+ DQUOTE; Mac.deleted_at (snd item)].
Proof.
  intros ((_ & Hk & _) & (_ & Hc) & (_ & Hx) & _). rewrite row_body_shape.
  rewrite (splitn_app_sep _ _ _ _ Hk).
  rewrite (app_assoc (Mac.created_at (snd item))).
  change ("," +:+ ?x) with (String "," x). rewrite app_cons.
  rewrite (splitn_app_sep _ _ _ _ Hc).
  rewrite splitn_app_sep, splitn_zero; [reflexivity|].
  rewrite !char_in_app, Hx. reflexivity.
Qed.

Lemma parse_line_row log item :
  row_ok item ->
  Mac.parse_line log (Mac.format_entry (fst item) (snd item)) =
  Py.set log (fst item) (quoted (snd item)).
Proof.
  intros H. unfold Mac.parse_line.
  rewrite format_entry_body, strip_complete, (row_body_strip _ H), (row_body_split _ H).
  reflexivity.
Qed.

Lemma parse_rows log :
  Forall row_ok log -> NoDup (Py.keys log) ->
  forall acc,
    (forall k, In k (Py.keys log) -> ~ In k (Py.keys acc)) ->
    fold_left Mac.parse_line
      (map (fun item => Mac.format_entry (fst item) (snd item)) log) acc =
    (acc ++ quoted_log log)%list.
Proof.
  induction 1 as [|item log Hi _ IH]; intros Hnd acc Hacc.
  - cbn. now rewrite List.app_nil_r.
  - cbn [map fold_left quoted_log]. rewrite (parse_line_row _ _ Hi).
    cbn [Py.keys map] in Hnd, Hacc. apply NoDup_cons in Hnd as [Hk Hnd].
    rewrite set_absent by (apply get_None_keys, Hacc; now left).
    rewrite IH; [now rewrite <- List.app_assoc|exact Hnd|].
    intros k Hk' Hin. unfold Py.keys in Hin. rewrite map_app in Hin.
    apply in_app_or in Hin as [Hin|[<-|[]]].
    + apply (Hacc k); [now right|exact Hin].
    + apply Hk. apply list_elem_of_In. exact Hk'.
Qed.

Lemma header_complete : complete_line Mac.header.
Proof. eexists. split; [reflexivity|]. split; reflexivity. Qed.

Lemma rows_lines_ok log :
  Forall row_ok log ->
  forall l, complete_line l ->
  lines_ok (l :: map (fun item => Mac.format_entry (fst item) (snd item)) log).
Proof.
  induction 1 as [|item log Hi _ IH]; intros l Hl.
  - cbn. now left.
  - cbn [map]. change (complete_line l /\
      lines_ok (Mac.format_entry (fst item) (snd item) ::
                map (fun item => Mac.format_entry (fst item) (snd item)) log)).
    split; [exact Hl|]. apply IH. rewrite format_entry_body.
    eexists. split; [reflexivity|]. now apply row_body_plain.
Qed.

Lemma format_markup_log_lines log :
  Mac.format_markup_log log = Mac.header +:+ rows_text log.
Proof.
  unfold Mac.format_markup_log, rows_text. f_equal.
  induction log as [|item log IH]; [reflexivity|]. cbn. now rewrite IH.
Qed.

Lemma reload_text log :
  Forall row_ok log -> NoDup (Py.keys log) ->
  Mac.parse_markup_log (Py.readlines (Mac.format_markup_log log)) = quoted_log log.
Proof.
  intros Hok Hnd. rewrite format_markup_log_lines.
  change (Mac.header +:+ rows_text log)
    with (concat_lines (Mac.header ::
            map (fun item => Mac.format_entry (fst item) (snd item)) log)).
  rewrite readlines_concat by (apply rows_lines_ok; [exact Hok|apply header_complete]).
  unfold Mac.parse_markup_log. cbn [tail].
  rewrite (parse_rows log Hok Hnd []); [reflexivity|]. intros k _ [].
Qed.

Lemma world_eta w : World (fs w) (stdout w) = w.
Proof. now destruct w. Qed.

Lemma write_ok env path n data w acc :
  fault env (OpWrite path n) = false ->
  fs w !! path = Some acc ->
  write (fault env) path n data w =
  (Ok tt, World (<[path := acc +:+ data]> (fs w)) (stdout w)).
Proof.
  intros Hf Hacc. unfold write, bind, io, set_fs. rewrite Hf. cbn. now rewrite Hacc.
Qed.

Lemma open_write_ok env path w :
  fault env (OpOpenWrite path) = false ->
  open_write (fault env) path w = (Ok tt, World (<[path := ""]> (fs w)) (stdout w)).
Proof. intros Hf. unfold open_write, bind, io, set_fs. now rewrite Hf. Qed.

Lemma write_entries_ok env path items :
  (forall op, fault env op = false) ->
  forall n w acc,
    fs w !! path = Some acc ->
    Mac.write_entries env path n items w =
    (Ok tt, World (<[path := acc +:+ rows_text items]> (fs w)) (stdout w)).
Proof.
  intros Hf. induction items as [|[k e] items IH]; intros n w acc Hacc.
  - cbn. rewrite app_nil_r, insert_id by exact Hacc. now rewrite world_eta.
  - cbn [Mac.write_entries]. unfold bind at 1.
    rewrite (write_ok env path n _ w acc (Hf _) Hacc).
    rewrite (IH (S n) _ (acc +:+ Mac.format_entry k e)) by (cbn; apply lookup_insert_eq).
    cbn [fs stdout]. rewrite insert_insert_eq.
    unfold rows_text. cbn [map concat_lines fst snd]. now rewrite app_assoc.
Qed.

Lemma write_markup_log_ok env log w :
  (forall op, fault env op = false) ->
  Mac.write_markup_log env log w =
  (Ok tt, World (<[Mac.markup_log_file env := Mac.format_markup_log log]> (fs w))
                (stdout w)).
Proof.
  intros Hf. unfold Mac.write_markup_log, bind.
  rewrite open_write_ok by apply Hf.
  rewrite (write_ok env _ 0 _ _ "") by (apply Hf || (cbn; apply lookup_insert_eq)).
  rewrite (write_entries_ok env _ _ Hf 1 _ ("" +:+ Mac.header))
    by (cbn; apply lookup_insert_eq).
  unfold close, io. rewrite Hf. cbn [fs stdout ret].
  rewrite !insert_insert_eq, app_nil_l, format_markup_log_lines. reflexivity.
Qed.

Lemma load_markup_log_present env w text :
  fault env (OpOpenRead (Mac.markup_log_file env)) = false ->
  fs w !! Mac.markup_log_file env = Some text ->
  Mac.load_markup_log env w = (Ok (Mac.parse_markup_log (Py.readlines text)), w).
Proof.
  intros Hf Ht. unfold Mac.load_markup_log, bind, path_exists, open_read, io.
  rewrite bool_decide_eq_true_2 by (rewrite Ht; eauto).
  rewrite Hf. unfold ret, bind. cbv beta iota. now rewrite Ht.
Qed.

Lemma load_markup_log_missing env w :
  fs w !! Mac.markup_log_file env = None ->
  Mac.load_markup_log env w = (Ok [], w).
Proof.
  intros Ht. unfold Mac.load_markup_log, bind, path_exists.
  rewrite bool_decide_eq_false_2; [reflexivity|]. rewrite Ht. intros [? ?]. discriminate.
Qed.

(** X5. When no file operation fails, the keys of the log are distinct and its
    rows are such that the loader splits them where the writer joined them,
    writing the log and loading it again gives the same keys in the same
    order, each with its [created_at] and [deleted_at], and with its content
    between double quotes. *)
Theorem written_log_reloads_quoted env log w :
  (forall op, fault env op = false) ->
  NoDup (Py.keys log) ->
  Forall row_ok log ->
  exists w',
    Mac.write_markup_log env log w = (Ok tt, w') /\
    fs w' = <[Mac.markup_log_file env := Mac.format_markup_log log]> (fs w) /\
    Mac.load_markup_log env w' = (Ok (quoted_log log), w').
Proof.
  intros Hf Hnd Hok. eexists. split; [now apply write_markup_log_ok|].
  split; [reflexivity|].
  erewrite load_markup_log_present; [|apply Hf|cbn; apply lookup_insert_eq].
  rewrite reload_text by assumption. reflexivity.
Qed.

(** X6. When no file operation fails, the start of the script leaves an
    existing markup log and everything else as it is; a missing log is created
    with the header line alone, nothing is printed, and the loader then reads
    an empty log. *)
Theorem start_prepares_the_markup_log env w :
  (forall op, fault env op = false) ->
  exists w',
    ensure_markup_log env w = (Ok tt, w') /\
    stdout w' = stdout w /\
    match fs w !! Mac.markup_log_file env with
    | Some _ => w' = w
    | None =>
        fs w' = <[Mac.markup_log_file env := Mac.header]> (fs w) /\
        Mac.load_markup_log env w' = (Ok [], w')
    end.
Proof.
  intros Hf. unfold ensure_markup_log, bind, path_exists.
  destruct (fs w !! Mac.markup_log_file env) as [text|] eqn:Ht.
  - rewrite bool_decide_eq_true_2 by eauto. exists w. repeat split.
  - rewrite bool_decide_eq_false_2 by (intros [? ?]; discriminate).
    cbn [negb]. rewrite open_write_ok by apply Hf.
    rewrite (write_ok env _ 0 _ _ "") by (apply Hf || (cbn; apply lookup_insert_eq)).
    unfold close, io. rewrite Hf. cbn [fs stdout ret]. rewrite insert_insert_eq, app_nil_l.
    eexists. split; [reflexivity|]. cbn [fs stdout]. repeat split.
    erewrite load_markup_log_present; [|apply Hf|cbn; apply lookup_insert_eq].
    reflexivity.
Qed.

(** ** Rows of the markup log *)

Lemma splitn_length s sep :
  forall m, length (Py.splitn s sep m) = Nat.min (count_char sep s + 1) (m + 1).
Proof.
  induction s as [|c t IH]; intros m; [cbn [Py.splitn count_char length]; lia|].
  cbn [Py.splitn count_char]. destruct m as [|m].
  - cbn [length]. destruct (Ascii.eqb c sep); lia.
  - destruct (Ascii.eqb c sep).
    + cbn [length]. rewrite IH. lia.
    + specialize (IH (S m)). destruct (Py.splitn t sep (S m)) as [|h r];
        cbn [length] in *; lia.
Qed.

(** X7. The loader takes a line whose stripped text is [a,b,c,d], with no
    comma in [a], [b] and [c], as the entry [a] with [created_at] [b],
    [content] [c] and [deleted_at] [d], which may hold commas; a line with
    fewer than three commas after stripping leaves the log as it is. *)
Theorem loader_takes_rows_of_four_fields (log : Py.dict Mac.entry) (line : string) :
  (forall a b c d,
     Py.strip line = a +:+ "," +:+ b +:+ "," +:+ c +:+ "," +:+ d ->
     Py.char_in "," a = false -> Py.char_in "," b = false ->
     Py.char_in "," c = false ->
     Mac.parse_line log line = Py.set log a (Mac.Entry b c d)) /\
  ((count_char "," (Py.strip line) < 3)%nat -> Mac.parse_line log line = log).
Proof.
  split.
  - intros a b c d Hs Ha Hb Hc. unfold Mac.parse_line. rewrite Hs.
    repeat (progress change ("," +:+ ?x) with (String "," x)).
    rewrite !splitn_app_sep, splitn_zero by assumption. reflexivity.
  - intros H. unfold Mac.parse_line.
    pose proof (splitn_length (Py.strip line) "," 3) as Hl.
    destruct (Nat.leb_spec 4 (length (Py.splitn (Py.strip line) "," 3))); [lia|reflexivity].
Qed.

(** ** The numbers of the generated names *)

Lemma fold_bump_attained l :
  forall m,
    fold_left Mac.bump l m = m \/
    exists k, In k l /\ Mac.number_part k = Some (fold_left Mac.bump l m).
Proof.
  induction l as [|k l IH]; intros m; [now left|]. cbn [fold_left].
  destruct (IH (Mac.bump m k)) as [H|(k' & Hk' & H)].
  - rewrite H. unfold Mac.bump.
    destruct (Mac.number_part k) as [n|] eqn:Hn; [|now left].
    destruct (n >? m)%Z; [|now left].
    right. exists k. split; [now left|exact Hn].
  - right. exists k'. split; [now right|exact H].
Qed.

(** X9. [last_number] is at least the trailing number of every file name of
    the log, and it is 0 or the trailing number of one of them. *)
Theorem last_number_is_the_largest (log : Py.dict Mac.entry) :
  (forall k n, In k (Py.keys log) -> Mac.number_part k = Some n ->
               (n <= Mac.last_number log)%Z) /\
  (Mac.last_number log = 0%Z \/
   exists k, In k (Py.keys log) /\ Mac.number_part k = Some (Mac.last_number log)).
Proof.
  split; [apply last_number_bounded|].
  unfold Mac.last_number. destruct log as [|item log]; [now left|].
  apply fold_bump_attained.
Qed.

Lemma numbers_after_cons lo n :
  numbers_after lo (S n) = (lo + 1)%Z :: numbers_after (lo + 1) n.
Proof.
  unfold numbers_after. cbn [seq map]. f_equal.
  rewrite <- seq_shift, map_map. apply map_ext. intros i. lia.
Qed.

Lemma new_names_numbers env nodes :
  forall st w,
    map snd (new_names env st nodes w) =
      numbers_after (Mac.max_number st) (length (new_names env st nodes w)) /\
    Mac.max_number (fold_left (step env) nodes st) =
      (Mac.max_number st + Z.of_nat (length (new_names env st nodes w)))%Z.
Proof.
  induction nodes as [|node nodes IH]; intros st w.
  - cbn. split; [reflexivity|lia].
  - cbn [new_names fold_left].
    destruct (save_markup_step env st node w) as [w' Hs]. rewrite Hs.
    destruct (IH (step env st node) w') as [IH1 IH2]. rewrite IH2.
    assert (Hmax : Mac.max_number (step env st node) =
                   snd (Mac.assign_name (Mac.markup_log st) (Mac.max_number st) node))
      by reflexivity.
    destruct (assign_name_cases (Mac.markup_log st) (Mac.max_number st) node)
      as [(f & _ & Ht & _ & _ & Ha)|(_ & Ht & Ha)]; rewrite Ht.
    + rewrite Ha in Hmax. cbn [snd] in Hmax. rewrite Hmax in *.
      cbn [app]. split; [exact IH1|reflexivity].
    + rewrite Ha in Hmax |- *. cbn [snd fst] in Hmax |- *. rewrite Hmax in *.
      cbn [app map snd length]. rewrite numbers_after_cons, IH1. split; [reflexivity|lia].
Qed.

(** X10. The numbers of the names that one exit generates are the consecutive
    numbers after the last number of the loaded log, in the order of the
    nodes, and the counter ends at the last of them: a node that matches no
    entry takes a number whether or not its save succeeds. *)
Theorem generated_numbers_are_consecutive env log0 nodes w :
  map snd (new_names env (init_state log0) nodes w) =
    numbers_after (Mac.last_number log0)
      (length (new_names env (init_state log0) nodes w)) /\
  exists st w',
    Mac.save_markups env log0 nodes w = (Ok st, w') /\
    Mac.max_number st =
      (Mac.last_number log0 +
       Z.of_nat (length (new_names env (init_state log0) nodes w)))%Z.
Proof.
  destruct (new_names_numbers env nodes (init_state log0) w) as [H1 H2].
  split; [exact H1|].
  destruct (save_markups_fold env log0 nodes w) as [w' Hw].
  eexists _, w'. split; [exact Hw|exact H2].
Qed.

Lemma digit_not_special c : is_digit c = true -> is_special c = false.
Proof. each_ascii c; vm_compute; intros H; try discriminate H; reflexivity. Qed.

(** ** Names and nodes across exits *)

Lemma count_special_app s t :
  count_special (s +:+ t) = (count_special s + count_special t)%nat.
Proof.
  induction s as [|c s IH]; [reflexivity|].
  rewrite app_cons. cbn [count_special]. rewrite IH. lia.
Qed.

Lemma count_special_digits s : all_chars is_digit s = true -> count_special s = 0%nat.
Proof.
  induction s as [|c s IH]; [reflexivity|]. cbn [all_chars count_special].
  intros H. apply andb_true_iff in H as [Hc Hs].
  now rewrite (digit_not_special c Hc), (IH Hs).
Qed.

Lemma generated_stem_plain name n :
  (0 <= n)%Z ->
  encode_filename (encode_filename name +:+ "_" +:+ Py.str n) =
  encode_filename name +:+ "_" +:+ Py.str n.
Proof.
  intros Hn. rewrite (encode_filename_flat (_ +:+ _)).
  apply escape_all_plain. rewrite !count_special_app.
  rewrite encode_filename_flat, escape_all_no_special.
  now rewrite (count_special_digits _ (str_digits n Hn)).
Qed.

(** X11. A node that carries the name of a generated file without [.json],
    that file being in the log, is given that file again and takes no new
    number. *)
Theorem generated_name_is_reused log m node name n :
  (0 <= n)%Z ->
  GetName node = encode_filename name +:+ "_" +:+ Py.str n ->
  In (GetName node +:+ ".json") (Py.keys log) ->
  Mac.assign_name log m node = (GetName node +:+ ".json", m).
Proof.
  intros Hn Hname Hin.
  assert (He : encode_filename (GetName node) = GetName node)
    by (rewrite Hname; now apply generated_stem_plain).
  destruct (assign_name_cases log m node) as [(f & _ & _ & Hf & _ & Ha)|(Hnone & _)].
  - rewrite Ha, Hf, He. reflexivity.
  - apply find_existing_None in Hnone. rewrite He in Hnone. tauto.
Qed.

Lemma generated_name_is_reused_witness :
  (0 <= 3)%Z /\
  GetName node_reloaded = encode_filename "new one" +:+ "_" +:+ Py.str 3 /\
  In (GetName node_reloaded +:+ ".json") (Py.keys sample_log_after) /\
  Mac.assign_name sample_log_after 3 node_reloaded = ("new_U_one_3.json", 3%Z).
Proof.
  assert (H1 : (0 <= 3)%Z) by lia.
  assert (H2 : GetName node_reloaded = encode_filename "new one" +:+ "_" +:+ Py.str 3)
    by reflexivity.
  assert (H3 : In (GetName node_reloaded +:+ ".json") (Py.keys sample_log_after))
    by (cbn; tauto).
  split; [exact H1|]. split; [exact H2|]. split; [exact H3|].
  exact (generated_name_is_reused sample_log_after 3 node_reloaded "new one" 3 H1 H2 H3).
Defined.

(** X12. The file name given to a node of the scene is among the current file
    names when the loop ends, so it is not among the deleted files, whatever
    happened to the save of the node. *)
Theorem scene_nodes_are_not_deleted env log0 pre node post w0 st w stF wF :
  Mac.save_markups env log0 pre w0 = (Ok st, w) ->
  Mac.save_markups env log0 (pre ++ node :: post) w0 = (Ok stF, wF) ->
  assigned_name st node ∈ Mac.current_filenames stF /\
  assigned_name st node ∉
    Mac.deleted_files (Mac.markup_log stF) (Mac.current_filenames stF).
Proof.
  intros H1 H2. apply save_markups_result in H1, H2.
  assert (Hin : assigned_name st node ∈ Mac.current_filenames stF).
  { rewrite H2, fold_left_app. cbn [fold_left]. rewrite <- H1.
    destruct (fold_keys env post (step env st node)) as (_ & _ & Hsub).
    apply Hsub. rewrite step_current. apply elem_of_union_l, elem_of_singleton.
    reflexivity. }
  split; [exact Hin|]. unfold Mac.deleted_files. intros Hd.
  apply elem_of_difference in Hd. tauto.
Qed.

Lemma scene_nodes_are_not_deleted_witness :
  Mac.save_markups sample_env sample_log [node_F] sample_world =
    (Ok sample_state_before_new, snd sample_before_new) /\
  Mac.save_markups sample_env sample_log ([node_F] ++ node_new :: [node_locked])
    sample_world = (Ok sample_state, snd sample_saved) /\
  assigned_name sample_state_before_new node_new ∈ Mac.current_filenames sample_state /\
  assigned_name sample_state_before_new node_new ∉
    Mac.deleted_files (Mac.markup_log sample_state) (Mac.current_filenames sample_state).
Proof.
  split; [exact sample_before_new_eq|]. split; [exact sample_saved_eq|].
  exact (scene_nodes_are_not_deleted sample_env sample_log [node_F] node_new
           [node_locked] sample_world sample_state_before_new
           (snd sample_before_new) sample_state (snd sample_saved)
           sample_before_new_eq sample_saved_eq).
Defined.

Lemma app_longer (s t : string) : t <> "" -> s +:+ t <> s.
Proof.
  intros Ht H. apply (f_equal String.length) in H. rewrite app_length in H.
  destruct t; [congruence|]. cbn [String.length] in H. lia.
Qed.

Lemma generated_stem_differs name n :
  encode_filename name +:+ "_" +:+ Py.str n <> name.
Proof.
  intros H. apply (f_equal String.length) in H.
  rewrite !app_length, encode_filename_flat, escape_all_length in H.
  cbn [String.length] in H. lia.
Qed.

Lemma find_existing_In log encoded :
  In (encoded +:+ ".json") (Py.keys log) ->
  Mac.find_existing log encoded = Some (encoded +:+ ".json").
Proof.
  intros Hin. destruct (Mac.find_existing log encoded) as [f|] eqn:E.
  - apply find_existing_Some in E as [-> _]. reflexivity.
  - apply find_existing_None in E. contradiction.
Qed.

(** C6. The names given to new markups in one exit need not differ. When a
    node matches no file name of the loaded log, its save goes through, and a
    second node carries the name under which the first is filed (its encoded
    name, an underscore and the next number), then the second node matches no
    file name of the loaded log either, and yet is given the file name that
    the first was given: the two nodes differ, the current file names hold
    that one name, and the log gets one entry for both. *)
Theorem new_nodes_can_share_a_filename env log0 node1 node2 w0 content :
  Mac.find_existing log0 (encode_filename (GetName node1)) = None ->
  saved_content env node1
    (markup_path env (assigned_name (init_state log0) node1)) = Some content ->
  GetName node2 =
    encode_filename (GetName node1) +:+ "_" +:+ Py.str (Mac.last_number log0 + 1) ->
  exists st1 w1 st2 w2,
    Mac.save_markups env log0 [node1] w0 = (Ok st1, w1) /\
    Mac.save_markups env log0 [node1; node2] w0 = (Ok st2, w2) /\
    GetName node1 <> GetName node2 /\
    Mac.find_existing log0 (encode_filename (GetName node2)) = None /\
    assigned_name (init_state log0) node1 = GetName node2 +:+ ".json" /\
    assigned_name st1 node2 = GetName node2 +:+ ".json" /\
    Mac.current_filenames st2 = {[ GetName node2 +:+ ".json" ]} /\
    Py.keys (Mac.markup_log st2) =
      (Py.keys log0 ++ [GetName node2 +:+ ".json"])%list.
Proof.
  intros Hnew Hsaved Hname.
  destruct (last_number_bounded log0) as [H0 Hb].
  set (g := GetName node2 +:+ ".json").
  assert (Hg : encode_filename (GetName node1) +:+ "_" +:+
               Py.str (Mac.last_number log0 + 1) +:+ ".json" = g)
    by (unfold g; rewrite Hname, !app_assoc; reflexivity).
  assert (Hfresh : ~ In g (Py.keys log0))
    by (rewrite <- Hg; apply fresh_name; assumption).
  assert (Ha1 : Mac.assign_name log0 (Mac.last_number log0) node1 =
                (g, (Mac.last_number log0 + 1)%Z)).
  { destruct (assign_name_cases log0 (Mac.last_number log0) node1)
      as [(f & Hf & _)|(_ & _ & Ha)]; [congruence|]. now rewrite Ha, Hg. }
  assert (Hn1 : assigned_name (init_state log0) node1 = g)
    by (unfold assigned_name; cbn [init_state Mac.markup_log Mac.max_number];
        now rewrite Ha1).
  set (st1 := step env (init_state log0) node1).
  assert (Hlog1 : Mac.markup_log st1 =
                  (log0 ++ [(g, Mac.Entry (now_str env) content "")])%list).
  { unfold st1, step. cbn [init_state Mac.markup_log Mac.max_number].
    rewrite Ha1. cbn [fst]. fold (markup_path env g). rewrite <- Hn1, Hsaved, Hn1.
    unfold Mac.record_saved. apply get_None_keys in Hfresh. rewrite Hfresh.
    now apply set_absent. }
  assert (Hmax1 : Mac.max_number st1 = (Mac.last_number log0 + 1)%Z)
    by (unfold st1, step; cbn [init_state Mac.markup_log Mac.max_number];
        now rewrite Ha1).
  assert (Hcur1 : Mac.current_filenames st1 = {[ g ]} ∪ ∅)
    by (unfold st1; rewrite step_current; fold (assigned_name (init_state log0) node1);
        now rewrite Hn1).
  assert (He2 : encode_filename (GetName node2) = GetName node2)
    by (rewrite Hname; apply generated_stem_plain; lia).
  assert (Hin1 : In g (Py.keys (Mac.markup_log st1)))
    by (rewrite Hlog1; unfold Py.keys; rewrite map_app; apply in_or_app; right;
        now left).
  assert (Ha2 : Mac.assign_name (Mac.markup_log st1) (Mac.max_number st1) node2 =
                (g, Mac.max_number st1)).
  { destruct (assign_name_cases (Mac.markup_log st1) (Mac.max_number st1) node2)
      as [(f & _ & _ & Hf & _ & Ha)|(Hnone & _)].
    - rewrite Ha, Hf, He2. reflexivity.
    - apply find_existing_None in Hnone. rewrite He2 in Hnone. contradiction. }
  assert (Hn2 : assigned_name st1 node2 = g)
    by (unfold assigned_name; now rewrite Ha2).
  set (st2 := step env st1 node2).
  destruct (save_markups_fold env log0 [node1] w0) as [w1 Hrun1].
  destruct (save_markups_fold env log0 [node1; node2] w0) as [w2 Hrun2].
  exists st1, w1, st2, w2. split; [exact Hrun1|]. split; [exact Hrun2|].
  split; [rewrite Hname; intros E; symmetry in E; now apply generated_stem_differs in E|].
  split.
  { destruct (Mac.find_existing log0 (encode_filename (GetName node2))) as [f|] eqn:E;
      [|reflexivity].
    apply find_existing_Some in E as [-> Hin]. rewrite He2 in Hin. contradiction. }
  split; [exact Hn1|]. split; [exact Hn2|]. split.
  - unfold st2. rewrite step_current, Ha2, Hcur1. cbn [fst].
    apply set_eq. intros x. rewrite !elem_of_union, elem_of_singleton.
    split; [intros [H|[H|H]]; [exact H|exact H|now apply elem_of_empty in H]|now left].
  - unfold st2. destruct (step_log env st1 node2) as [->|[c2 ->]].
    + rewrite Hlog1. unfold Py.keys. now rewrite map_app.
    + rewrite Ha2. cbn [fst].
      destruct (record_saved_set (now_str env) (Mac.markup_log st1) g c2)
        as (e & -> & _).
      destruct (keys_get _ _ Hin1) as [e1 He1].
      rewrite (set_present _ _ _ _ He1), Hlog1. unfold Py.keys. now rewrite map_app.
Qed.

Lemma new_nodes_can_share_a_filename_witness :
  Mac.find_existing [] (encode_filename (GetName node_F)) = None /\
  saved_content sample_env node_F
    (markup_path sample_env (assigned_name (init_state []) node_F)) = Some "[1; 2]" /\
  GetName node_F_1 =
    encode_filename (GetName node_F) +:+ "_" +:+ Py.str (Mac.last_number [] + 1) /\
  exists st1 w1 st2 w2,
    Mac.save_markups sample_env [] [node_F] fresh_world = (Ok st1, w1) /\
    Mac.save_markups sample_env [] [node_F; node_F_1] fresh_world = (Ok st2, w2) /\
    GetName node_F <> GetName node_F_1 /\
    Mac.find_existing [] (encode_filename (GetName node_F_1)) = None /\
    assigned_name (init_state []) node_F = "F_1.json" /\
    assigned_name st1 node_F_1 = "F_1.json" /\
    Mac.current_filenames st2 = {[ "F_1.json" ]} /\
    Py.keys (Mac.markup_log st2) = ["F_1.json"].
Proof.
  split; [reflexivity|]. split; [reflexivity|]. split; [reflexivity|].
  exact (new_nodes_can_share_a_filename sample_env [] node_F node_F_1 fresh_world
           "[1; 2]" eq_refl eq_refl eq_refl).
Defined.

(** ** The deletion loop under failures *)

Lemma delete_markup_outcome env log k w :
  exists log' w',
    Mac.delete_markup env log k w = (Ok log', w') /\
    (log' = log \/
     exists e, Py.get log k = Some e /\
               log' = Py.set log k (mark_deleted (now_str env) e) /\
               fs w' !! markup_path env k = None) /\
    (fs w' = fs w \/ fs w' = delete (markup_path env k) (fs w)).
Proof.
  unfold Mac.delete_markup, try_except, markup_path.
  unfold bind at 1, path_exists. unfold bind at 1.
  case_bool_decide as Hfound.
  - unfold bind at 1, remove. unfold bind at 1, io.
    destruct (fault env _);
      [eexists _, _; split; [reflexivity|split; now left]|].
    cbn [ret]. destruct (fs w !! _) eqn:Hfile;
      [|eexists _, _; split; [reflexivity|split; now left]].
    cbn [print]. destruct (Py.get log k) as [e|] eqn:E.
    + destruct (String.eqb (Mac.deleted_at e) "") eqn:Hd;
        eexists _, _; (split; [reflexivity|]); cbn [fs]; (split; [|now right]).
      * right. exists e. unfold mark_deleted. rewrite Hd.
        repeat split. apply lookup_delete_eq.
      * now left.
    + eexists _, _; split; [reflexivity|]. cbn [fs]. split; [now left|now right].
  - assert (Hnone : fs w !! Py.path_join (sourceFolder env) k = None).
    { destruct (fs w !! _) eqn:E; [|reflexivity]. exfalso. apply Hfound. eauto. }
    cbn [ret]. destruct (Py.get log k) as [e|] eqn:E.
    + destruct (String.eqb (Mac.deleted_at e) "") eqn:Hd;
        eexists _, _; (split; [reflexivity|]); (split; [|now left]).
      * right. exists e. unfold mark_deleted. rewrite Hd.
        repeat split. exact Hnone.
      * now left.
    + eexists _, _; split; [reflexivity|]. split; now left.
Qed.

Lemma delete_each_any env l :
  NoDup l ->
  forall log w, exists log' w',
    for_each l (Mac.delete_markup env) log w = (Ok log', w') /\
    Py.keys log' = Py.keys log /\
    (forall k e, Py.get log k = Some e ->
       Py.get log' k = Some e \/
       (In k l /\ fs w' !! markup_path env k = None /\
        Py.get log' k = Some (mark_deleted (now_str env) e))) /\
    (forall p, fs w !! p = None -> fs w' !! p = None) /\
    (forall p, (forall k, In k l -> p <> markup_path env k) -> fs w' !! p = fs w !! p).
Proof.
  intros Hnd. induction Hnd as [|k l Hk Hnd IH]; intros log w.
  - eexists _, _. split; [reflexivity|]. split; [reflexivity|]. split; auto.
  - cbn [for_each]. unfold bind.
    destruct (delete_markup_outcome env log k w) as (log1 & w1 & -> & Hlog & Hfs).
    destruct (IH log1 w1) as (log' & w' & Hrun & Hkeys & Hget & Hnone & Hframe).
    exists log', w'. split; [exact Hrun|].
    assert (Hkl : ~ In k l) by (intros H; apply Hk; now apply list_elem_of_In).
    assert (Hnone1 : forall p, fs w !! p = None -> fs w1 !! p = None).
    { intros p Hp. destruct Hfs as [->| ->]; [exact Hp|].
      destruct (string_dec (markup_path env k) p) as [<-|Hne];
        [apply lookup_delete_eq|]. now rewrite lookup_delete_ne. }
    split; [|split; [|split]].
    + rewrite Hkeys. destruct Hlog as [->|(e & He & -> & _)]; [reflexivity|].
      eapply set_present; eauto.
    + intros k0 e0 H0. destruct Hlog as [->|(e & He & -> & Hgone)].
      * destruct (Hget k0 e0 H0) as [H|(Hin & Hf & H)]; [now left|].
        right. split; [now right|]. split; assumption.
      * destruct (string_dec k k0) as [<-|Hne].
        -- rewrite H0 in He. injection He as <-.
           destruct (Hget k (mark_deleted (now_str env) e0)) as [H|(Hin & _)];
             [apply get_set_eq| |tauto].
           right. split; [now left|]. split; [now apply Hnone|exact H].
        -- destruct (Hget k0 e0) as [H|(Hin & Hf & H)];
             [now rewrite get_set_ne| now left|].
           right. split; [now right|]. split; assumption.
    + intros p Hp. apply Hnone, Hnone1, Hp.
    + intros p Hp. rewrite Hframe by (intros k' Hk'; apply Hp; now right).
      destruct Hfs as [->| ->]; [reflexivity|].
      apply lookup_delete_ne. intros E. apply (Hp k); [now left|]. now rewrite E.
Qed.

(** X13. Whichever file operations fail, the loop over the deleted files ends
    normally and keeps the keys of the log; an entry either stays as it was or
    is one of the deleted files, is marked as deleted, and its file no longer
    exists; no file other than those of the deleted entries is touched. *)
Theorem detect_deleted_never_raises env st w :
  exists log' w',
    Mac.detect_deleted env st w = (Ok log', w') /\
    Py.keys log' = Py.keys (Mac.markup_log st) /\
    (forall k e, Py.get (Mac.markup_log st) k = Some e ->
       Py.get log' k = Some e \/
       (k ∈ Mac.deleted_files (Mac.markup_log st) (Mac.current_filenames st) /\
        fs w' !! markup_path env k = None /\
        Py.get log' k = Some (mark_deleted (now_str env) e))) /\
    (forall p,
       (forall k, k ∈ Mac.deleted_files (Mac.markup_log st) (Mac.current_filenames st) ->
                  p <> markup_path env k) ->
       fs w' !! p = fs w !! p).
Proof.
  unfold Mac.detect_deleted.
  set (D := Mac.deleted_files (Mac.markup_log st) (Mac.current_filenames st)).
  destruct (delete_each_any env (elements D) (NoDup_elements D) (Mac.markup_log st) w)
    as (log' & w' & Hrun & Hkeys & Hget & _ & Hframe).
  exists log', w'. split; [exact Hrun|]. split; [exact Hkeys|]. split.
  - intros k e He. destruct (Hget k e He) as [H|(Hin & Hf & H)]; [now left|].
    right. split; [|split; assumption].
    apply elem_of_elements, list_elem_of_In, Hin.
  - intros p Hp. apply Hframe. intros k Hk. apply Hp.
    apply elem_of_elements, list_elem_of_In, Hk.
Qed.

(** ** The order of the entries *)

Lemma record_saved_keys now log safe content :
  Py.keys (Mac.record_saved now log safe content) = Py.keys log \/
  (~ In safe (Py.keys log) /\
   Py.keys (Mac.record_saved now log safe content) = (Py.keys log ++ [safe])%list).
Proof.
  unfold Mac.record_saved. destruct (Py.get log safe) as [e|] eqn:E.
  - left. eapply set_present. exact E.
  - right. split; [now apply get_None_keys|].
    rewrite set_absent by exact E. unfold Py.keys. now rewrite map_app.
Qed.

Lemma step_keys_append env st node :
  exists added,
    Py.keys (Mac.markup_log (step env st node)) =
      (Py.keys (Mac.markup_log st) ++ added)%list /\
    forall k, In k added -> ~ In k (Py.keys (Mac.markup_log st)).
Proof.
  destruct (step_log env st node) as [->|[content ->]].
  - exists []. split; [now rewrite List.app_nil_r|intros k []].
  - destruct (record_saved_keys (now_str env) (Mac.markup_log st)
                (fst (Mac.assign_name (Mac.markup_log st) (Mac.max_number st) node))
                content) as [->|[Hnew ->]].
    + exists []. split; [now rewrite List.app_nil_r|intros k []].
    + eexists [_]. split; [reflexivity|]. intros k [<-|[]]. exact Hnew.
Qed.

Lemma fold_keys_append env nodes :
  forall st, exists added,
    Py.keys (Mac.markup_log (fold_left (step env) nodes st)) =
      (Py.keys (Mac.markup_log st) ++ added)%list /\
    forall k, In k added -> ~ In k (Py.keys (Mac.markup_log st)).
Proof.
  induction nodes as [|node nodes IH]; intros st.
  - exists []. split; [now rewrite List.app_nil_r|intros k []].
  - cbn [fold_left].
    destruct (step_keys_append env st node) as (a1 & H1 & N1).
    destruct (IH (step env st node)) as (a2 & H2 & N2).
    exists (a1 ++ a2)%list. split.
    + rewrite H2, H1. now rewrite <- List.app_assoc.
    + intros k Hk. apply in_app_or in Hk as [Hk|Hk]; [now apply N1|].
      intros Hin. apply (N2 k Hk). rewrite H1. apply in_or_app. now left.
Qed.

(** X14. The reconciliation keeps the entries of the loaded log in their order
    and appends the new ones after them. *)
Theorem reconcile_appends_only env nodes w0 log0 w1 :
  Mac.load_markup_log env w0 = (Ok log0, w1) ->
  exists logF w2 added,
    Mac.reconcile env nodes w0 = (Ok logF, w2) /\
    Py.keys logF = (Py.keys log0 ++ added)%list /\
    forall k, In k added -> ~ In k (Py.keys log0).
Proof.
  intros Hload. unfold Mac.reconcile, bind. rewrite Hload.
  destruct (save_markups_fold env log0 nodes w1) as [w' ->].
  unfold Mac.detect_deleted.
  destruct (delete_each_any env _
              (NoDup_elements
                 (Mac.deleted_files
                    (Mac.markup_log (fold_left (step env) nodes (init_state log0)))
                    (Mac.current_filenames
                       (fold_left (step env) nodes (init_state log0)))))
              (Mac.markup_log (fold_left (step env) nodes (init_state log0))) w')
    as (logF & w2 & -> & Hkeys & _).
  destruct (fold_keys_append env nodes (init_state log0)) as (added & Ha & Hn).
  exists logF, w2, added. split; [reflexivity|]. split; [|exact Hn].
  rewrite Hkeys. exact Ha.
Qed.

Lemma reconcile_appends_only_witness :
  Mac.load_markup_log sample_env sample_world = (Ok sample_loaded, sample_world) /\
  exists logF w2 added,
    Mac.reconcile sample_env sample_nodes sample_world = (Ok logF, w2) /\
    Py.keys logF = (Py.keys sample_loaded ++ added)%list /\
    forall k, In k added -> ~ In k (Py.keys sample_loaded).
Proof.
  split; [exact sample_loaded_eq|].
  exact (reconcile_appends_only sample_env sample_nodes sample_world sample_loaded
           sample_world sample_loaded_eq).
Defined.

(** ** What makes the exit handler fail *)

(** X16. When the markup log exists and cannot be opened for reading,
    [onAppExit] raises that error before any node is saved: no file is
    changed. *)
Theorem unreadable_log_aborts_exit env nodes w text :
  fs w !! Mac.markup_log_file env = Some text ->
  fault env (OpOpenRead (Mac.markup_log_file env)) = true ->
  exists w',
    Mac.onAppExit env nodes w =
      (Raised (OSError (OpOpenRead (Mac.markup_log_file env))), w') /\
    fs w' = fs w.
Proof.
  intros Ht Hf. unfold Mac.onAppExit, Mac.reconcile, Mac.load_markup_log.
  unfold bind, print, path_exists, open_read, io.
  cbn [fs]. rewrite bool_decide_eq_true_2 by (rewrite Ht; eauto).
  unfold bind. rewrite Hf. eexists. split; reflexivity.
Qed.

(** ** More on the report log *)

Lemma concat_lines_of s : concat_lines (Py.lines_of s) = s.
Proof.
  induction s as [|c t IH]; [reflexivity|]. cbn [Py.lines_of].
  destruct (Ascii.eqb c "010").
  - cbn [concat_lines]. now rewrite IH.
  - destruct (Py.lines_of t) as [|h r]; cbn [concat_lines] in *.
    + now rewrite <- IH.
    + rewrite app_cons. now rewrite IH.
Qed.

Lemma update_line_miss env done line :
  Py.startswith line (report_number env +:+ ",") = false ->
  Mac.update_line env done line = line.
Proof. unfold Mac.update_line. now intros ->. Qed.

(** X17. When no line of the report log starts with the report number and a
    comma, the update rewrites the log with its text unchanged (line ends
    normalised) and still prints that the log was updated. *)
Theorem unknown_report_changes_nothing env nodes w text :
  (forall op, fault env op = false) ->
  fs w !! log_csv env = Some text ->
  (forall line, In line (Py.readlines text) ->
                Py.startswith line (report_number env +:+ ",") = false) ->
  exists w',
    Mac.update_report_log env nodes w = (Ok tt, w') /\
    fs w' !! log_csv env = Some (Py.universal_newlines text) /\
    stdout w' = (stdout w ++ [updated_message env nodes])%list.
Proof.
  intros Hnf Htext Hmiss.
  destruct (update_report_log_cases env nodes w)
    as (w' & Hrun & [(e & _ & _ & [[op Hop]|Hnone])|(text' & Ht & Hnew & _ & Hout)]).
  - rewrite Hnf in Hop. discriminate Hop.
  - congruence.
  - exists w'. split; [exact Hrun|]. split; [|exact Hout].
    rewrite Hnew. f_equal. rewrite Htext in Ht. injection Ht as <-.
    unfold new_report_text.
    rewrite (map_ext_in _ (fun l => l)), map_id
      by (intros l Hl; now apply update_line_miss, Hmiss).
    apply concat_lines_of.
Qed.

Lemma no_lead_lstrip s : no_lead (Py.lstrip s).
Proof.
  induction s as [|c t IH]; [exact I|]. cbn [Py.lstrip].
  destruct (Py.isspace c) eqn:Hc; [exact IH|exact Hc].
Qed.

Lemma no_lead_rstrip s : no_lead s -> no_lead (Py.rstrip s).
Proof.
  destruct s as [|c t]; [trivial|]. cbn [no_lead Py.rstrip]. intros Hc.
  destruct (Py.rstrip t); [now rewrite Hc|exact Hc].
Qed.

Lemma rstrip_idem s : Py.rstrip (Py.rstrip s) = Py.rstrip s.
Proof.
  induction s as [|c t IH]; [reflexivity|]. cbn [Py.rstrip].
  destruct (Py.rstrip t) as [|c' t'] eqn:E.
  - destruct (Py.isspace c) eqn:Hc; [reflexivity|]. cbn. now rewrite Hc.
  - cbn [Py.rstrip]. cbn [Py.rstrip] in IH. now rewrite IH.
Qed.

Lemma no_lead_lstrip_id s : no_lead s -> Py.lstrip s = s.
Proof. destruct s as [|c t]; [reflexivity|]. cbn. now intros ->. Qed.

Lemma strip_clean s : no_lead (Py.strip s) /\ Py.rstrip (Py.strip s) = Py.strip s.
Proof.
  unfold Py.strip. split; [apply no_lead_rstrip, no_lead_lstrip|apply rstrip_idem].
Qed.

Lemma strip_fixed s : no_lead s -> Py.rstrip s = s -> Py.strip s = s.
Proof. intros H1 H2. unfold Py.strip. now rewrite (no_lead_lstrip_id _ H1). Qed.

Lemma rstrip_suffix a b :
  b <> "" -> Py.rstrip (a +:+ b) = a +:+ b -> Py.rstrip b = b.
Proof.
  intros Hb. induction a as [|c a IH]; [now rewrite app_nil_l|].
  rewrite app_cons. cbn [Py.rstrip].
  destruct (Py.rstrip (a +:+ b)) as [|c' t'] eqn:E.
  - destruct (Py.isspace c); intros H; [discriminate H|].
    injection H as H. destruct a; [rewrite app_nil_l in H; congruence|discriminate H].
  - intros H. injection H as H. apply IH. exact H.
Qed.

Lemma join_cons sep p q r :
  Py.join sep (p :: q :: r) = p +:+ sep +:+ Py.join sep (q :: r).
Proof. reflexivity. Qed.

Lemma join_split s sep : Py.join (String sep "") (Py.split s sep) = s.
Proof.
  induction s as [|c t IH]; [reflexivity|]. rewrite split_cons_cases.
  destruct (Ascii.eqb_spec c sep) as [->|Hne].
  - destruct (Py.split t sep) as [|h r] eqn:E; [now apply split_nonempty in E|].
    rewrite join_cons, IH. reflexivity.
  - destruct (Py.split t sep) as [|h r] eqn:E; [now apply split_nonempty in E|].
    destruct r as [|h' r'].
    + cbn [Py.join] in *. now rewrite IH.
    + rewrite join_cons in *. rewrite app_cons. now rewrite IH.
Qed.

Lemma no_lead_app s t : s <> "" -> no_lead s -> no_lead (s +:+ t).
Proof. destruct s as [|c s]; [congruence|]. intros _ H. exact H. Qed.

Lemma no_lead_head p X Y :
  no_lead (p +:+ Y) -> no_lead (p +:+ String "," X).
Proof. destruct p as [|c p]; [intros _; reflexivity|]. intros H. exact H. Qed.

Lemma pad3_long parts : (3 <= length parts)%nat -> pad3 parts = parts.
Proof.
  intros H. unfold pad3. replace (3 - length parts)%nat with 0%nat by lia.
  apply List.app_nil_r.
Qed.

Lemma new_parts_clean done s :
  no_lead s -> Py.rstrip s = s -> Py.rstrip done = done ->
  no_lead (Py.join "," (<[2%nat := done]> (pad3 (Py.split s ",")))) /\
  Py.rstrip (Py.join "," (<[2%nat := done]> (pad3 (Py.split s ",")))) =
  Py.join "," (<[2%nat := done]> (pad3 (Py.split s ","))).
Proof.
  intros Hl Hr Hd. pose proof (join_split s ",") as Hs.
  assert (Hend : Py.rstrip (String "," done) = String "," done)
    by (apply rstrip_cons_keep; [reflexivity|exact Hd]).
  destruct (Py.split s ",") as [|p0 [|p1 [|p2 [|p3 r]]]] eqn:E;
    [now apply split_nonempty in E| | | |].
  - change (<[2%nat := done]> (pad3 [p0])) with [p0; ""; done].
    cbn [Py.join] in Hs. subst p0. split.
    + cbn [Py.join]. apply (no_lead_head s _ ""). now rewrite app_nil_r.
    + replace (Py.join "," [s; ""; done]) with ((s +:+ ",") +:+ String "," done)
        by (cbn [Py.join]; rewrite !app_assoc; reflexivity).
      apply rstrip_app_keep; [discriminate|exact Hend].
  - change (<[2%nat := done]> (pad3 [p0; p1])) with [p0; p1; done]. split.
    + rewrite join_cons. rewrite <- Hs in Hl. rewrite join_cons in Hl.
      exact (no_lead_head p0 _ _ Hl).
    + replace (Py.join "," [p0; p1; done]) with ((p0 +:+ "," +:+ p1) +:+ String "," done)
        by (cbn [Py.join]; rewrite !app_assoc; reflexivity).
      apply rstrip_app_keep; [discriminate|exact Hend].
  - change (<[2%nat := done]> (pad3 [p0; p1; p2])) with [p0; p1; done]. split.
    + rewrite join_cons. rewrite <- Hs in Hl. rewrite join_cons in Hl.
      exact (no_lead_head p0 _ _ Hl).
    + replace (Py.join "," [p0; p1; done]) with ((p0 +:+ "," +:+ p1) +:+ String "," done)
        by (cbn [Py.join]; rewrite !app_assoc; reflexivity).
      apply rstrip_app_keep; [discriminate|exact Hend].
  - rewrite pad3_long by (cbn [length]; lia).
    change (<[2%nat := done]> (p0 :: p1 :: p2 :: p3 :: r))
      with (p0 :: p1 :: done :: p3 :: r).
    split.
    + rewrite join_cons. rewrite <- Hs in Hl. rewrite join_cons in Hl.
      exact (no_lead_head p0 _ _ Hl).
    + assert (Hs' : s = (p0 +:+ "," +:+ p1 +:+ "," +:+ p2) +:+
                        String "," (Py.join "," (p3 :: r)))
        by (rewrite <- Hs, !join_cons, !app_assoc; reflexivity).
      replace (Py.join "," (p0 :: p1 :: done :: p3 :: r))
        with ((p0 +:+ "," +:+ p1 +:+ "," +:+ done) +:+
              String "," (Py.join "," (p3 :: r)))
        by (rewrite !join_cons, !app_assoc; reflexivity).
      apply rstrip_app_keep; [discriminate|].
      apply (rstrip_suffix (p0 +:+ "," +:+ p1 +:+ "," +:+ p2)); [discriminate|].
      clear Hs E Hl. subst s. exact Hr.
Qed.

Lemma update_row_idempotent done line :
  Py.char_in "," done = false -> Py.rstrip done = done ->
  Mac.update_row done (Mac.update_row done line) = Mac.update_row done line.
Proof.
  intros Hc Hd. rewrite (update_row_eq done (Mac.update_row done line)).
  rewrite (update_row_eq done line) at 1. rewrite strip_complete.
  destruct (strip_clean line) as [Hl Hr].
  destruct (new_parts_clean done (Py.strip line) Hl Hr Hd) as [Hl' Hr'].
  rewrite (strip_fixed _ Hl' Hr').
  rewrite split_join.
  - rewrite pad3_long.
    + rewrite list_insert_insert_eq. symmetry. apply update_row_eq.
    + rewrite length_insert. apply pad3_length.
  - intros E. apply (f_equal (@length string)) in E.
    rewrite length_insert in E. pose proof (pad3_length (Py.split (Py.strip line) ",")).
    cbn in E. lia.
  - apply new_parts_forall; [reflexivity|exact Hc|apply split_forall_no_sep].
Qed.

Lemma update_line_idempotent env done line :
  Py.char_in "," done = false -> Py.rstrip done = done ->
  Mac.update_line env done (Mac.update_line env done line) =
  Mac.update_line env done line.
Proof.
  intros Hc Hd. unfold Mac.update_line.
  destruct (Py.startswith line (report_number env +:+ ",")) eqn:E.
  - destruct (Py.startswith (Mac.update_row done line) _);
      [now apply update_row_idempotent|reflexivity].
  - now rewrite E.
Qed.

Lemma done_status_trimmed nodes :
  Py.rstrip (Mac.done_status_of nodes) = Mac.done_status_of nodes.
Proof. rewrite done_status_cases. now destruct nodes. Qed.

Lemma new_report_text_idempotent env nodes text :
  new_report_text env nodes (new_report_text env nodes text) =
  new_report_text env nodes text.
Proof.
  unfold new_report_text at 1.
  replace (Py.readlines (new_report_text env nodes text))
    with (map (Mac.update_line env (Mac.done_status_of nodes)) (Py.readlines text)).
  - rewrite map_map. unfold new_report_text. f_equal. apply map_ext. intros l.
    apply update_line_idempotent; [apply done_status_plain|apply done_status_trimmed].
  - symmetry. unfold new_report_text. apply readlines_concat, update_lines_ok.
    + apply done_status_plain.
    + apply readlines_ok.
Qed.

(** X18. Updating the report log a second time with the same nodes leaves the
    text that the first update wrote. *)
Theorem report_log_update_is_idempotent env nodes w text :
  (forall op, fault env op = false) ->
  fs w !! log_csv env = Some text ->
  exists w1 w2,
    Mac.update_report_log env nodes w = (Ok tt, w1) /\
    Mac.update_report_log env nodes w1 = (Ok tt, w2) /\
    fs w2 !! log_csv env = fs w1 !! log_csv env.
Proof.
  intros Hnf Htext.
  destruct (update_report_log_no_fault env nodes w text Hnf Htext) as (w1 & Hrun1 & H1).
  destruct (update_report_log_no_fault env nodes w1 _ Hnf H1) as (w2 & Hrun2 & H2).
  exists w1, w2. split; [exact Hrun1|]. split; [exact Hrun2|].
  rewrite H1, H2. f_equal. apply new_report_text_idempotent.
Qed.

(** ** The Windows script *)

Lemma subst_char_absent c new s :
  Py.char_in c s = false -> subst_char c new s = s.
Proof.
  induction s as [|x t IH]; [reflexivity|]. cbn [Py.char_in subst_char]. intros H.
  apply orb_false_iff in H as [Hx Ht]. rewrite Ascii.eqb_sym in Hx.
  now rewrite Hx, (IH Ht).
Qed.

Lemma subst_char_clean c new s :
  Py.char_in c new = false -> Py.char_in c (subst_char c new s) = false.
Proof.
  intros Hn. induction s as [|x t IH]; [reflexivity|]. cbn [subst_char].
  destruct (Ascii.eqb_spec c x) as [->|Hne].
  - now rewrite char_in_app, Hn, IH.
  - cbn [Py.char_in]. rewrite IH, orb_false_r. now apply Ascii.eqb_neq.
Qed.

Lemma str_contains_app a sub b : str_contains (a +:+ sub +:+ b) sub = true.
Proof.
  induction a as [|c a IH].
  - rewrite app_nil_l. destruct (sub +:+ b) eqn:E; cbn [str_contains];
      rewrite <- E, prefix_app; reflexivity.
  - rewrite app_cons. cbn [str_contains]. rewrite IH. apply orb_true_r.
Qed.

Lemma str_contains_split s sub :
  str_contains s sub = true -> exists a b, s = a +:+ sub +:+ b.
Proof.
  induction s as [|c t IH]; cbn [str_contains]; intros H.
  - rewrite orb_false_r in H. apply prefix_split in H as [r Hr].
    exists "", r. now rewrite app_nil_l.
  - apply orb_true_iff in H as [H|H].
    + apply prefix_split in H as [r Hr]. exists "", r. now rewrite app_nil_l.
    + destruct (IH H) as (a & b & ->). exists (String c a), b. now rewrite app_cons.
Qed.

Lemma string_app_inv_tail (s s' t : string) : s +:+ t = s' +:+ t -> s = s'.
Proof.
  revert s'. induction s as [|c s IH]; intros s' H.
  - destruct s' as [|c' s']; [reflexivity|]. exfalso.
    apply (f_equal String.length) in H. rewrite app_nil_l, app_length in H.
    cbn [String.length] in H. lia.
  - destruct s' as [|c' s'].
    + exfalso. apply (f_equal String.length) in H.
      rewrite app_nil_l, app_length in H. cbn [String.length] in H. lia.
    + rewrite !app_cons in H. injection H as -> H. f_equal. now apply IH.
Qed.

Lemma safe_name_stem node : Win.safe_name node = stem_of node +:+ ".json".
Proof. unfold Win.safe_name, stem_of. now destruct (negb _). Qed.

Lemma stem_no_space node : Py.char_in " " (stem_of node) = false.
Proof.
  unfold stem_of. destruct (negb _); rewrite replace_char; now apply subst_char_clean.
Qed.

(** X19. The file name that the Windows script gives a node holds no space and
    ends in [.json]. *)
Theorem windows_name_has_no_space (node : MarkupNode) :
  Py.char_in " " (Win.safe_name node) = false /\
  Py.endswith (Win.safe_name node) ".json" = true.
Proof.
  rewrite safe_name_stem. split.
  - now rewrite char_in_app, stem_no_space.
  - induction (stem_of node) as [|c s IH]; [reflexivity|].
    rewrite app_cons. cbn [Py.endswith]. rewrite IH. apply orb_true_r.
Qed.

Lemma stem_tagged node :
  String.prefix "vtkMRMLMarkups" (GetID node) = true ->
  str_contains (stem_of node) "_vtkMRMLMarkups" = true.
Proof.
  intros Hid. unfold stem_of.
  destruct (str_contains (GetName node) "_vtkMRMLMarkups") eqn:E; cbn [negb].
  - apply str_contains_split in E as (a & b & ->).
    rewrite replace_char, !subst_char_app.
    rewrite (subst_char_absent " " "_" "_vtkMRMLMarkups") by reflexivity.
    apply str_contains_app.
  - apply prefix_split in Hid as [r ->].
    rewrite replace_char, !subst_char_app.
    rewrite (subst_char_absent " " "_" "vtkMRMLMarkups") by reflexivity.
    change (subst_char " " "_" "_") with "_".
    rewrite <- (app_assoc "_" "vtkMRMLMarkups"). apply str_contains_app.
Qed.

(** X20. In the Windows script, a node whose ID starts with [vtkMRMLMarkups]
    and a node that carries the name of its file without [.json] get the same
    file name. *)
Theorem windows_name_is_stable (node node' : MarkupNode) :
  String.prefix "vtkMRMLMarkups" (GetID node) = true ->
  GetName node' +:+ ".json" = Win.safe_name node ->
  Win.safe_name node' = Win.safe_name node.
Proof.
  intros Hid Hname. rewrite safe_name_stem in Hname. apply string_app_inv_tail in Hname.
  rewrite (safe_name_stem node). unfold Win.safe_name. rewrite Hname.
  rewrite (stem_tagged node Hid). cbn [negb].
  now rewrite replace_char, (subst_char_absent _ _ _ (stem_no_space node)).
Qed.

Lemma win_save_markup_outcome env pj st node w :
  exists st' w',
    Win.save_markup env pj st node w = (Ok st', w') /\
    Win.current_filenames st' = {[ Win.safe_name node ]} ∪ Win.current_filenames st /\
    (Win.markup_log st' = Win.markup_log st \/
     exists content,
       Win.markup_log st' =
       Mac.record_saved (now_str env) (Win.markup_log st) (Win.safe_name node) content).
Proof.
  unfold Win.save_markup, try_except.
  destruct (saveNode env node _) as [text| |e].
  - unfold bind at 1, set_fs. unfold bind at 1, print. unfold bind at 1, read_text.
    unfold bind at 1, io. destruct (fault env _).
    + eexists _, _. split; [reflexivity|]. split; [reflexivity|now left].
    + cbn [ret fs]. rewrite lookup_insert_eq.
      destruct (json_reload env _).
      * eexists _, _. split; [reflexivity|]. split; [reflexivity|]. right. eauto.
      * eexists _, _. split; [reflexivity|]. split; [reflexivity|now left].
  - eexists _, _. split; [reflexivity|]. split; [reflexivity|now left].
  - eexists _, _. split; [reflexivity|]. split; [reflexivity|now left].
Qed.

Lemma win_save_each env pj nodes :
  forall st w, exists st' w',
    for_each nodes (Win.save_markup env pj) st w = (Ok st', w') /\
    Win.current_filenames st' =
      list_to_set (map Win.safe_name nodes) ∪ Win.current_filenames st /\
    (forall k, In k (Py.keys (Win.markup_log st)) ->
               In k (Py.keys (Win.markup_log st'))) /\
    (forall k, In k (Py.keys (Win.markup_log st')) ->
               In k (Py.keys (Win.markup_log st)) \/ k ∈ Win.current_filenames st').
Proof.
  induction nodes as [|node nodes IH]; intros st w.
  - eexists _, _. split; [reflexivity|]. cbn [map list_to_set].
    split; [now rewrite union_empty_l_L|]. split; auto.
  - cbn [for_each]. unfold bind.
    destruct (win_save_markup_outcome env pj st node w) as (st1 & w1 & -> & Hcur & Hlog).
    destruct (IH st1 w1) as (st' & w' & Hrun & Hcur' & Hgrow & Hnew).
    exists st', w'. split; [exact Hrun|].
    assert (Hkeys1 : forall k, In k (Py.keys (Win.markup_log st1)) <->
                               k = Win.safe_name node /\
                               Win.markup_log st1 <> Win.markup_log st \/
                               In k (Py.keys (Win.markup_log st))).
    { intros k. destruct Hlog as [->|[content ->]]; [tauto|].
      destruct (record_saved_set (now_str env) (Win.markup_log st)
                  (Win.safe_name node) content) as (e & -> & _).
      rewrite in_keys_set. split; [|tauto].
      intros [->|H]; [|tauto].
      destruct (in_dec string_dec (Win.safe_name node) (Py.keys (Win.markup_log st)));
        [tauto|].
      left. split; [reflexivity|]. intros E.
      apply n. rewrite <- E. apply in_keys_set. now left. }
    split; [|split].
    + rewrite Hcur', Hcur. cbn [map list_to_set]. apply set_eq. intros x.
      rewrite !elem_of_union. tauto.
    + intros k Hk. apply Hgrow, Hkeys1. now right.
    + intros k Hk. destruct (Hnew k Hk) as [H|H]; [|now right].
      apply Hkeys1 in H as [[-> _]|H]; [|now left].
      right. rewrite Hcur', Hcur.
      apply elem_of_union_r, elem_of_union_l, elem_of_singleton. reflexivity.
Qed.

(** X21. In the Windows script the loop over the nodes always ends normally,
    the current file names are the names of the nodes, and the deleted files
    are the file names of the loaded log that are the name of no node. *)
Theorem windows_deleted_markups env pj log0 nodes w :
  exists st w',
    Win.save_markups env pj log0 nodes w = (Ok st, w') /\
    Win.current_filenames st = list_to_set (map Win.safe_name nodes) /\
    Win.deleted_files st =
      list_to_set (Py.keys log0) ∖ list_to_set (map Win.safe_name nodes).
Proof.
  unfold Win.save_markups.
  destruct (win_save_each env pj nodes (Win.LoopState log0 ∅) w)
    as (st & w' & Hrun & Hcur & Hgrow & Hnew).
  cbn [Win.markup_log Win.current_filenames] in *.
  rewrite union_empty_r_L in Hcur.
  exists st, w'. split; [exact Hrun|]. split; [exact Hcur|].
  unfold Win.deleted_files. rewrite Hcur. apply set_eq. intros k.
  rewrite !elem_of_difference, !elem_of_list_to_set, !list_elem_of_In.
  split.
  - intros [Hk Hn]. split; [|exact Hn].
    destruct (Hnew k Hk) as [H|H]; [exact H|].
    rewrite Hcur, elem_of_list_to_set, list_elem_of_In in H. tauto.
  - intros [Hk Hn]. split; [now apply Hgrow|exact Hn].
Qed.

(** ** More on the xlsx script *)

Lemma classify_known class_name t :
  known_class class_name = true -> exists t', Xlsx.classify class_name t = Some t'.
Proof.
  unfold known_class, Xlsx.classify. intros H.
  destruct (String.eqb class_name "vtkMRMLMarkupsFiducialNode"); [eauto|].
  destruct (String.eqb class_name "vtkMRMLMarkupsLineNode"); [eauto|].
  destruct (String.eqb class_name "vtkMRMLMarkupsROINode"); [eauto|discriminate H].
Qed.

Lemma classify_unknown class_name t :
  known_class class_name = false -> Xlsx.classify class_name t = t.
Proof.
  unfold known_class, Xlsx.classify. intros H.
  destruct (String.eqb class_name "vtkMRMLMarkupsFiducialNode"); [discriminate H|].
  destruct (String.eqb class_name "vtkMRMLMarkupsLineNode"); [discriminate H|].
  destruct (String.eqb class_name "vtkMRMLMarkupsROINode"); [discriminate H|reflexivity].
Qed.

Lemma xlsx_step_total env st node :
  known_class (GetClassName node) = true ->
  (forall path e, saveNode env node path = SaveRaises e -> is_OSError e = true) ->
  exists st', xlsx_step env st node = Ok st'.
Proof.
  intros Hk Hos. unfold xlsx_step.
  destruct (Py.truthy _).
  - destruct (saveNode env node _) as [text| |e] eqn:Hs; [eauto|eauto|].
    rewrite (Hos _ _ Hs). eauto.
  - destruct (classify_known _ (Xlsx.markup_type st) Hk) as [t ->].
    destruct (saveNode env node _) as [text| |e] eqn:Hs; [eauto|eauto|].
    rewrite (Hos _ _ Hs). eauto.
Qed.

Lemma xlsx_save_each_total env nodes :
  Forall (fun node => known_class (GetClassName node) = true) nodes ->
  (forall node path e, saveNode env node path = SaveRaises e -> is_OSError e = true) ->
  forall st w, exists st' w',
    for_each nodes (Xlsx.save_markup env) st w = (Ok st', w').
Proof.
  intros Hk Hos. induction Hk as [|node nodes Hn _ IH]; intros st w.
  - eexists _, _. reflexivity.
  - cbn [for_each]. unfold bind.
    destruct (xlsx_save_markup_step env st node w) as [w1 ->].
    destruct (xlsx_step_total env st node Hn (Hos node)) as [st1 ->].
    apply IH.
Qed.

(** X22. In the xlsx script, when every node is a fiducial, line or ROI node
    and [saveNode] raises nothing but [OSError], the reconciliation ends
    normally. *)
Theorem xlsx_known_classes_complete env log0 nodes w :
  Forall (fun node => known_class (GetClassName node) = true) nodes ->
  (forall node path e, saveNode env node path = SaveRaises e -> is_OSError e = true) ->
  exists logF w', Xlsx.reconcile env log0 nodes w = (Ok logF, w').
Proof.
  intros Hk Hos. unfold Xlsx.reconcile, bind, Xlsx.save_markups.
  destruct (xlsx_save_each_total env nodes Hk Hos
              (Xlsx.LoopState log0 (Xlsx.last_number log0) ∅ None []) w)
    as (st & w1 & ->).
  unfold Xlsx.detect_deleted.
  destruct (xlsx_delete_each_created env
              (elements (Xlsx.deleted_files (Xlsx.markup_log st)
                           (Xlsx.current_filenames st)))
              (Xlsx.markup_log st) w1) as (logF & w' & -> & _).
  eauto.
Qed.

(** X23. In the xlsx script, a node of another class that matches no entry,
    met before any node has set [markup_type], ends the reconciliation with
    [UnboundLocalError]; the files saved so far stay. *)
Theorem xlsx_unknown_class_aborts env log0 pre node post w0 st w :
  Xlsx.save_markups env log0 pre w0 = (Ok st, w) ->
  Xlsx.markup_type st = None ->
  Py.truthy (Xlsx.find_existing (Xlsx.markup_log st) (Py.strip (GetName node)))
    = false ->
  known_class (GetClassName node) = false ->
  Xlsx.reconcile env log0 (pre ++ node :: post) w0 =
  (Raised (UnboundLocalError "markup_type"), w).
Proof.
  intros Hpre Htype Hnew Hclass.
  unfold Xlsx.reconcile. unfold bind at 1. unfold Xlsx.save_markups in *.
  rewrite for_each_app. unfold bind at 1. rewrite Hpre.
  cbn [for_each]. unfold bind at 1.
  destruct (xlsx_save_markup_step env st node w) as [w1 Hs].
  assert (Hstep : xlsx_step env st node = Raised (UnboundLocalError "markup_type")).
  { unfold xlsx_step. rewrite Hnew, (classify_unknown _ _ Hclass), Htype. reflexivity. }
  assert (Hw : w1 = w).
  { revert Hs. unfold Xlsx.save_markup.
    rewrite Hnew, (classify_unknown _ _ Hclass), Htype. unfold raise.
    intros H. now injection H. }
  rewrite Hs, Hstep, Hw. reflexivity.
Qed.

Lemma digits_no_dot s : all_chars is_digit s = true -> Py.char_in "." s = false.
Proof. intros H. now apply (all_chars_not_in is_digit). Qed.

(** X24. In the xlsx script, a node whose stripped name is a generated name
    without [.json], that name being in the log, matches an entry with that
    stem. *)
Theorem xlsx_generated_name_is_reused (log : Py.dict Xlsx.entry) t n node :
  Py.char_in "." t = false -> (0 <= n)%Z ->
  Py.strip (GetName node) = t +:+ "_" +:+ Py.str n ->
  In (t +:+ "_" +:+ Py.str n +:+ ".json") (Py.keys log) ->
  exists f,
    Xlsx.find_existing log (Py.strip (GetName node)) = Some f /\
    In f (Py.keys log) /\
    Py.replace f ".json" "" = Py.strip (GetName node) /\
    Py.truthy (Some f) = true.
Proof.
  intros Ht Hn Hname Hin. unfold Xlsx.find_existing.
  destruct (find _ (Py.keys log)) as [f|] eqn:E.
  - apply find_some in E as [Hf Heq]. apply String.eqb_eq in Heq.
    exists f. repeat split; [exact Hf|exact Heq|].
    destruct f; [|reflexivity]. rewrite Hname in Heq.
    destruct t; discriminate Heq.
  - exfalso. apply (find_none _ _ E) in Hin.
    rewrite Hname in Hin. apply String.eqb_neq in Hin. apply Hin.
    rewrite <- !app_assoc. apply replace_from_json_suffix.
    rewrite !char_in_app, Ht, (digits_no_dot _ (str_digits n Hn)). reflexivity.
Qed.

Lemma subst_char_same_length c d s :
  String.length (subst_char c (String d "") s) = String.length s.
Proof.
  induction s as [|x s IH]; [reflexivity|]. cbn [subst_char].
  destruct (Ascii.eqb c x); [rewrite app_cons, app_nil_l|]; cbn [String.length];
    now rewrite IH.
Qed.

(** X25. The name of the error workbook holds no colon and is eleven
    characters longer than the timestamp. *)
Theorem error_filename_has_no_colon (now_str : string) :
  Py.char_in ":" (error_filename now_str) = false /\
  String.length (error_filename now_str) = (String.length now_str + 11)%nat.
Proof.
  unfold error_filename. rewrite replace_char. split.
  - rewrite char_in_app, subst_char_clean by reflexivity. reflexivity.
  - rewrite app_length, subst_char_same_length. reflexivity.
Qed.

(** ** The checks of the test suite *)

Lemma duplicates_nil l :
  Tests.duplicates l = [] <-> forall x, (count_occ string_dec l x <= 1)%nat.
Proof.
  unfold Tests.duplicates. split.
  - intros H x. destruct (in_dec string_dec x l) as [Hin|Hin].
    + destruct (Nat.ltb_spec 1 (count_occ string_dec l x)) as [Hlt|]; [|assumption].
      assert (Hx : In x (List.filter
                (fun num => (1 <? count_occ string_dec l num)%nat) l)).
      { apply filter_In. split; [exact Hin|]. now apply Nat.ltb_lt. }
      rewrite H in Hx. destruct Hx.
    + apply (count_occ_not_In string_dec) in Hin. lia.
  - intros H. destruct (List.filter _ l) as [|x r] eqn:E; [reflexivity|].
    assert (Hx : In x (List.filter
              (fun num => (1 <? count_occ string_dec l num)%nat) l))
      by (rewrite E; now left).
    apply filter_In in Hx as [_ Hx]. apply Nat.ltb_lt in Hx. specialize (H x). lia.
Qed.

Lemma unique_duplicates_nil l :
  Tests.unique_duplicates l = [] <-> Tests.duplicates l = [].
Proof.
  unfold Tests.unique_duplicates. split.
  - intros H. destruct (Tests.duplicates l) as [|x r]; [reflexivity|].
    assert (Hx : x ∈ elements (list_to_set (x :: r) : gset string)).
    { apply elem_of_elements, elem_of_list_to_set. now left. }
    rewrite H in Hx. inversion Hx.
  - intros ->. apply elements_empty.
Qed.

(** X26. The assertion of [test_no_duplicate_reports] holds exactly when the
    report numbers are pairwise distinct. *)
Theorem duplicate_test_checks_distinctness (report_numbers : list string) :
  Tests.test_no_duplicate_reports report_numbers = true <-> NoDup report_numbers.
Proof.
  unfold Tests.test_no_duplicate_reports.
  rewrite Nat.eqb_eq, length_zero_iff_nil, unique_duplicates_nil, duplicates_nil.
  rewrite NoDup_ListNoDup. symmetry. apply (NoDup_count_occ string_dec).
Qed.

Lemma range_from_1 n :
  Tests.range 1 (Z.of_nat n + 1) = map (fun i => (1 + Z.of_nat i)%Z) (seq 0 n).
Proof.
  unfold Tests.range. replace (Z.to_nat (Z.of_nat n + 1 - 1)) with n by lia.
  reflexivity.
Qed.

Lemma range_sorted lo n :
  StronglySorted Z.le (map (fun i => (1 + Z.of_nat i)%Z) (seq lo n)).
Proof.
  revert lo. induction n as [|n IH]; intros lo; cbn [seq map]; constructor.
  - apply IH.
  - apply Forall_forall. intros x Hx. apply list_elem_of_In, in_map_iff in Hx.
    destruct Hx as (i & <- & Hi). apply in_seq in Hi. lia.
Qed.

(** X27. [test_report_numbers_are_sequential] passes exactly when the list of
    report numbers is not empty and is a permutation of 1, ..., n. *)
Theorem sequence_test_checks_permutation (report_numbers : list Z) :
  Tests.test_report_numbers_are_sequential report_numbers = Tests.Passed <->
  report_numbers <> [] /\
  Permutation report_numbers
    (Tests.range 1 (Z.of_nat (length report_numbers) + 1)).
Proof.
  unfold Tests.test_report_numbers_are_sequential.
  destruct report_numbers as [|x l]; [split; [discriminate|intros [H _]; congruence]|].
  set (nums := x :: l).
  pose proof (merge_sort_Permutation Z.le nums) as Hperm.
  assert (Hlen : length (merge_sort Z.le nums) = length nums)
    by (now apply Permutation_length).
  rewrite Hlen. split.
  - destruct (negb _); [discriminate|]. case_bool_decide as Heq; [|discriminate].
    intros _. split; [discriminate|]. rewrite <- Heq. now symmetry.
  - intros [_ H].
    assert (Heq : merge_sort Z.le nums =
                  Tests.range 1 (Z.of_nat (length nums) + 1)).
    { apply (StronglySorted_unique Z.le).
      - apply StronglySorted_merge_sort; apply _.
      - rewrite range_from_1. apply range_sorted.
      - now rewrite Hperm. }
    rewrite Heq, bool_decide_eq_true_2 by reflexivity.
    rewrite range_from_1. reflexivity.
Qed.

(** ** Sample runs of the further properties *)

Lemma decode_filename_without_underscore_witness :
  Py.char_in "_" "Spine L1" = false /\ decode_filename "Spine L1" = "Spine L1".
Proof.
  split; [reflexivity|]. apply decode_filename_without_underscore. reflexivity.
Defined.

Lemma loader_takes_rows_of_four_fields_witness :
  Mac.parse_line [] ("F_1.json,2025-06-01T12:00:00,[1; 2],2025-06-02, late" +:+ LF) =
  [("F_1.json", Mac.Entry "2025-06-01T12:00:00" "[1; 2]" "2025-06-02, late")] /\
  Mac.parse_line [] ("F_1.json,2025-06-01T12:00:00,[1; 2]" +:+ LF) = [].
Proof.
  split.
  - apply (proj1 (loader_takes_rows_of_four_fields [] _)
             "F_1.json" "2025-06-01T12:00:00" "[1; 2]" "2025-06-02, late");
      reflexivity.
  - apply (proj2 (loader_takes_rows_of_four_fields [] _)). vm_compute. lia.
Defined.

Lemma sample_rows_ok : Forall row_ok sample_rows.
Proof. repeat constructor. Qed.

Lemma sample_rows_NoDup : NoDup (Py.keys sample_rows).
Proof.
  repeat constructor; cbn; rewrite ?list_elem_of_In; cbn; intuition discriminate.
Qed.

Lemma written_log_reloads_quoted_witness :
  (forall op, fault sample_env op = false) /\
  NoDup (Py.keys sample_rows) /\
  Forall row_ok sample_rows /\
  exists w',
    Mac.write_markup_log sample_env sample_rows (World ∅ []) = (Ok tt, w') /\
    fs w' = <[Mac.markup_log_file sample_env := Mac.format_markup_log sample_rows]> ∅ /\
    Mac.load_markup_log sample_env w' = (Ok (quoted_log sample_rows), w').
Proof.
  split; [exact sample_no_fault|]. split; [exact sample_rows_NoDup|].
  split; [exact sample_rows_ok|].
  exact (written_log_reloads_quoted sample_env sample_rows (World ∅ [])
           sample_no_fault sample_rows_NoDup sample_rows_ok).
Defined.

Lemma unreadable_log_aborts_exit_witness :
  fs sample_world !! Mac.markup_log_file (sample_env_with "7" log_unreadable) =
    Some (Mac.format_markup_log sample_log) /\
  fault (sample_env_with "7" log_unreadable)
        (OpOpenRead (Mac.markup_log_file (sample_env_with "7" log_unreadable))) = true /\
  exists w',
    Mac.onAppExit (sample_env_with "7" log_unreadable) sample_nodes sample_world =
      (Raised (OSError (OpOpenRead "/data/session1/markup_log.csv")), w') /\
    fs w' = fs sample_world.
Proof.
  split; [reflexivity|]. split; [reflexivity|].
  apply (unreadable_log_aborts_exit (sample_env_with "7" log_unreadable) sample_nodes
           sample_world (Mac.format_markup_log sample_log)); reflexivity.
Defined.

Lemma no_row_of_report_9 line :
  In line (Py.readlines sample_report_text) ->
  Py.startswith line (report_number (sample_env_with "9" (fun _ => false)) +:+ ",") = false.
Proof.
  intros H. vm_compute in H. repeat (destruct H as [<-|H]; [reflexivity|]). destruct H.
Qed.

Lemma unknown_report_changes_nothing_witness :
  fs sample_world !! log_csv (sample_env_with "9" (fun _ => false)) =
    Some sample_report_text /\
  exists w',
    Mac.update_report_log (sample_env_with "9" (fun _ => false)) sample_nodes sample_world =
      (Ok tt, w') /\
    fs w' !! "/data/log.csv" = Some (Py.universal_newlines sample_report_text) /\
    stdout w' = ["Updated log for report 9 to Done=True"].
Proof.
  split; [reflexivity|].
  exact (unknown_report_changes_nothing (sample_env_with "9" (fun _ => false))
           sample_nodes sample_world sample_report_text
           (fun _ => eq_refl) eq_refl no_row_of_report_9).
Defined.

Lemma report_log_update_is_idempotent_witness :
  (forall op, fault sample_env op = false) /\
  fs sample_world !! log_csv sample_env = Some sample_report_text /\
  exists w1 w2,
    Mac.update_report_log sample_env sample_nodes sample_world = (Ok tt, w1) /\
    Mac.update_report_log sample_env sample_nodes w1 = (Ok tt, w2) /\
    fs w2 !! log_csv sample_env = fs w1 !! log_csv sample_env.
Proof.
  split; [exact sample_no_fault|]. split; [exact sample_report_present|].
  exact (report_log_update_is_idempotent sample_env sample_nodes sample_world
           sample_report_text sample_no_fault sample_report_present).
Defined.

Lemma windows_name_is_stable_witness :
  String.prefix "vtkMRMLMarkups" (GetID node_F) = true /\
  GetName node_reloaded_win +:+ ".json" = Win.safe_name node_F /\
  Win.safe_name node_reloaded_win = Win.safe_name node_F.
Proof.
  split; [reflexivity|]. split; [reflexivity|].
  apply windows_name_is_stable; reflexivity.
Defined.

Lemma sample_saveNode_no_raise node path e :
  saveNode sample_env node path = SaveRaises e -> is_OSError e = true.
Proof. cbn. destruct (String.eqb _ _); discriminate. Qed.

Lemma sample_nodes_known :
  Forall (fun node => known_class (GetClassName node) = true) sample_nodes.
Proof. repeat constructor. Qed.

Lemma xlsx_known_classes_complete_witness :
  Forall (fun node => known_class (GetClassName node) = true) sample_nodes /\
  exists logF w', Xlsx.reconcile sample_env [] sample_nodes sample_world = (Ok logF, w').
Proof.
  split; [exact sample_nodes_known|].
  exact (xlsx_known_classes_complete sample_env [] sample_nodes sample_world
           sample_nodes_known sample_saveNode_no_raise).
Defined.

Lemma xlsx_unknown_class_aborts_witness :
  Xlsx.save_markups sample_env [] [] sample_world = (Ok (xlsx_init []), sample_world) /\
  Xlsx.markup_type (xlsx_init []) = None /\
  known_class (GetClassName node_curve) = false /\
  Xlsx.reconcile sample_env [] [node_curve; node_F] sample_world =
  (Raised (UnboundLocalError "markup_type"), sample_world).
Proof.
  split; [reflexivity|]. split; [reflexivity|]. split; [reflexivity|].
  apply (xlsx_unknown_class_aborts sample_env [] [] node_curve [node_F] sample_world
           (xlsx_init []) sample_world); reflexivity.
Defined.

Lemma xlsx_generated_name_is_reused_witness :
  Py.strip (GetName node_point_3) = "point" +:+ "_" +:+ Py.str 3 /\
  exists f,
    Xlsx.find_existing sample_xlsx_log (Py.strip (GetName node_point_3)) = Some f /\
    In f (Py.keys sample_xlsx_log) /\
    Py.replace f ".json" "" = Py.strip (GetName node_point_3) /\
    Py.truthy (Some f) = true.
Proof.
  split; [reflexivity|].
  apply (xlsx_generated_name_is_reused sample_xlsx_log "point" 3 node_point_3).
  - reflexivity.
  - lia.
  - reflexivity.
  - now left.
Defined.

Lemma start_prepares_the_markup_log_witness :
  (forall op, fault sample_env op = false) /\
  exists w',
    ensure_markup_log sample_env (World ∅ []) = (Ok tt, w') /\
    stdout w' = [] /\
    fs w' = <[Mac.markup_log_file sample_env := Mac.header]> ∅ /\
    Mac.load_markup_log sample_env w' = (Ok [], w').
Proof.
  split; [exact sample_no_fault|].
  destruct (start_prepares_the_markup_log sample_env (World ∅ []) sample_no_fault)
    as (w' & Hrun & Hout & Hfs).
  exists w'. split; [exact Hrun|]. split; [exact Hout|]. exact Hfs.
Defined.
